(** * LFS storage package: resumable transfer, chunk merge and MD5 cache

    A shallow embedding of the Go package [storage] of the LFS server
    (the flat implementation: [SaveFile], [SaveFileChunk],
    [mergeFileChunks], [DownloadFile], [DownloadFileChunk],
    [copyWithCancel], [parseRangeHeader], [ListFiles] and the [MD5Cache]
    methods), followed by the properties established about it.

    Conventions of the embedding:
    - Go's [int] and [int64] are [Z] with the two's-complement wrap-around
      written out ([wrap64]);
    - file contents are [list byte];
    - Go's [error] values are the inductive type [error]; a [nil] error is
      [None];
    - the process-wide [md5Cache] map is a [gmap string MD5CacheEntry]
      threaded explicitly;
    - the directory tree below the storage root is the record [FS]. *)

From Stdlib Require Import ZArith Lia List Ascii String Floats Sorted Uint63.
From Stdlib Require Import DecimalString DecimalZ.
From stdpp Require Import base option list strings gmap fin_maps.

Local Open Scope string_scope.
Local Open Scope list_scope.
Local Open Scope Z_scope.

(** ** Machine integers *)

Module Int64.

Definition min_int : Z := - 2 ^ 63.
Definition max_int : Z := 2 ^ 63 - 1.

(** Two's-complement reduction of a mathematical integer to [int64]. *)
Definition wrap64 (z : Z) : Z := (z + 2 ^ 63) mod 2 ^ 64 - 2 ^ 63.

Definition in_range (z : Z) : Prop := min_int <= z <= max_int.

Definition add (a b : Z) : Z := wrap64 (a + b).
Definition sub (a b : Z) : Z := wrap64 (a - b).
Definition mul (a b : Z) : Z := wrap64 (a * b).

End Int64.

(** ** Errors

    The [error] values the package can return: operating-system errors
    wrapped in [*fs.PathError], [strconv.NumError], the sentinel errors
    of [io], [context] and [net/http], and the messages built with
    [fmt.Errorf]. *)

Inductive Errno := ENOENT | EISDIR | ENOTDIR | EINVAL.

Inductive error :=
| PathError (op : string) (path : list string) (errno : Errno)
| NumError (func num : string)
| ErrorString (msg : string)
| ContextCanceled
| ErrShortWrite
| ErrContentLength
| EOF.

Definition ErrChunkNotFound : string := "chunk not found".
Definition ErrMD5Mismatch : string := "MD5 checksum mismatch".
Definition ErrMD5InProgress : string := "MD5 calculation in progress".

(** ** Decimal formatting and parsing ([strconv], [fmt] verb [%d]) *)

(** [strconv.FormatInt(z, 10)], also what [%d] prints. *)
Definition FormatInt (z : Z) : string := NilZero.string_of_int (Z.to_int z).

(** The digits of [strconv.ParseInt(s, 10, 64)] once the sign is read: at
    least one decimal digit; a value outside [int64] is a range error. *)
Definition parse_digits (s : string) (neg : bool) (t : string) : Z + error :=
  match NilZero.uint_of_string t with
  | Some d =>
      let v := if neg then - Z.of_uint d else Z.of_uint d in
      if (Int64.min_int <=? v) && (v <=? Int64.max_int)
      then inl v else inr (NumError "ParseInt" s)
  | None => inr (NumError "ParseInt" s)
  end.

(** [strconv.ParseInt(s, 10, 64)]: an optional sign, then the digits. *)
Definition ParseInt (s : string) : Z + error :=
  match s with
  | String c t =>
      if Ascii.eqb c "+" then parse_digits s false t
      else if Ascii.eqb c "-" then parse_digits s true t
      else parse_digits s false s
  | EmptyString => parse_digits s false s
  end.

(** [strconv.Atoi] on a 64-bit platform. *)
Definition Atoi (s : string) : Z + error :=
  match ParseInt s with
  | inl v => inl v
  | inr _ => inr (NumError "Atoi" s)
  end.

(** ** Strings ([strings] package) *)

(** [strings.Split(s, sep)] for a one-character separator. *)
Fixpoint Split (s : string) (sep : ascii) : list string :=
  match s with
  | EmptyString => [EmptyString]
  | String c rest =>
      if Ascii.eqb c sep then EmptyString :: Split rest sep
      else match Split rest sep with
           | h :: t => String c h :: t
           | [] => [String c EmptyString]
           end
  end.

Fixpoint strip_prefix (prefix s : string) : option string :=
  match prefix with
  | EmptyString => Some s
  | String a prefix' =>
      match s with
      | String b s' => if Ascii.eqb a b then strip_prefix prefix' s' else None
      | EmptyString => None
      end
  end.

(** [strings.TrimPrefix(s, prefix)]. *)
Definition TrimPrefix (s prefix : string) : string :=
  match strip_prefix prefix s with
  | Some rest => rest
  | None => s
  end.

(** [strings.HasSuffix(s, suffix)]. *)
Definition HasSuffix (s suffix : string) : bool :=
  let n := String.length s in
  let k := String.length suffix in
  (k <=? n)%nat && String.eqb (substring (n - k) k s) suffix.

Fixpoint string_forall (P : ascii → bool) (s : string) : bool :=
  match s with
  | EmptyString => true
  | String c rest => P c && string_forall P rest
  end.

(** A decimal digit. *)
Definition is_digit (c : ascii) : bool :=
  (48 <=? nat_of_ascii c)%nat && (nat_of_ascii c <=? 57)%nat.

(** ** Data types of the package *)

Abbreviation bytes := (list Byte.byte).

(** [time.Time] is a struct of three words; Go's [!=] on it compares
    them all. *)
Record Time := mkTime { wall : Z; ext : Z; loc : Z }.

Global Instance Time_eq_dec : EqDecision Time.
Proof. solve_decision. Defined.

Module FileMetadata.
Record t := mk {
  Name : string;
  Size : Z;
  ModTime : Time;
  MD5 : string
}.
End FileMetadata.

Module FileChunkInfo.
Record t := mk {
  FileName : string;
  TotalSize : Z;
  ChunkIndex : Z;
  ChunkSize : Z;
  TotalChunk : Z;
  MD5 : string
}.
End FileChunkInfo.

Module MD5CacheEntry.
Record t := mk {
  MD5 : string;
  ModTime : Time;
  Size : Z;
  Calculated : bool;
  Calculating : bool;
  Progress : float;
  Error : string
}.
End MD5CacheEntry.

(** [multipart.FileHeader]: the base name sent by the client and the bytes
    of the uploaded part. *)
Module FileHeader.
Record t := mk {
  Filename : string;
  content : bytes
}.
End FileHeader.

(** ** The MD5 cache

    [MD5Cache.cache] is a [map[string]*MD5CacheEntry]; every entry pointer
    is owned by the map alone, so an update through the pointer is an
    update of the map. The mutex is not modelled: each method is one
    atomic step. *)

Module MD5Cache.
Import MD5CacheEntry.

Abbreviation t := (gmap string MD5CacheEntry.t).

Definition GetMD5FromCache (mc : t) (filePath : string) (modTime : Time)
    (size : Z) : string * bool :=
  match mc !! filePath with
  | None => (EmptyString, false)
  | Some entry =>
      if negb (bool_decide (ModTime entry = modTime))
         || negb (Size entry =? size)
      then (EmptyString, false)
      else (MD5 entry, Calculated entry)
  end.

Definition SetMD5ToCache (mc : t) (filePath md5 : string) (modTime : Time)
    (size : Z) : t :=
  <[filePath := {| MD5 := md5; ModTime := modTime; Size := size;
                   Calculated := true; Calculating := false;
                   Progress := 0%float; Error := EmptyString |}]> mc.

Definition SetCalculating (mc : t) (filePath : string) (modTime : Time)
    (size : Z) : t :=
  <[filePath := {| MD5 := EmptyString; ModTime := modTime; Size := size;
                   Calculated := false; Calculating := true;
                   Progress := 0%float; Error := EmptyString |}]> mc.

Definition UpdateProgress (mc : t) (filePath : string) (progress : float) : t :=
  match mc !! filePath with
  | Some entry =>
      <[filePath := {| MD5 := MD5 entry; ModTime := ModTime entry;
                       Size := Size entry; Calculated := Calculated entry;
                       Calculating := Calculating entry;
                       Progress := progress; Error := Error entry |}]> mc
  | None => mc
  end.

Definition SetError (mc : t) (filePath : string) (err : string) : t :=
  match mc !! filePath with
  | Some entry =>
      <[filePath := {| MD5 := MD5 entry; ModTime := ModTime entry;
                       Size := Size entry; Calculated := Calculated entry;
                       Calculating := false;
                       Progress := Progress entry; Error := err |}]> mc
  | None => mc
  end.

Definition GetProgress (mc : t) (filePath : string) : float * bool * string :=
  match mc !! filePath with
  | None => (0%float, false, EmptyString)
  | Some entry => (Progress entry, Calculating entry, Error entry)
  end.

(** No entry is both finished and in flight. *)
Definition exclusive (e : MD5CacheEntry.t) : Prop :=
  ¬ (Calculated e = true ∧ Calculating e = true).

Definition wf (mc : t) : Prop :=
  ∀ p e, mc !! p = Some e → exclusive e.

End MD5Cache.

(** ** The storage directory

    The tree below [storagePath], in the layout the package itself
    maintains: entries directly under the root ([root]), and below
    [storagePath/chunks] one staging directory per uploaded file name,
    each holding regular chunk files ([staging]). A path
    [filepath.Join(storagePath, name)] is the key [name] of [root]; the
    path [filepath.Join(storagePath, "chunks", dir, name)] is the key
    [name] of [staging !! dir]. This reading of [filepath.Join] is exact
    for names that are a single path component ([path_component]); the
    reading of [filepath.Glob] below also needs the directory name free
    of pattern characters ([plain_name]).
    Failures of the environment (full disk, permissions) are not
    modelled: an operation fails only for the reasons listed with it. *)

Inductive Entry :=
| File (data : bytes)
| Dir (st_size : Z).

Record FS := mkFS {
  root : gmap string Entry;
  staging : gmap string (gmap string bytes)
}.

(** The process-wide state the package works on: the disk and the global
    variable [md5Cache]. *)
Record State := mkState {
  disk : FS;
  md5Cache : MD5Cache.t
}.

Definition with_disk (st : State) (fs : FS) : State :=
  {| disk := fs; md5Cache := md5Cache st |}.

(** Characters with a meaning for [filepath.Join] (the separator) or for
    [filepath.Glob] (its [magicChars] on Unix). *)
Definition special_char (c : ascii) : bool :=
  Ascii.eqb c "/" || Ascii.eqb c "*" || Ascii.eqb c "?" || Ascii.eqb c "["
  || Ascii.eqb c "\".

(** A name that is one path component: [filepath.Join] appends it as it
    is. *)
Definition path_component (s : string) : bool :=
  negb (String.eqb s EmptyString) && negb (String.eqb s ".")
  && negb (String.eqb s "..")
  && string_forall (λ c, negb (Ascii.eqb c "/")) s.

(** A path component that [filepath.Glob] also reads literally. *)
Definition plain_name (s : string) : bool :=
  path_component s && string_forall (λ c, negb (special_char c)) s.

Module OS.

(** [os.MkdirAll(filepath.Join(storagePath, "chunks", dir))]: fails when
    [storagePath/chunks] is a regular file. A directory it creates is
    given the size a new directory has on ext4. *)
Definition MkdirAll (fs : FS) (dir : string) : FS + error :=
  match root fs !! "chunks" with
  | Some (File _) => inr (PathError "mkdir" ["chunks"] ENOTDIR)
  | _ =>
      inl {| root := <["chunks" := match root fs !! "chunks" with
                                   | Some e => e
                                   | None => Dir 4096
                                   end]> (root fs);
             staging := match staging fs !! dir with
                        | Some _ => staging fs
                        | None => <[dir := ∅]> (staging fs)
                        end |}
  end.

(** An open descriptor of [storagePath/name]: its offset, and whether it
    was opened with [O_APPEND]. *)
Record Fd := mkFd {
  fd_name : string;
  fd_offset : Z;
  fd_append : bool
}.

(** [os.Create(filepath.Join(storagePath, name))]: creates or truncates. *)
Definition Create (fs : FS) (name : string) : FS * Fd + error :=
  match root fs !! name with
  | Some (Dir _) => inr (PathError "open" [name] EISDIR)
  | _ =>
      inl ({| root := <[name := File []]> (root fs); staging := staging fs |},
           {| fd_name := name; fd_offset := 0; fd_append := false |})
  end.

(** [os.OpenFile(filepath.Join(storagePath, name),
    O_CREATE|O_WRONLY|O_APPEND, 0644)]: creates the file when it is
    missing and keeps its bytes when it exists. *)
Definition OpenAppend (fs : FS) (name : string) : FS * Fd + error :=
  let fd := {| fd_name := name; fd_offset := 0; fd_append := true |} in
  match root fs !! name with
  | Some (Dir _) => inr (PathError "open" [name] EISDIR)
  | Some (File _) => inl (fs, fd)
  | None =>
      inl ({| root := <[name := File []]> (root fs); staging := staging fs |}, fd)
  end.

(** The largest offset of a file: [s_maxbytes] of ext4 with blocks of
    4 KiB, that is 16 TiB less one block. *)
Definition MaxOffset : Z := 17592186040320.

(** The offsets [lseek] accepts on a file of [size] bytes: the kernel
    refuses a negative offset and one above [MaxOffset] with [EINVAL].
    A file is never longer than [MaxOffset], so an offset inside the
    file is always accepted; the test says so for every content, also
    for one longer than any disk holds. *)
Definition seek_ok (size offset : Z) : bool :=
  (0 <=? offset) && (offset <=? Z.max MaxOffset size).

(** [f.Seek(offset, io.SeekStart)] on the descriptor [fd] of a regular
    file of [fs]. *)
Definition Seek (fs : FS) (fd : Fd) (offset : Z) : Fd + error :=
  let size := match root fs !! fd_name fd with
              | Some (File old) => Z.of_nat (length old)
              | _ => 0
              end in
  if seek_ok size offset
  then inl {| fd_name := fd_name fd; fd_offset := offset;
              fd_append := fd_append fd |}
  else inr (PathError "seek" [fd_name fd] EINVAL).

(** The bytes of a file after [data] is written at position [pos]: the
    bytes under the write are replaced, a gap past the old end reads as
    zeros. *)
Definition pwrite (old : bytes) (pos : Z) (data : bytes) : bytes :=
  let n := Z.to_nat pos in
  take n old ++ replicate (n - length old)%nat Byte.x00 ++ data
  ++ drop (n + length data)%nat old.

(** Writing all of [data] through [fd] (what [io.CopyBuffer] into the
    descriptor amounts to). With [O_APPEND] the kernel moves the offset
    to the end of the file before every write. *)
Definition Write (fs : FS) (fd : Fd) (data : bytes) : FS * Fd :=
  match root fs !! fd_name fd with
  | Some (File old) =>
      let pos := if fd_append fd then Z.of_nat (length old) else fd_offset fd in
      ({| root := <[fd_name fd := File (pwrite old pos data)]> (root fs);
          staging := staging fs |},
       {| fd_name := fd_name fd; fd_offset := pos + Z.of_nat (length data);
          fd_append := fd_append fd |})
  | _ => (fs, fd)
  end.

(** [os.Remove(filepath.Join(storagePath, name))] of a regular file. *)
Definition Remove (fs : FS) (name : string) : FS :=
  match root fs !! name with
  | Some (File _) => {| root := delete name (root fs); staging := staging fs |}
  | _ => fs
  end.

(** [os.Create] of the chunk file [name] in the staging directory [dir],
    followed by writing [data] to it. *)
Definition CreateChunk (fs : FS) (dir name : string) (data : bytes) : FS + error :=
  match staging fs !! dir with
  | None => inr (PathError "open" ["chunks"; dir; name] ENOENT)
  | Some d => inl {| root := root fs; staging := <[dir := <[name := data]> d]> (staging fs) |}
  end.

(** [os.Open] and read of a chunk file. *)
Definition ReadChunk (fs : FS) (dir name : string) : bytes + error :=
  match staging fs !! dir with
  | None => inr (PathError "open" ["chunks"; dir; name] ENOENT)
  | Some d =>
      match d !! name with
      | Some data => inl data
      | None => inr (PathError "open" ["chunks"; dir; name] ENOENT)
      end
  end.

(** [os.RemoveAll] of the staging directory [dir]. *)
Definition RemoveAll (fs : FS) (dir : string) : FS :=
  {| root := root fs; staging := delete dir (staging fs) |}.

(** Insertion into a list kept in the order of [sort.Strings]. *)
Fixpoint insert_sorted (x : string) (l : list string) : list string :=
  match l with
  | [] => [x]
  | y :: l' => if String.leb x y then x :: l else y :: insert_sorted x l'
  end.

(** [filepath.Glob(filepath.Join(chunkDir, "*" + suffix))] for a
    directory name without pattern characters: the entries of the
    directory whose name ends in [suffix], in sorted order. The result
    lists entry names; the path of each is [chunkDir/name]. *)
Definition Glob (fs : FS) (dir suffix : string) : list string :=
  match staging fs !! dir with
  | None => []
  | Some d =>
      foldr insert_sorted []
        (filter (λ n, HasSuffix n suffix = true) (elements (dom d)))
  end.

End OS.

(** [hex.EncodeToString(md5.Sum(data))]: the digest is a parameter of the
    development. *)
Class Digest := md5_hex : bytes → string.

(** [filepath.Join(storagePath, name)] as the key of the MD5 cache. *)
Definition Join (storagePath name : string) : string :=
  storagePath +:+ "/" +:+ name.

(** ** Uploads *)

Section Upload.
Context `{Digest}.

(** [calculateFileMD5(filepath.Join(storagePath, name))]. *)
Definition calculateFileMD5 (fs : FS) (name : string) : string + error :=
  match root fs !! name with
  | Some (File data) => inl (md5_hex data)
  | Some (Dir _) => inr (PathError "read" [name] EISDIR)
  | None => inr (PathError "open" [name] ENOENT)
  end.

(** The body of the loop [for i := 0; i < totalChunk; i++] of
    [mergeFileChunks], with [count] iterations left; [target] is the open
    descriptor of the destination. *)
Fixpoint merge_loop (fs : FS) (chunkDir : string) (target : OS.Fd) (i : Z)
    (count : nat) : FS * option error :=
  match count with
  | O => (fs, None)
  | S count' =>
      match OS.Glob fs chunkDir ("_" +:+ FormatInt i) with
      | [] =>
          (fs, Some (ErrorString
                       (ErrChunkNotFound +:+ ": chunk " +:+ FormatInt i)))
      | match0 :: _ =>
          match OS.ReadChunk fs chunkDir match0 with
          | inr err => (fs, Some err)
          | inl data =>
              let '(fs', target') := OS.Write fs target data in
              merge_loop fs' chunkDir target' (i + 1) count'
          end
      end
  end.

(** [mergeFileChunks(chunkDir, targetFile, totalChunk)] with
    [chunkDir = storagePath/chunks/<chunkDir>] and
    [targetFile = storagePath/<targetFile>]. *)
Definition mergeFileChunks (fs : FS) (chunkDir targetFile : string)
    (totalChunk : Z) : FS * option error :=
  match OS.Create fs targetFile with
  | inr err => (fs, Some err)
  | inl (fs1, target) =>
      match merge_loop fs1 chunkDir target 0 (Z.to_nat totalChunk) with
      | (fs2, Some err) => (fs2, Some err)
      | (fs2, None) => (OS.RemoveAll fs2 chunkDir, None)
      end
  end.

Definition integrity_error (expected got : string) : error :=
  ErrorString ("file integrity check failed: expected " +:+ expected
               +:+ ", got " +:+ got).

Definition chunkFileName (chunkInfo : FileChunkInfo.t) : string :=
  FileChunkInfo.FileName chunkInfo +:+ "_"
  +:+ FormatInt (FileChunkInfo.ChunkIndex chunkInfo).

(** [SaveFileChunk(storagePath, chunkInfo, file)]. *)
Definition SaveFileChunk (st : State) (chunkInfo : FileChunkInfo.t)
    (file : FileHeader.t) : State * option error :=
  let fileName := FileChunkInfo.FileName chunkInfo in
  match OS.MkdirAll (disk st) fileName with
  | inr err => (st, Some err)
  | inl fs1 =>
      match OS.CreateChunk fs1 fileName (chunkFileName chunkInfo)
              (FileHeader.content file) with
      | inr err => (with_disk st fs1, Some err)
      | inl fs2 =>
          if FileChunkInfo.ChunkIndex chunkInfo
             =? Int64.sub (FileChunkInfo.TotalChunk chunkInfo) 1
          then
            match mergeFileChunks fs2 fileName fileName
                    (FileChunkInfo.TotalChunk chunkInfo) with
            | (fs3, Some err) => (with_disk st fs3, Some err)
            | (fs3, None) =>
                match calculateFileMD5 fs3 fileName with
                | inr err => (with_disk st fs3, Some err)
                | inl md5sum =>
                    if negb (String.eqb md5sum (FileChunkInfo.MD5 chunkInfo))
                    then (with_disk st (OS.Remove fs3 fileName),
                          Some (integrity_error (FileChunkInfo.MD5 chunkInfo)
                                  md5sum))
                    else (with_disk st fs3, None)
                end
            end
          else (with_disk st fs2, None)
      end
  end.

(** The offset [SaveFile] reads from the [Range] header. *)
Definition resume_offset (rangeHeader : string) : Z + error :=
  if String.eqb rangeHeader EmptyString then inl 0
  else
    match Split (TrimPrefix rangeHeader "bytes=") "-" with
    | part0 :: _ => ParseInt part0
    | [] => inl 0
    end.

(** [SaveFile(storagePath, file, rangeHeader)]. *)
Definition SaveFile (st : State) (file : FileHeader.t) (rangeHeader : string)
    : State * option error :=
  match resume_offset rangeHeader with
  | inr err => (st, Some err)
  | inl start =>
      match OS.OpenAppend (disk st) (FileHeader.Filename file) with
      | inr err => (st, Some err)
      | inl (fs1, out) =>
          match (if 0 <? start then OS.Seek fs1 out start else inl out) with
          | inr err => (with_disk st fs1, Some err)
          | inl out' =>
              (with_disk st (OS.Write fs1 out' (FileHeader.content file)).1,
               None)
          end
      end
  end.

End Upload.

(** ** Downloads *)

Definition DefaultBufferSize : Z := 4 * 1024 * 1024.
Definition StatusPartialContent : Z := 206.
Definition StatusOK : Z := 200.

(** A call either returns or panics (an index out of range). *)
Inductive Outcome (A : Type) :=
| Return (a : A)
| Panic (msg : string).
Arguments Return {A} a.
Arguments Panic {A} msg.

(** The first [n] elements, and the rest, for a count held in an [int]. *)
Fixpoint takeZ {A} (n : Z) (l : list A) : list A :=
  match l with
  | [] => []
  | x :: l' => if n <=? 0 then [] else x :: takeZ (n - 1) l'
  end.

Fixpoint dropZ {A} (n : Z) (l : list A) : list A :=
  match l with
  | [] => []
  | x :: l' => if n <=? 0 then l else dropZ (n - 1) l'
  end.

(** An [*os.File] opened for reading: a regular file with its read
    offset, or a directory. *)
Inductive Reader :=
| FileReader (data : bytes) (offset : Z)
| DirReader (name : string).

(** [os.Open(filepath.Join(storagePath, name))] after a successful
    [os.Stat]. *)
Definition Open (e : Entry) (name : string) : Reader :=
  match e with
  | File data => FileReader data 0
  | Dir _ => DirReader name
  end.

(** [fileInfo.Size()]. *)
Definition Entry_Size (e : Entry) : Z :=
  match e with
  | File data => Z.of_nat (length data)
  | Dir sz => sz
  end.

(** [f.Seek(offset, io.SeekStart)] on a reader: the offsets accepted
    are those of [OS.seek_ok]. *)
Definition ReaderSeek (r : Reader) (offset : Z) : Reader + error :=
  match r with
  | FileReader data _ =>
      if OS.seek_ok (Z.of_nat (length data)) offset
      then inl (FileReader data offset)
      else inr (PathError "seek" [] EINVAL)
  | DirReader name =>
      if OS.seek_ok 0 offset then inl (DirReader name)
      else inr (PathError "seek" [] EINVAL)
  end.

(** [src.Read(buf)] with [len(buf) = buflen]: the bytes read and the
    error; at the end of the file, no bytes and [io.EOF]. *)
Definition Read (r : Reader) (buflen : Z) : Reader * bytes * option error :=
  match r with
  | DirReader name => (r, [], Some (PathError "read" [name] EISDIR))
  | FileReader data offset =>
      match dropZ offset data with
      | [] => (r, [], Some EOF)
      | rest =>
          let p := takeZ buflen rest in
          (FileReader data (offset + Z.of_nat (length p)), p, None)
      end
  end.

(** [gin.ResponseWriter], as far as the package uses it. *)
Class ResponseWriter (W : Type) := {
  HeaderSet : W → string → string → W;
  WriteHeader : W → Z → W;
  Write : W → bytes → W * Z * option error
}.

(** A writer that keeps whatever it is given, like
    [httptest.ResponseRecorder]. *)
Record Recorder := mkRecorder {
  rec_header : gmap string string;
  rec_code : Z;
  rec_body : bytes
}.

Definition newRecorder : Recorder :=
  {| rec_header := ∅; rec_code := StatusOK; rec_body := [] |}.

Global Instance Recorder_writer : ResponseWriter Recorder := {|
  HeaderSet w k v :=
    {| rec_header := <[k := v]> (rec_header w); rec_code := rec_code w;
       rec_body := rec_body w |};
  WriteHeader w code :=
    {| rec_header := rec_header w; rec_code := code; rec_body := rec_body w |};
  Write w p :=
    ({| rec_header := rec_header w; rec_code := rec_code w;
        rec_body := rec_body w ++ p |}, Z.of_nat (length p), None)
|}.

(** The writer of the [net/http] server: once the header is written with
    a declared [Content-Length], a write that would exceed it stores
    nothing and returns [http.ErrContentLength]. *)
Record Response := mkResponse {
  resp_header : gmap string string;
  resp_status : Z;
  resp_wroteHeader : bool;
  resp_contentLength : Z;
  resp_written : Z;
  resp_body : bytes
}.

Definition newResponse : Response :=
  {| resp_header := ∅; resp_status := StatusOK; resp_wroteHeader := false;
     resp_contentLength := -1; resp_written := 0; resp_body := [] |}.

Definition declaredLength (h : gmap string string) : Z :=
  match h !! "Content-Length" with
  | Some v => match ParseInt v with
              | inl n => if 0 <=? n then n else -1
              | inr _ => -1
              end
  | None => -1
  end.

Definition Response_WriteHeader (w : Response) (code : Z) : Response :=
  if resp_wroteHeader w then w
  else {| resp_header := resp_header w; resp_status := code;
          resp_wroteHeader := true;
          resp_contentLength := declaredLength (resp_header w);
          resp_written := resp_written w; resp_body := resp_body w |}.

Definition Response_Write (w : Response) (p : bytes)
    : Response * Z * option error :=
  let w := Response_WriteHeader w StatusOK in
  let written := resp_written w + Z.of_nat (length p) in
  if negb (resp_contentLength w =? -1) && (resp_contentLength w <? written)
  then ({| resp_header := resp_header w; resp_status := resp_status w;
           resp_wroteHeader := true;
           resp_contentLength := resp_contentLength w;
           resp_written := written; resp_body := resp_body w |},
        0, Some ErrContentLength)
  else ({| resp_header := resp_header w; resp_status := resp_status w;
           resp_wroteHeader := true;
           resp_contentLength := resp_contentLength w;
           resp_written := written; resp_body := resp_body w ++ p |},
        Z.of_nat (length p), None).

Global Instance Response_writer : ResponseWriter Response := {|
  HeaderSet w k v :=
    {| resp_header := <[k := v]> (resp_header w); resp_status := resp_status w;
       resp_wroteHeader := resp_wroteHeader w;
       resp_contentLength := resp_contentLength w;
       resp_written := resp_written w; resp_body := resp_body w |};
  WriteHeader := Response_WriteHeader;
  Write := Response_Write
|}.

(** [*gin.Context]: the response writer and whether the request context
    is already done (the client has gone). *)
Record Context (W : Type) := mkContext {
  Writer : W;
  ctx_done : bool
}.
Arguments Writer {W} c.
Arguments ctx_done {W} c.
Arguments mkContext {W} Writer ctx_done.

Section Download.
Context {W : Type} `{ResponseWriter W}.

(** The loop of [copyWithCancel]; [None] when [fuel] runs out. The
    parameter [size] of the source function is not used by its body and
    so takes no part here either. *)
Fixpoint copy_loop (fuel : nat) (done : bool) (dst : W) (src : Reader)
    (written : Z) : option (W * option error) :=
  match fuel with
  | O => None
  | S fuel' =>
      if done then Some (dst, Some ContextCanceled)
      else
        let '(src', p, er) := Read src DefaultBufferSize in
        let nr := Z.of_nat (length p) in
        let '(dst', written', stop) :=
          if 0 <? nr then
            let '(dst', nw, ew) := Write dst p in
            match ew with
            | Some e => (dst', written + nw, Some e)
            | None => if negb (nr =? nw)
                      then (dst', written + nw, Some ErrShortWrite)
                      else (dst', written + nw, None)
            end
          else (dst, written, None) in
        match stop with
        | Some e => Some (dst', Some e)
        | None =>
            match er with
            | Some EOF => Some (dst', None)
            | Some e => Some (dst', Some e)
            | None => copy_loop fuel' done dst' src' written'
            end
        end
  end.

(** The bytes of [src] not yet read. *)
Definition remaining (src : Reader) : bytes :=
  match src with
  | FileReader data offset => dropZ offset data
  | DirReader _ => []
  end.

(** [copyWithCancel(ctx, dst, src, size)]. Every round of the loop but
    the last reads at least one byte, so one round per remaining byte and
    one more are enough. *)
Definition copyWithCancel (done : bool) (dst : W) (src : Reader) (size : Z)
    : option (W * option error) :=
  copy_loop (S (length (remaining src))) done dst src 0.

End Download.

(** [parseRangeHeader(rangeHeader)]: the two indexings panic when the
    header has no ["="], or no ["-"] after it. *)
Definition parseRangeHeader (rangeHeader : string) : Outcome (Z * Z * option error) :=
  match Split rangeHeader "=" with
  | _ :: parts :: _ =>
      let rangeParts := Split parts "-" in
      match rangeParts with
      | [] => Panic "index out of range [0] with length 0"
      | part0 :: rest =>
          match Atoi part0 with
          | inr err => Return (0, 0, Some err)
          | inl start =>
              match rest with
              | [] => Panic "index out of range [1] with length 1"
              | part1 :: _ =>
                  if String.eqb part1 EmptyString
                  then Return (0, 0, Some (ErrorString "range end position required"))
                  else match Atoi part1 with
                       | inr err => Return (0, 0, Some err)
                       | inl end_ => Return (start, end_, None)
                       end
              end
          end
      end
  | _ => Panic "index out of range [1] with length 1"
  end.

Definition contentRange (start end_ fileSize : Z) : string :=
  "bytes " +:+ FormatInt start +:+ "-" +:+ FormatInt end_ +:+ "/"
  +:+ FormatInt fileSize.

Definition dquote : string := String (ascii_of_nat 34) EmptyString.

Section Handlers.
Context {W : Type} `{ResponseWriter W}.

(** The tail shared by the range path of [DownloadFile] and by
    [DownloadFileChunk]: the three headers, the check of the request
    context, the status line, the seek and the copy. [None] only if the
    copy ran out of fuel. *)
Definition serveWindow (c : Context W) (f : Reader) (start end_ fileSize : Z)
    : option (W * option error) :=
  let w1 := HeaderSet (Writer c) "Content-Range" (contentRange start end_ fileSize) in
  let w2 := HeaderSet w1 "Accept-Ranges" "bytes" in
  let w3 := HeaderSet w2 "Content-Length"
              (FormatInt (Int64.add (Int64.sub end_ start) 1)) in
  if ctx_done c then Some (w3, Some ContextCanceled)
  else
    let w4 := WriteHeader w3 StatusPartialContent in
    match ReaderSeek f start with
    | inr err => Some (w4, Some err)
    | inl f' =>
        copyWithCancel (ctx_done c) w4 f' (Int64.add (Int64.sub end_ start) 1)
    end.

(** [DownloadFile(c, storagePath, filename, rangeHeader)]. *)
Definition DownloadFile (fs : FS) (c : Context W) (filename rangeHeader : string)
    : Outcome (option (W * option error)) :=
  match root fs !! filename with
  | None => Return (Some (Writer c, Some (PathError "stat" [filename] ENOENT)))
  | Some fileInfo =>
      if negb (String.eqb rangeHeader EmptyString) then
        match parseRangeHeader rangeHeader with
        | Panic msg => Panic msg
        | Return (_, _, Some err) => Return (Some (Writer c, Some err))
        | Return (start, end_, None) =>
            Return (serveWindow c (Open fileInfo filename) start end_
                      (Entry_Size fileInfo))
        end
      else if ctx_done c then Return (Some (Writer c, Some ContextCanceled))
      else
        let f := Open fileInfo filename in
        let w1 := HeaderSet (Writer c) "Content-Disposition"
                    ("attachment; filename=" +:+ dquote +:+ filename +:+ dquote) in
        let w2 := HeaderSet w1 "Content-Type" "application/octet-stream" in
        let w3 := HeaderSet w2 "Content-Length" (FormatInt (Entry_Size fileInfo)) in
        Return (copyWithCancel (ctx_done c) w3 f (Entry_Size fileInfo))
  end.

(** The window [start, end] that [DownloadFileChunk] computes, in [int64]
    arithmetic, with its clamp of [end]. *)
Definition chunkWindow (chunkIndex chunkSize fileSize : Z) : Z * Z :=
  let start := Int64.mul chunkIndex chunkSize in
  let end_ := Int64.sub (Int64.add start chunkSize) 1 in
  let end_ := if fileSize <=? end_ then Int64.sub fileSize 1 else end_ in
  (start, end_).

(** [DownloadFileChunk(c, storagePath, filename, chunkIndex, chunkSize)]. *)
Definition DownloadFileChunk (fs : FS) (c : Context W) (filename : string)
    (chunkIndex chunkSize : Z) : option (W * option error) :=
  match root fs !! filename with
  | None => Some (Writer c, Some (PathError "stat" [filename] ENOENT))
  | Some fileInfo =>
      let fileSize := Entry_Size fileInfo in
      let '(start, end_) := chunkWindow chunkIndex chunkSize fileSize in
      serveWindow c (Open fileInfo filename) start end_ fileSize
  end.

End Handlers.

(** ** Directory listing *)

(** What [entry.Info()] returns for an entry of [os.ReadDir]. *)
Record FileInfo := mkFileInfo {
  fi_Name : string;
  fi_Size : Z;
  fi_ModTime : Time
}.

Record DirEntry := mkDirEntry {
  IsDir : bool;
  Info : FileInfo + error
}.

(** A goroutine started by [ListFiles]: the arguments of the closure. *)
Record Job := mkJob {
  job_filePath : string;
  job_modTime : Time;
  job_size : Z
}.

(** The loop [for _, entry := range entries] of [ListFiles]. The cache is
    threaded through the iterations; the goroutines started are collected
    in start order. *)
Fixpoint ListFiles_loop (storagePath : string) (entries : list DirEntry)
    (mc : MD5Cache.t) (files : list FileMetadata.t) (jobs : list Job)
    : (list FileMetadata.t + error) * MD5Cache.t * list Job :=
  match entries with
  | [] => (inl files, mc, jobs)
  | entry :: entries' =>
      if IsDir entry then ListFiles_loop storagePath entries' mc files jobs
      else
        match Info entry with
        | inr err => (inr err, mc, jobs)
        | inl info =>
            let filePath := Join storagePath (fi_Name info) in
            let '(md5sum, calculated) :=
              MD5Cache.GetMD5FromCache mc filePath (fi_ModTime info) (fi_Size info) in
            let '(md5sum, mc', jobs') :=
              if negb calculated then
                let calculating := (MD5Cache.GetProgress mc filePath).1.2 in
                if negb calculating then
                  (EmptyString,
                   MD5Cache.SetCalculating mc filePath (fi_ModTime info) (fi_Size info),
                   jobs ++ [mkJob filePath (fi_ModTime info) (fi_Size info)])
                else (EmptyString, mc, jobs)
              else (md5sum, mc, jobs) in
            let file := {| FileMetadata.Name := fi_Name info;
                           FileMetadata.Size := fi_Size info;
                           FileMetadata.ModTime := fi_ModTime info;
                           FileMetadata.MD5 := md5sum |} in
            ListFiles_loop storagePath entries' mc' (files ++ [file]) jobs'
        end
  end.

(** [ListFiles(storagePath)], given the entries [os.ReadDir] returns: the
    listing, the cache afterwards and the goroutines started. *)
Definition ListFiles (storagePath : string) (entries : list DirEntry)
    (mc : MD5Cache.t) : (list FileMetadata.t + error) * MD5Cache.t * list Job :=
  ListFiles_loop storagePath entries mc [] [].

(** A background job, run to its end: [md5] is what
    [calculateFileMD5WithProgress] returned. *)
Definition finishJob (mc : MD5Cache.t) (j : Job) (md5 : string + string)
    : MD5Cache.t :=
  match md5 with
  | inr err => MD5Cache.SetError mc (job_filePath j) err
  | inl sum => MD5Cache.SetMD5ToCache mc (job_filePath j) sum
                 (job_modTime j) (job_size j)
  end.

(** ** Vocabulary of the statements *)


Definition is_dir (fs : FS) (name : string) : bool :=
  match root fs !! name with
  | Some (Dir _) => true
  | _ => false
  end.

(** A fresh storage directory and an empty cache. *)
Definition empty_state : State :=
  {| disk := {| root := ∅; staging := ∅ |}; md5Cache := ∅ |}.

(** The five bytes of the word hello. *)
Definition hello : bytes := [Byte.x68; Byte.x65; Byte.x6c; Byte.x6c; Byte.x6f].

(** A cache with one computation in flight. *)
Definition cache_in_flight : MD5Cache.t :=
  MD5Cache.SetCalculating ∅ "/data/movie.mkv" (mkTime 17 0 1) 4096.

(** The names in the staging directory [dir]. *)
Definition dir_entries (fs : FS) (dir : string) : gset string :=
  match staging fs !! dir with
  | Some d => dom d
  | None => ∅
  end.

(** The staging directory holds a chunk file for index [i]: an entry the
    pattern [*_i] matches. *)
Definition chunk_present (fs : FS) (dir : string) (i : Z) : Prop :=
  ∃ name, name ∈ dir_entries fs dir
          ∧ HasSuffix name ("_" +:+ FormatInt i) = true.

Definition chunk_missing (fs : FS) (dir : string) (i : Z) : Prop :=
  ∀ name, name ∈ dir_entries fs dir →
          HasSuffix name ("_" +:+ FormatInt i) = false.

(** The bytes of the chunk file the merge reads for index [i]: those of
    the first match of the pattern. *)
Definition chunk_at (fs : FS) (dir : string) (i : Z) : option bytes :=
  match OS.Glob fs dir ("_" +:+ FormatInt i) with
  | [] => None
  | match0 :: _ =>
      match OS.ReadChunk fs dir match0 with
      | inl data => Some data
      | inr _ => None
      end
  end.

(** The chunks of indices [i], [i+1], ... in order, [count] of them at
    most, up to the first index without a chunk file. *)
Fixpoint merged (fs : FS) (dir : string) (i : Z) (count : nat) : bytes :=
  match count with
  | O => []
  | S count' =>
      match chunk_at fs dir i with
      | Some data => data ++ merged fs dir (i + 1) count'
      | None => []
      end
  end.

(** The first index among [i], ..., [i + count - 1] without a chunk
    file. *)
Fixpoint first_missing (fs : FS) (dir : string) (i : Z) (count : nat) : option Z :=
  match count with
  | O => None
  | S count' =>
      match chunk_at fs dir i with
      | Some _ => first_missing fs dir (i + 1) count'
      | None => Some i
      end
  end.

(** The chunks of indices [0] to [n - 1], one after the other. *)
Definition chunks_concat (fs : FS) (dir : string) (n : nat) : bytes :=
  concat (map (λ j, default [] (chunk_at fs dir (Z.of_nat j))) (seq 0 n)).

Definition chunk_not_found (i : Z) : error :=
  ErrorString (ErrChunkNotFound +:+ ": chunk " +:+ FormatInt i).

(** The disk once [SaveFileChunk] has persisted its chunk, before it
    looks at the index. *)
Definition staged (fs : FS) (chunkInfo : FileChunkInfo.t) (file : FileHeader.t)
    : FS + error :=
  match OS.MkdirAll fs (FileChunkInfo.FileName chunkInfo) with
  | inr err => inr err
  | inl fs1 =>
      OS.CreateChunk fs1 (FileChunkInfo.FileName chunkInfo)
        (chunkFileName chunkInfo) (FileHeader.content file)
  end.

(** A stand-in digest for running examples: the decimal length of the
    data. *)
Definition length_digest : Digest := λ data, FormatInt (Z.of_nat (length data)).

(** A storage directory in which chunks 0 and 1 of [a.bin] are staged. *)
Definition two_chunks_staged : State :=
  {| disk := {| root := {[ "chunks" := Dir 4096 ]};
                staging := {[ "a.bin" := {[ "a.bin_0" := [Byte.x01; Byte.x02];
                                            "a.bin_1" := [Byte.x03; Byte.x04] ]} ]} |};
     md5Cache := ∅ |}.

(** The descriptor of chunk [i] of the five-byte file [a.bin], sent in
    three chunks, with declared checksum [md5]. *)
Definition a_bin_chunk (i : Z) (md5 : string) : FileChunkInfo.t :=
  {| FileChunkInfo.FileName := "a.bin"; FileChunkInfo.TotalSize := 5;
     FileChunkInfo.ChunkIndex := i; FileChunkInfo.ChunkSize := 2;
     FileChunkInfo.TotalChunk := 3; FileChunkInfo.MD5 := md5 |}.

Definition part (data : bytes) : FileHeader.t :=
  {| FileHeader.Filename := "blob"; FileHeader.content := data |}.

(** The storage directory with chunk 0 of [a.bin] staged, with all three
    chunks staged, and after the merge. *)
Definition one_chunk_staged : State :=
  {| disk := {| root := {[ "chunks" := Dir 4096 ]};
                staging := {[ "a.bin" := {[ "a.bin_0" := [Byte.x01; Byte.x02] ]} ]} |};
     md5Cache := ∅ |}.

Definition three_chunks_staged : FS :=
  {| root := {[ "chunks" := Dir 4096 ]};
     staging := {[ "a.bin" := {[ "a.bin_0" := [Byte.x01; Byte.x02];
                                 "a.bin_1" := [Byte.x03; Byte.x04];
                                 "a.bin_2" := [Byte.x05] ]} ]} |}.

Definition a_bin_merged : FS :=
  {| root := {[ "chunks" := Dir 4096;
                "a.bin" := File [Byte.x01; Byte.x02; Byte.x03; Byte.x04; Byte.x05] ]};
     staging := ∅ |}.

(** The three headers of a partial response, set on the header map [h]. *)
Definition windowHeaders (h : gmap string string) (start end_ fileSize : Z)
    : gmap string string :=
  <["Content-Length" := FormatInt (Int64.add (Int64.sub end_ start) 1)]>
    (<["Accept-Ranges" := "bytes"]>
       (<["Content-Range" := contentRange start end_ fileSize]> h)).

(** A fresh request whose client stays connected, for either writer. *)
Definition recorderContext : Context Recorder := mkContext newRecorder false.
Definition serverContext : Context Response := mkContext newResponse false.

(** A file of [n] bytes counting up from zero, and a storage directory
    that holds it under the name [data.bin]. *)
Definition counting (n : nat) : bytes :=
  map (λ k, default Byte.x00 (Byte.of_N (N.of_nat k mod 256))) (seq 0 n).

Definition holding (content : bytes) : FS :=
  {| root := {[ "data.bin" := File content ]}; staging := ∅ |}.

(** Whether a computation is in flight for [filePath] (the second result
    of [GetProgress]), and whether the cache holds a checksum that is
    valid for the fingerprint (the second result of [GetMD5FromCache]). *)
Definition calculating (mc : MD5Cache.t) (filePath : string) : bool :=
  (MD5Cache.GetProgress mc filePath).1.2.

Definition cached (mc : MD5Cache.t) (filePath : string) (modTime : Time)
    (size : Z) : bool :=
  (MD5Cache.GetMD5FromCache mc filePath modTime size).2.

Definition job_paths (jobs : list Job) : list string := map job_filePath jobs.

(** How the cache [mc'] and the jobs started so far relate to the cache
    [mc] the listing began with: a path with a job is marked in flight,
    had no computation in flight and no valid checksum at the beginning,
    and has one job only; every other path is as it was. *)
Definition listing_inv (mc mc' : MD5Cache.t) (jobs : list Job) : Prop :=
  NoDup (job_paths jobs)
  ∧ (∀ j, j ∈ jobs →
          calculating mc (job_filePath j) = false
          ∧ cached mc (job_filePath j) (job_modTime j) (job_size j) = false
          ∧ calculating mc' (job_filePath j) = true
          ∧ ∀ modTime size, cached mc' (job_filePath j) modTime size = false)
  ∧ (∀ p, p ∉ job_paths jobs → mc' !! p = mc !! p).

(** A directory entry that needs no new job under the cache [mc]: a
    directory, or a file with a valid checksum or a computation in
    flight. *)
Definition settled (storagePath : string) (mc : MD5Cache.t) (entry : DirEntry)
    : Prop :=
  IsDir entry = true
  ∨ (∃ info, Info entry = inl info
             ∧ (cached mc (Join storagePath (fi_Name info)) (fi_ModTime info)
                  (fi_Size info) = true
                ∨ calculating mc (Join storagePath (fi_Name info)) = true)).

(** The names [ListFiles] lists: those of the entries that are not
    directories. *)
Definition listed_names (entries : list DirEntry) : list string :=
  omap (λ entry, if IsDir entry then None
                 else match Info entry with
                      | inl info => Some (fi_Name info)
                      | inr _ => None
                      end) entries.

(** The cache key of a listed file. *)
Definition listed_path (storagePath : string) (f : FileMetadata.t) : string :=
  Join storagePath (FileMetadata.Name f).

(** A listing of three entries: a directory, a file whose checksum is
    cached, and a file never seen before; and the cache it meets. *)
Definition listing_entries : list DirEntry :=
  [ mkDirEntry true (inl (mkFileInfo "chunks" 4096 (mkTime 1 0 0)));
    mkDirEntry false (inl (mkFileInfo "small.txt" 10240 (mkTime 2 0 0)));
    mkDirEntry false (inl (mkFileInfo "huge.iso" 10737418240 (mkTime 3 0 0))) ].

Definition listing_cache : MD5Cache.t :=
  MD5Cache.SetMD5ToCache ∅ "/srv/small.txt" "9e107d9d372bb6826bd81d3542a419d6"
    (mkTime 2 0 0) 10240.

(** The order of [sort.Strings]. *)
Definition string_le (a b : string) : Prop := String.leb a b = true.

(** The caches the four mutating methods produce, starting from the
    empty map of [md5Cache]. *)
Inductive reachable : MD5Cache.t → Prop :=
| reachable_empty : reachable ∅
| reachable_SetMD5ToCache mc filePath md5 modTime size :
    reachable mc →
    reachable (MD5Cache.SetMD5ToCache mc filePath md5 modTime size)
| reachable_SetCalculating mc filePath modTime size :
    reachable mc →
    reachable (MD5Cache.SetCalculating mc filePath modTime size)
| reachable_SetError mc filePath err :
    reachable mc → reachable (MD5Cache.SetError mc filePath err)
| reachable_UpdateProgress mc filePath progress :
    reachable mc → reachable (MD5Cache.UpdateProgress mc filePath progress).

(** ** Checksums of stored files *)

Definition MD5ChunkSize : Z := 64 * 1024 * 1024.

(** The conversion [float64(n)] of a non-negative [int64]. *)
Definition float_of_int64 (n : Z) : float := PrimFloat.of_uint63 (Uint63.of_Z n).

Section Checksums.
Context `{Digest}.

(** The loop of [calculateFileMD5Chunked]: [hashed] is what [hash.Write]
    has received so far, [reports] the progress values handed to the
    callback, in call order; [None] when [fuel] runs out. *)
Fixpoint md5_chunked_loop (fuel : nat) (file : Reader) (hashed : bytes)
    (totalRead fileSize : Z) (reports : list float)
    : option ((string + error) * list float) :=
  match fuel with
  | O => None
  | S fuel' =>
      let '(file', p, err) := Read file MD5ChunkSize in
      let n := Z.of_nat (length p) in
      let '(hashed', totalRead', reports') :=
        if 0 <? n
        then (hashed ++ p, totalRead + n,
              reports ++ [PrimFloat.div (float_of_int64 (totalRead + n))
                            (float_of_int64 fileSize)])
        else (hashed, totalRead, reports) in
      match err with
      | Some EOF => Some (inl (md5_hex hashed'), reports')
      | Some e => Some (inr e, reports')
      | None => md5_chunked_loop fuel' file' hashed' totalRead' fileSize reports'
      end
  end.

(** [calculateFileMD5Chunked(filepath.Join(storagePath, name), cb)]: the
    result and the progress values passed to [cb]. *)
Definition calculateFileMD5Chunked (fs : FS) (name : string)
    : option ((string + error) * list float) :=
  match root fs !! name with
  | None => Some (inr (PathError "open" [name] ENOENT), [])
  | Some e =>
      md5_chunked_loop (S (length (remaining (Open e name)))) (Open e name) []
        0 (Entry_Size e) []
  end.

(** [calculateFileMD5WithProgress(filepath.Join(storagePath, name), cb)]. *)
Definition calculateFileMD5WithProgress (fs : FS) (name : string)
    : option ((string + error) * list float) :=
  match root fs !! name with
  | None => Some (inr (PathError "stat" [name] ENOENT), [])
  | Some e =>
      if 100 * 1024 * 1024 <? Entry_Size e
      then calculateFileMD5Chunked fs name
      else Some (calculateFileMD5 fs name, [])
  end.

End Checksums.

(** The verb [%.1f] of [fmt], a parameter of the development. *)
Class FloatFormat := format_1f : float → string.

(** [os.Stat(filepath.Join(storagePath, name))]; [modTime] is the
    modification time the file system reports for the entry. *)
Definition Stat (fs : FS) (name : string) (modTime : Time) : FileInfo + error :=
  match root fs !! name with
  | None => inr (PathError "stat" [name] ENOENT)
  | Some e => inl {| fi_Name := name; fi_Size := Entry_Size e;
                     fi_ModTime := modTime |}
  end.

(** [CheckFileExists(storagePath, filename)]. *)
Definition CheckFileExists (fs : FS) (filename : string) : option error :=
  match root fs !! filename with
  | None => Some (PathError "stat" [filename] ENOENT)
  | Some _ => None
  end.

Section Metadata.
Context `{Digest} `{FloatFormat}.

(** [GetFileMD5(storagePath, filename)]; [None] only if the computation
    ran out of fuel. *)
Definition GetFileMD5 (st : State) (storagePath filename : string)
    (modTime : Time) : option (State * (string * option error)) :=
  let filePath := Join storagePath filename in
  match Stat (disk st) filename modTime with
  | inr err => Some (st, (EmptyString, Some err))
  | inl info =>
      let '(md5sum, calculated) :=
        MD5Cache.GetMD5FromCache (md5Cache st) filePath (fi_ModTime info)
          (fi_Size info) in
      if calculated then Some (st, (md5sum, None))
      else
        let '(progress, calculating, errorMsg) :=
          MD5Cache.GetProgress (md5Cache st) filePath in
        if calculating
        then Some (st, (EmptyString,
                        Some (ErrorString
                                (ErrMD5InProgress +:+ ": progress "
                                 +:+ format_1f (PrimFloat.mul progress 100)
                                 +:+ "%"))))
        else if negb (String.eqb errorMsg EmptyString)
        then Some (st, (EmptyString,
                        Some (ErrorString ("MD5 calculation failed: " +:+ errorMsg))))
        else
          match calculateFileMD5WithProgress (disk st) filename with
          | None => None
          | Some (inr err, _) => Some (st, (EmptyString, Some err))
          | Some (inl md5sum, _) =>
              Some ({| disk := disk st;
                       md5Cache := MD5Cache.SetMD5ToCache (md5Cache st) filePath
                                     md5sum (fi_ModTime info) (fi_Size info) |},
                    (md5sum, None))
          end
  end.

(** [GetFileMetadataWithMD5(storagePath, filename)]. *)
Definition GetFileMetadataWithMD5 (st : State) (storagePath filename : string)
    (modTime : Time) : option (State * (FileMetadata.t + error)) :=
  match Stat (disk st) filename modTime with
  | inr err => Some (st, inr err)
  | inl info =>
      match GetFileMD5 st storagePath filename modTime with
      | None => None
      | Some (st', (md5sum, err)) =>
          let md5sum := match err with Some _ => EmptyString | None => md5sum end in
          Some (st', inl {| FileMetadata.Name := fi_Name info;
                            FileMetadata.Size := fi_Size info;
                            FileMetadata.ModTime := fi_ModTime info;
                            FileMetadata.MD5 := md5sum |})
      end
  end.

End Metadata.

(** ** The pooled copy of package [optimization] *)

Definition BufferSize : Z := 4 * 1024 * 1024.

Section Optimized.
Context {W : Type} `{ResponseWriter W}.

(** The loop of [OptimizedCopy]; [None] when [fuel] runs out. *)
Fixpoint optimized_loop (fuel : nat) (done : bool) (dst : W) (src : Reader)
    (written size : Z) : option (W * option error) :=
  match fuel with
  | O => None
  | S fuel' =>
      if done then Some (dst, Some ContextCanceled)
      else
        let '(src', p, er) := Read src BufferSize in
        let nr := Z.of_nat (length p) in
        let continue (dst' : W) (written' : Z) :=
          match er with
          | Some EOF => Some (dst', None)
          | Some e => Some (dst', Some e)
          | None => optimized_loop fuel' done dst' src' written' size
          end in
        if 0 <? nr then
          let '(dst', nw, ew) := Write dst p in
          match ew with
          | Some e => Some (dst', Some e)
          | None => if size <=? written + nw then Some (dst', None)
                    else continue dst' (written + nw)
          end
        else continue dst written
  end.

(** [OptimizedCopy(ctx, dst, src, size)]. *)
Definition OptimizedCopy (done : bool) (dst : W) (src : Reader) (size : Z)
    : option (W * option error) :=
  optimized_loop (S (length (remaining src))) done dst src 0 size.

End Optimized.




(** The number of reads of [MD5ChunkSize] bytes a file of [n] bytes
    takes. *)
Definition md5_blocks (n : Z) : Z := (n + MD5ChunkSize - 1) / MD5ChunkSize.

(** An instance of [FloatFormat] for the examples: every progress value
    prints as [0.0]. *)
Definition zero_format : FloatFormat := λ _, "0.0".

(** The entries [ListFiles] can list: each one is a directory or has its
    [Info]. *)
Definition readable (entry : DirEntry) : Prop :=
  IsDir entry = true ∨ ∃ info, Info entry = inl info.

(** The listing read off the cache [mc] alone: for each file its name,
    size and modification time, with the checksum the cache holds as
    valid for that fingerprint, or none. *)
Definition listing_of (storagePath : string) (mc : MD5Cache.t)
    (entries : list DirEntry) : list FileMetadata.t :=
  omap (λ entry,
          if IsDir entry then None
          else match Info entry with
               | inr _ => None
               | inl info =>
                   Some {| FileMetadata.Name := fi_Name info;
                           FileMetadata.Size := fi_Size info;
                           FileMetadata.ModTime := fi_ModTime info;
                           FileMetadata.MD5 :=
                             if cached mc (Join storagePath (fi_Name info))
                                  (fi_ModTime info) (fi_Size info)
                             then (MD5Cache.GetMD5FromCache mc
                                     (Join storagePath (fi_Name info))
                                     (fi_ModTime info) (fi_Size info)).1
                             else EmptyString |}
               end) entries.

(** The jobs read off the cache [mc] alone: one for each file with no
    valid checksum and no computation in flight. *)
Definition jobs_of (storagePath : string) (mc : MD5Cache.t)
    (entries : list DirEntry) : list Job :=
  omap (λ entry,
          if IsDir entry then None
          else match Info entry with
               | inr _ => None
               | inl info =>
                   let filePath := Join storagePath (fi_Name info) in
                   if negb (cached mc filePath (fi_ModTime info) (fi_Size info))
                      && negb (calculating mc filePath)
                   then Some (mkJob filePath (fi_ModTime info) (fi_Size info))
                   else None
               end) entries.

(** The cache once the jobs are marked as started. *)
Definition started (mc : MD5Cache.t) (jobs : list Job) : MD5Cache.t :=
  foldl (λ mc j, MD5Cache.SetCalculating mc (job_filePath j) (job_modTime j)
                   (job_size j)) mc jobs.

(** How far [OptimizedCopy] reads for a declared [size]: whole buffers,
    at least one, until [size] bytes are covered. *)
Definition pooled_window (size : Z) : Z :=
  BufferSize * Z.max 1 ((size + BufferSize - 1) / BufferSize).

(** ** Listings that overlap *)

(** Every method of [MD5Cache] takes the lock for itself, so a call of
    [ListFiles] reaches the cache in separate atomic steps, and another
    call can run between any two of them. Where one listing stands
    between two such steps: before [GetMD5FromCache] on the next entry;
    after it found no valid checksum for the file [info], before
    [GetProgress]; after [GetProgress] found no computation in flight,
    before [SetCalculating] and the [go] statement. *)
Inductive Stage :=
| AtEntry
| Checked (info : FileInfo)
| Probed (info : FileInfo).

(** A call of [ListFiles] under way, with the entries still to visit,
    the files listed and the goroutines started so far; or returned. *)
Inductive Listing :=
| Running (todo : list DirEntry) (stage : Stage)
    (files : list FileMetadata.t) (jobs : list Job)
| Returned (result : list FileMetadata.t + error) (jobs : list Job).

Definition listed (info : FileInfo) (md5sum : string) : FileMetadata.t :=
  {| FileMetadata.Name := fi_Name info;
     FileMetadata.Size := fi_Size info;
     FileMetadata.ModTime := fi_ModTime info;
     FileMetadata.MD5 := md5sum |}.

(** One atomic step of a listing on the shared cache: the code of the
    loop of [ListFiles] up to and including its next call of a cache
    method. *)
Definition ListFiles_step (storagePath : string) (mc : MD5Cache.t)
    (l : Listing) : Listing * MD5Cache.t :=
  match l with
  | Returned _ _ => (l, mc)
  | Running todo AtEntry files jobs =>
      match todo with
      | [] => (Returned (inl files) jobs, mc)
      | entry :: todo' =>
          if IsDir entry then (Running todo' AtEntry files jobs, mc)
          else
            match Info entry with
            | inr err => (Returned (inr err) jobs, mc)
            | inl info =>
                let filePath := Join storagePath (fi_Name info) in
                let '(md5sum, calculated) :=
                  MD5Cache.GetMD5FromCache mc filePath (fi_ModTime info)
                    (fi_Size info) in
                if negb calculated
                then (Running todo' (Checked info) files jobs, mc)
                else (Running todo' AtEntry (files ++ [listed info md5sum]) jobs,
                      mc)
            end
      end
  | Running todo (Checked info) files jobs =>
      let filePath := Join storagePath (fi_Name info) in
      let calculating := (MD5Cache.GetProgress mc filePath).1.2 in
      if negb calculating
      then (Running todo (Probed info) files jobs, mc)
      else (Running todo AtEntry (files ++ [listed info EmptyString]) jobs, mc)
  | Running todo (Probed info) files jobs =>
      let filePath := Join storagePath (fi_Name info) in
      (Running todo AtEntry (files ++ [listed info EmptyString])
         (jobs ++ [mkJob filePath (fi_ModTime info) (fi_Size info)]),
       MD5Cache.SetCalculating mc filePath (fi_ModTime info) (fi_Size info))
  end.

(** A listing that runs alone for [fuel] steps. *)
Fixpoint ListFiles_run (storagePath : string) (fuel : nat) (mc : MD5Cache.t)
    (l : Listing) : Listing * MD5Cache.t :=
  match fuel with
  | O => (l, mc)
  | S fuel' =>
      let '(l', mc') := ListFiles_step storagePath mc l in
      ListFiles_run storagePath fuel' mc' l'
  end.

(** Two listings on one cache: the schedule names, step by step, the
    listing that moves ([true] for the first). *)
Fixpoint interleave (storagePath : string) (schedule : list bool)
    (mc : MD5Cache.t) (a b : Listing) : Listing * Listing * MD5Cache.t :=
  match schedule with
  | [] => (a, b, mc)
  | true :: schedule' =>
      let '(a', mc') := ListFiles_step storagePath mc a in
      interleave storagePath schedule' mc' a' b
  | false :: schedule' =>
      let '(b', mc') := ListFiles_step storagePath mc b in
      interleave storagePath schedule' mc' a b'
  end.

(** The schedule on which two listings of one file take each step one
    after the other, and the one on which the second starts when the
    first has returned. *)
Definition in_lockstep : list bool :=
  [true; false; true; false; true; false; true; false].

Definition in_turn : list bool :=
  [true; true; true; true; false; false; false].

(** * Properties *)

(** ** Machine integers and decimal strings *)

Lemma wrap64_in_range z : Int64.in_range (Int64.wrap64 z).
Proof.
  unfold Int64.in_range, Int64.wrap64, Int64.min_int, Int64.max_int.
  pose proof (Z.mod_pos_bound (z + 2 ^ 63) (2 ^ 64) ltac:(lia)). lia.
Qed.

Lemma wrap64_id z : Int64.in_range z → Int64.wrap64 z = z.
Proof.
  unfold Int64.in_range, Int64.wrap64, Int64.min_int, Int64.max_int. intros Hz.
  rewrite Z.mod_small; lia.
Qed.

(** ** Strings and decimal numerals *)

Lemma string_forall_impl (P Q : ascii → bool) s :
  (∀ c, P c = true → Q c = true) →
  string_forall P s = true → string_forall Q s = true.
Proof.
  intros HPQ. induction s as [|c s IH]; simpl; [done|].
  intros [Hc Hs]%andb_true_iff. rewrite (HPQ _ Hc). simpl. auto.
Qed.

Lemma string_forall_app P s t :
  string_forall P (s +:+ t) = string_forall P s && string_forall P t.
Proof.
  induction s as [|c s IH]; simpl; [done|]. by rewrite IH, andb_assoc.
Qed.

Lemma digits_of_uint d : string_forall is_digit (NilEmpty.string_of_uint d) = true.
Proof. induction d; simpl; auto. Qed.

Lemma digits_of_nonneg z :
  0 ≤ z → string_forall is_digit (FormatInt z) = true
          ∧ FormatInt z ≠ EmptyString.
Proof.
  intros Hz. unfold FormatInt. destruct z as [|p|p]; [done| |lia].
  simpl. unfold NilZero.string_of_uint.
  pose proof (digits_of_uint (Pos.to_uint p)) as Hd.
  destruct (Pos.to_uint p) eqn:Hp; simpl in *; try done.
Qed.

Lemma Split_until sep s t :
  string_forall (λ c, negb (Ascii.eqb c sep)) s = true →
  Split (s +:+ String sep t) sep = s :: Split t sep.
Proof.
  induction s as [|c s IH]; simpl.
  - intros _. by rewrite Ascii.eqb_refl.
  - intros [Hc Hs]%andb_true_iff. apply negb_true_iff in Hc. rewrite Hc.
    by rewrite (IH Hs).
Qed.

Lemma strip_prefix_app p s : strip_prefix p (p +:+ s) = Some s.
Proof. induction p as [|c p IH]; simpl; [done|]. by rewrite Ascii.eqb_refl. Qed.

Lemma TrimPrefix_app p s : TrimPrefix (p +:+ s) p = s.
Proof. unfold TrimPrefix. by rewrite strip_prefix_app. Qed.

Lemma is_digit_not_sign c :
  is_digit c = true →
  Ascii.eqb c "+" = false ∧ Ascii.eqb c "-" = false.
Proof. destruct c as [[] [] [] [] [] [] [] []]; done. Qed.

Lemma ParseInt_FormatInt z :
  0 ≤ z ≤ Int64.max_int → ParseInt (FormatInt z) = inl z.
Proof.
  intros Hz. destruct (digits_of_nonneg z) as [Hd Hne]; [lia|].
  unfold ParseInt. destruct (FormatInt z) as [|c t] eqn:Hs; [done|].
  simpl in Hd. apply andb_true_iff in Hd as [Hc _].
  destruct (is_digit_not_sign c Hc) as [-> ->].
  rewrite <- Hs. unfold parse_digits, FormatInt.
  assert (Hu : NilZero.uint_of_string (NilZero.string_of_int (Z.to_int z))
               = Some (match Z.to_int z with Decimal.Pos d => d | Decimal.Neg d => d end)
               ∧ Z.of_uint (match Z.to_int z with Decimal.Pos d => d | Decimal.Neg d => d end) = z).
  { destruct z as [|p|p]; [done| |lia]. simpl. split.
    - apply NilZero.usu. intros Hnil.
      pose proof (DecimalPos.Unsigned.of_to p) as Hp. rewrite Hnil in Hp. discriminate.
    - pose proof (DecimalZ.of_to (Z.pos p)) as Hp. exact Hp. }
  destruct Hu as [-> ->].
  unfold Int64.min_int, Int64.max_int in *.
  destruct (Z.leb_spec (- 2 ^ 63) z); [|lia].
  destruct (Z.leb_spec z (2 ^ 63 - 1)); [done|lia].
Qed.


(** ** The MD5 cache *)

Section CacheFacts.
Import MD5CacheEntry MD5Cache.

Lemma GetMD5FromCache_hit (mc : MD5Cache.t) filePath modTime size sum :
  GetMD5FromCache mc filePath modTime size = (sum, true) ↔
  ∃ e, mc !! filePath = Some e ∧ ModTime e = modTime ∧ Size e = size
       ∧ Calculated e = true ∧ MD5 e = sum.
Proof.
  unfold GetMD5FromCache. split.
  - destruct (mc !! filePath) as [e|] eqn:He; [|discriminate].
    case_bool_decide as Ht; simpl; [|discriminate].
    destruct (Z.eqb_spec (Size e) size) as [Hs|Hs]; simpl; [|discriminate].
    intros [= Hm Hc]. exists e. auto.
  - intros (e & -> & Ht & Hs & Hc & Hm).
    rewrite bool_decide_eq_true_2 by done. simpl.
    rewrite (proj2 (Z.eqb_eq _ _) Hs). simpl. by rewrite Hm, Hc.
Qed.

Lemma GetMD5FromCache_miss_absent (mc : MD5Cache.t) filePath modTime size :
  mc !! filePath = None →
  GetMD5FromCache mc filePath modTime size = (EmptyString, false).
Proof. unfold GetMD5FromCache. by intros ->. Qed.

Lemma GetMD5FromCache_miss_stale (mc : MD5Cache.t) filePath modTime size e :
  mc !! filePath = Some e →
  ModTime e ≠ modTime ∨ Size e ≠ size →
  GetMD5FromCache mc filePath modTime size = (EmptyString, false).
Proof.
  unfold GetMD5FromCache. intros -> [Ht|Hs].
  - by rewrite bool_decide_eq_false_2.
  - apply Z.eqb_neq in Hs. rewrite Hs. simpl. by rewrite orb_true_r.
Qed.

Lemma GetMD5FromCache_miss_pending (mc : MD5Cache.t) filePath modTime size e :
  mc !! filePath = Some e →
  Calculated e = false →
  (GetMD5FromCache mc filePath modTime size).2 = false.
Proof.
  unfold GetMD5FromCache. intros -> Hc.
  destruct (_ || _); simpl; [done | exact Hc].
Qed.

Lemma wf_insert (mc : MD5Cache.t) p e :
  wf mc → exclusive e → wf (<[p := e]> mc).
Proof.
  intros Hwf He q e' Hq. destruct (decide (p = q)) as [->|Hne].
  - rewrite lookup_insert_eq in Hq. by injection Hq as <-.
  - rewrite lookup_insert_ne in Hq by done. eauto.
Qed.

Lemma wf_empty : wf ∅.
Proof. intros p e Hp. by rewrite lookup_empty in Hp. Qed.

Lemma wf_SetMD5ToCache mc filePath md5 modTime size :
  wf mc → wf (SetMD5ToCache mc filePath md5 modTime size).
Proof. intros Hwf. apply wf_insert; [done|]. intros [_ Hc]. discriminate. Qed.

Lemma wf_SetCalculating mc filePath modTime size :
  wf mc → wf (SetCalculating mc filePath modTime size).
Proof. intros Hwf. apply wf_insert; [done|]. intros [Hc _]. discriminate. Qed.

Lemma wf_SetError mc filePath err :
  wf mc → wf (SetError mc filePath err).
Proof.
  intros Hwf. unfold SetError.
  destruct (mc !! filePath) as [e|] eqn:He; [|done].
  apply wf_insert; [done|]. intros [_ Hc]. discriminate.
Qed.

Lemma wf_UpdateProgress mc filePath progress :
  wf mc → wf (UpdateProgress mc filePath progress).
Proof.
  intros Hwf. unfold UpdateProgress.
  destruct (mc !! filePath) as [e|] eqn:He; [|done].
  apply wf_insert; [done|]. exact (Hwf _ _ He).
Qed.

End CacheFacts.

(** Claim C5. [GetMD5FromCache(path, modTime, size)] reports a hit (a
    checksum together with [true]) exactly when the cache holds an entry
    for [path] whose stored modification time and size equal the given
    ones and whose state is Calculated, and the checksum returned is the
    stored one. With no entry, with a different modification time, with a
    different size, or with an entry that is not yet Calculated, the
    lookup is a miss. *)
Theorem GetMD5FromCache_hit_iff_valid :
  ∀ (mc : MD5Cache.t) (filePath : string) (modTime : Time) (size : Z),
    (∀ sum,
       MD5Cache.GetMD5FromCache mc filePath modTime size = (sum, true) ↔
       ∃ e, mc !! filePath = Some e
            ∧ MD5CacheEntry.ModTime e = modTime
            ∧ MD5CacheEntry.Size e = size
            ∧ MD5CacheEntry.Calculated e = true
            ∧ MD5CacheEntry.MD5 e = sum)
    ∧ (mc !! filePath = None →
       (MD5Cache.GetMD5FromCache mc filePath modTime size).2 = false)
    ∧ (∀ e, mc !! filePath = Some e →
            MD5CacheEntry.ModTime e ≠ modTime
            ∨ MD5CacheEntry.Size e ≠ size
            ∨ MD5CacheEntry.Calculated e = false →
            (MD5Cache.GetMD5FromCache mc filePath modTime size).2 = false).
Proof.
  intros mc filePath modTime size. split; [|split].
  - intros sum. apply GetMD5FromCache_hit.
  - intros Hnone. by rewrite GetMD5FromCache_miss_absent.
  - intros e He [Ht|[Hs|Hc]].
    + by rewrite (GetMD5FromCache_miss_stale _ _ _ _ e) by auto.
    + by rewrite (GetMD5FromCache_miss_stale _ _ _ _ e) by auto.
    + by apply (GetMD5FromCache_miss_pending _ _ _ _ e).
Qed.

(** Claim C9. An entry of the MD5 cache never has [Calculated] and
    [Calculating] both true: from any cache without such an entry, each
    of [SetMD5ToCache], [SetCalculating], [SetError] and [UpdateProgress]
    yields a cache without one, and so no cache these methods produce
    from the empty map has one. *)
Theorem cache_never_calculated_and_calculating :
  ∀ mc : MD5Cache.t,
    MD5Cache.wf mc →
    (∀ filePath md5 modTime size,
       MD5Cache.wf (MD5Cache.SetMD5ToCache mc filePath md5 modTime size))
    ∧ (∀ filePath modTime size,
         MD5Cache.wf (MD5Cache.SetCalculating mc filePath modTime size))
    ∧ (∀ filePath err, MD5Cache.wf (MD5Cache.SetError mc filePath err))
    ∧ (∀ filePath progress,
         MD5Cache.wf (MD5Cache.UpdateProgress mc filePath progress))
    ∧ (∀ mc0, reachable mc0 → MD5Cache.wf mc0).
Proof.
  intros mc Hwf. repeat split; intros.
  - by apply wf_SetMD5ToCache.
  - by apply wf_SetCalculating.
  - by apply wf_SetError.
  - by apply wf_UpdateProgress.
  - match goal with Hr : reachable _ |- _ => induction Hr end.
    + apply wf_empty.
    + by apply wf_SetMD5ToCache.
    + by apply wf_SetCalculating.
    + by apply wf_SetError.
    + by apply wf_UpdateProgress.
Qed.

Lemma cache_never_calculated_and_calculating_witness :
  MD5Cache.wf cache_in_flight
  ∧ MD5Cache.wf (MD5Cache.SetError cache_in_flight "/data/movie.mkv" "read error")
  ∧ MD5Cache.wf (MD5Cache.UpdateProgress cache_in_flight "/data/movie.mkv" 0.5%float).
Proof.
  assert (Hwf : MD5Cache.wf cache_in_flight).
  { intros p e Hp. unfold cache_in_flight, MD5Cache.SetCalculating in Hp.
    apply lookup_insert_Some in Hp as [[_ <-]|[_ Hp]].
    - intros [Hc _]. discriminate.
    - by rewrite lookup_empty in Hp. }
  pose proof (cache_never_calculated_and_calculating cache_in_flight Hwf)
    as (_ & _ & Herr & Hprog & _).
  split; [exact Hwf|]. split; [apply Herr | apply Hprog].
Defined.

(** ** Resumable upload *)

Section UploadFacts.
Context `{Digest}.

Lemma pwrite_end (old data : bytes) :
  OS.pwrite old (Z.of_nat (length old)) data = old ++ data.
Proof.
  unfold OS.pwrite. rewrite Nat2Z.id.
  rewrite firstn_all, Nat.sub_diag. simpl.
  rewrite drop_ge by lia. by rewrite app_nil_r.
Qed.


Lemma seek_ok_intro size offset :
  0 ≤ offset → offset ≤ OS.MaxOffset ∨ offset ≤ size →
  OS.seek_ok size offset = true.
Proof.
  intros Hlo Hhi. unfold OS.seek_ok.
  apply andb_true_iff. split; [apply Z.leb_le; lia|].
  apply Z.leb_le. lia.
Qed.

Lemma seek_ok_beyond size offset :
  OS.MaxOffset < offset → size < offset → OS.seek_ok size offset = false.
Proof.
  intros Hmax Hsize. unfold OS.seek_ok.
  apply andb_false_iff. right. apply Z.leb_gt. lia.
Qed.


End UploadFacts.



(** ** Chunk upload and merge *)

Lemma insert_sorted_elem (x y : string) l :
  x ∈ OS.insert_sorted y l ↔ x = y ∨ x ∈ l.
Proof.
  induction l as [|z l IH]; simpl.
  - rewrite list_elem_of_singleton, elem_of_nil. tauto.
  - destruct (String.leb y z); rewrite !elem_of_cons, ?IH; tauto.
Qed.

Lemma sorted_elem (x : string) l :
  x ∈ foldr OS.insert_sorted [] l ↔ x ∈ l.
Proof.
  induction l as [|z l IH]; simpl; [done|].
  rewrite insert_sorted_elem, IH, elem_of_cons. tauto.
Qed.

Lemma Glob_elem fs dir suffix name :
  name ∈ OS.Glob fs dir suffix ↔
  name ∈ dir_entries fs dir ∧ HasSuffix name suffix = true.
Proof.
  unfold OS.Glob, dir_entries. destruct (staging fs !! dir) as [d|].
  - rewrite sorted_elem, list_elem_of_filter, elem_of_elements. tauto.
  - rewrite elem_of_nil, elem_of_empty. tauto.
Qed.

Lemma Glob_nil fs dir i :
  OS.Glob fs dir ("_" +:+ FormatInt i) = [] ↔ chunk_missing fs dir i.
Proof.
  unfold chunk_missing. split.
  - intros Hnil name Hin.
    destruct (HasSuffix name _) eqn:Hs; [|done].
    assert (name ∈ OS.Glob fs dir ("_" +:+ FormatInt i)) as Hg
      by (by apply Glob_elem).
    rewrite Hnil in Hg. by apply elem_of_nil in Hg.
  - intros Hmiss. destruct (OS.Glob _ _ _) as [|m ms] eqn:Hg; [done|].
    assert (m ∈ OS.Glob fs dir ("_" +:+ FormatInt i)) as Hin
      by (rewrite Hg; apply list_elem_of_here).
    apply Glob_elem in Hin as [Hin Hs]. by rewrite (Hmiss m Hin) in Hs.
Qed.

Lemma chunk_at_None fs dir i :
  chunk_at fs dir i = None ↔ chunk_missing fs dir i.
Proof.
  rewrite <- Glob_nil. unfold chunk_at.
  destruct (OS.Glob _ _ _) as [|m ms] eqn:Hg; [done|].
  assert (m ∈ OS.Glob fs dir ("_" +:+ FormatInt i)) as Hin
    by (rewrite Hg; apply list_elem_of_here).
  apply Glob_elem in Hin as [Hin _]. unfold dir_entries, OS.ReadChunk in *.
  destruct (staging fs !! dir) as [d|]; [|by apply elem_of_empty in Hin].
  apply elem_of_dom in Hin as [data ->]. done.
Qed.

Lemma chunk_at_Some fs dir i :
  is_Some (chunk_at fs dir i) ↔ chunk_present fs dir i.
Proof.
  split.
  - intros Hsome. unfold chunk_at in Hsome.
    destruct (OS.Glob _ _ _) as [|m ms] eqn:Hg; [by destruct Hsome|].
    exists m. apply Glob_elem. rewrite Hg. apply list_elem_of_here.
  - intros (name & Hin & Hs). apply not_eq_None_Some. intros Hnone.
    apply chunk_at_None in Hnone. by rewrite (Hnone name Hin) in Hs.
Qed.

Lemma chunk_at_staging fs fs' dir i :
  staging fs = staging fs' → chunk_at fs dir i = chunk_at fs' dir i.
Proof.
  intros Hst. unfold chunk_at, OS.Glob, OS.ReadChunk. by rewrite Hst.
Qed.

Lemma merged_staging fs fs' dir i count :
  staging fs = staging fs' → merged fs dir i count = merged fs' dir i count.
Proof.
  intros Hst. revert i. induction count as [|n IH]; intros i; simpl; [done|].
  rewrite (chunk_at_staging fs fs') by done. by rewrite IH.
Qed.

Lemma first_missing_staging fs fs' dir i count :
  staging fs = staging fs' →
  first_missing fs dir i count = first_missing fs' dir i count.
Proof.
  intros Hst. revert i. induction count as [|n IH]; intros i; simpl; [done|].
  rewrite (chunk_at_staging fs fs') by done. by rewrite IH.
Qed.

(** A write through a descriptor positioned at the end of its file
    extends the file. *)
Lemma Write_at_end fs fd old data :
  root fs !! OS.fd_name fd = Some (File old) →
  OS.fd_append fd = false →
  OS.fd_offset fd = Z.of_nat (length old) →
  OS.Write fs fd data
  = ({| root := <[OS.fd_name fd := File (old ++ data)]> (root fs);
        staging := staging fs |},
     {| OS.fd_name := OS.fd_name fd;
        OS.fd_offset := Z.of_nat (length (old ++ data));
        OS.fd_append := false |}).
Proof.
  intros Hold Happ Hoff. unfold OS.Write. rewrite Hold, Happ, Hoff.
  rewrite pwrite_end, length_app. do 2 f_equal. lia.
Qed.

(** The loop of the merge: the destination receives the chunks up to the
    first missing index, which the error names. *)
Lemma merge_loop_spec dir count :
  ∀ fs target i old,
    root fs !! OS.fd_name target = Some (File old) →
    OS.fd_append target = false →
    OS.fd_offset target = Z.of_nat (length old) →
    merge_loop fs dir target i count
    = ({| root := <[OS.fd_name target := File (old ++ merged fs dir i count)]> (root fs);
          staging := staging fs |},
       chunk_not_found <$> first_missing fs dir i count).
Proof.
  induction count as [|n IH]; intros fs target i old Hold Happ Hoff; simpl.
  - rewrite app_nil_r, insert_id by done. by destruct fs.
  - unfold chunk_at.
    destruct (OS.Glob fs dir ("_" +:+ FormatInt i)) as [|m ms] eqn:Hg.
    + rewrite app_nil_r, insert_id by done. by destruct fs.
    + destruct (OS.ReadChunk fs dir m) as [data|err] eqn:Hr.
      * rewrite (Write_at_end fs target old data) by done.
        set (fs' := {| root := _; staging := staging fs |}).
        rewrite (IH fs' _ (i + 1) (old ++ data)); simpl;
          [|by rewrite lookup_insert_eq|done|done].
        rewrite insert_insert_eq, <- app_assoc.
        rewrite (merged_staging fs' fs) by done.
        by rewrite (first_missing_staging fs' fs).
      * exfalso.
        assert (m ∈ OS.Glob fs dir ("_" +:+ FormatInt i)) as Hin
          by (rewrite Hg; apply list_elem_of_here).
        apply Glob_elem in Hin as [Hin _].
        unfold dir_entries, OS.ReadChunk in *.
        destruct (staging fs !! dir) as [d|]; [|by apply elem_of_empty in Hin].
        apply elem_of_dom in Hin as [data Hd]. by rewrite Hd in Hr.
Qed.

Section MergeFacts.
Context `{Digest}.

Lemma mergeFileChunks_spec fs dir targetFile totalChunk :
  is_dir fs targetFile = false →
  mergeFileChunks fs dir targetFile totalChunk
  = let n := Z.to_nat totalChunk in
    ({| root := <[targetFile := File (merged fs dir 0 n)]> (root fs);
        staging := match first_missing fs dir 0 n with
                   | Some _ => staging fs
                   | None => delete dir (staging fs)
                   end |},
     chunk_not_found <$> first_missing fs dir 0 n).
Proof.
  intros Hdir. unfold mergeFileChunks, OS.Create, is_dir in *.
  set (fs1 := {| root := <[targetFile := File []]> (root fs); staging := staging fs |}).
  set (target := {| OS.fd_name := targetFile; OS.fd_offset := 0; OS.fd_append := false |}).
  assert (Hloop := merge_loop_spec dir (Z.to_nat totalChunk) fs1 target 0 []).
  simpl in Hloop. rewrite lookup_insert_eq, insert_insert_eq in Hloop.
  specialize (Hloop eq_refl eq_refl eq_refl).
  rewrite (merged_staging fs1 fs), (first_missing_staging fs1 fs) in Hloop by done.
  destruct (root fs !! targetFile) as [[old|sz]|]; [|done|];
    rewrite Hloop; by destruct (first_missing fs dir 0 _).
Qed.

End MergeFacts.

Lemma first_missing_found fs dir count :
  ∀ i0 i,
    (∀ j, i0 ≤ j < i → chunk_present fs dir j) →
    chunk_missing fs dir i →
    i0 ≤ i < i0 + Z.of_nat count →
    first_missing fs dir i0 count = Some i.
Proof.
  induction count as [|n IH]; intros i0 i Hpre Hmiss Hi; simpl; [lia|].
  destruct (decide (i0 = i)) as [->|Hne].
  - apply chunk_at_None in Hmiss. by rewrite Hmiss.
  - destruct (proj2 (chunk_at_Some fs dir i0)) as [data ->]; [apply Hpre; lia|].
    apply IH; [|done|lia]. intros j Hj. apply Hpre. lia.
Qed.

Lemma merged_concat fs dir k :
  ∀ count i0,
    (∀ j, i0 ≤ j < i0 + Z.of_nat k → chunk_present fs dir j) →
    ((k < count)%nat → chunk_missing fs dir (i0 + Z.of_nat k)) →
    (k ≤ count)%nat →
    merged fs dir i0 count
    = concat (map (λ j, default [] (chunk_at fs dir (i0 + Z.of_nat j))) (seq 0 k)).
Proof.
  induction k as [|k IH]; intros count i0 Hpre Hmiss Hk.
  - destruct count as [|n]; simpl; [done|].
    rewrite Z.add_0_r in Hmiss.
    by rewrite (proj2 (chunk_at_None fs dir i0)) by (apply Hmiss; lia).
  - destruct count as [|n]; [lia|]. simpl.
    destruct (proj2 (chunk_at_Some fs dir i0)) as [data Hd]; [apply Hpre; lia|].
    rewrite Z.add_0_r, Hd. simpl. f_equal.
    rewrite (IH n (i0 + 1)).
    + rewrite <- seq_shift, map_map. f_equal. apply map_ext. intros j.
      do 2 f_equal. lia.
    + intros j Hj. apply Hpre. lia.
    + intros Hlt. replace (i0 + 1 + Z.of_nat k) with (i0 + Z.of_nat (S k)) by lia.
      apply Hmiss. lia.
    + lia.
Qed.

Lemma first_missing_None fs dir count :
  ∀ i0, first_missing fs dir i0 count = None →
        ∀ j, i0 ≤ j < i0 + Z.of_nat count → chunk_present fs dir j.
Proof.
  induction count as [|n IH]; intros i0 Hnone j Hj; simpl in *; [lia|].
  destruct (chunk_at fs dir i0) as [data|] eqn:Hd; [|done].
  destruct (decide (j = i0)) as [->|Hne].
  - apply chunk_at_Some. by rewrite Hd.
  - apply (IH (i0 + 1)); [done|lia].
Qed.

Lemma chunks_concat_merged fs dir k count :
  (∀ j, 0 ≤ j < Z.of_nat k → chunk_present fs dir j) →
  ((k < count)%nat → chunk_missing fs dir (Z.of_nat k)) →
  (k ≤ count)%nat →
  merged fs dir 0 count = chunks_concat fs dir k.
Proof.
  intros Hpre Hmiss Hk. by rewrite (merged_concat fs dir k count 0).
Qed.

(** Claim C7. When the staging directory, named by one literal path
    component, holds a chunk file for every index below [i] but none for
    [i], with [0 <= i < totalChunk], and the destination is not a
    directory, the merge returns the error [chunk not found: chunk i]; the destination
    exists and holds the chunks of indices [0] to [i - 1] in order, every
    other entry of the root is as before, and the staging area, with the
    chunk directory, is as before. *)
Theorem merge_aborts_at_first_missing_chunk :
  ∀ (fs : FS) (chunkDir targetFile : string) (totalChunk i : Z),
    plain_name chunkDir = true →
    is_dir fs targetFile = false →
    0 ≤ i < totalChunk →
    (∀ j, 0 ≤ j < i → chunk_present fs chunkDir j) →
    chunk_missing fs chunkDir i →
    ∃ fs',
      mergeFileChunks fs chunkDir targetFile totalChunk
      = (fs', Some (ErrorString ("chunk not found: chunk " +:+ FormatInt i)))
      ∧ root fs' !! targetFile
        = Some (File (chunks_concat fs chunkDir (Z.to_nat i)))
      ∧ (∀ name, name ≠ targetFile → root fs' !! name = root fs !! name)
      ∧ staging fs' = staging fs.
Proof.
  intros fs chunkDir targetFile totalChunk i _ Hdir Hi Hpre Hmiss.
  rewrite (mergeFileChunks_spec fs chunkDir targetFile totalChunk Hdir).
  cbv zeta.
  rewrite (first_missing_found fs chunkDir (Z.to_nat totalChunk) 0 i)
    by (done || lia).
  rewrite (chunks_concat_merged fs chunkDir (Z.to_nat i) (Z.to_nat totalChunk)).
  - eexists. split; [reflexivity|]. simpl. split; [by rewrite lookup_insert_eq|].
    split; [|done]. intros name Hne. by rewrite lookup_insert_ne.
  - intros j Hj. apply Hpre. lia.
  - intros _. by rewrite Z2Nat.id by lia.
  - lia.
Qed.

Lemma merge_aborts_at_first_missing_chunk_witness :
  plain_name "a.bin" = true
  ∧ is_dir (disk two_chunks_staged) "a.bin" = false
  ∧ 0 ≤ 2 < 3
  ∧ (∀ j, 0 ≤ j < 2 → chunk_present (disk two_chunks_staged) "a.bin" j)
  ∧ chunk_missing (disk two_chunks_staged) "a.bin" 2
  ∧ ∃ fs',
      mergeFileChunks (disk two_chunks_staged) "a.bin" "a.bin" 3
      = (fs', Some (ErrorString "chunk not found: chunk 2"))
      ∧ root fs' !! "a.bin"
        = Some (File [Byte.x01; Byte.x02; Byte.x03; Byte.x04])
      ∧ (∀ name, name ≠ "a.bin" →
                 root fs' !! name = root (disk two_chunks_staged) !! name)
      ∧ staging fs' = staging (disk two_chunks_staged).
Proof.
  assert (H1 : plain_name "a.bin" = true) by reflexivity.
  assert (H2 : is_dir (disk two_chunks_staged) "a.bin" = false) by reflexivity.
  assert (H3 : 0 ≤ 2 < 3) by lia.
  assert (H4 : ∀ j, 0 ≤ j < 2 → chunk_present (disk two_chunks_staged) "a.bin" j).
  { intros j Hj. apply chunk_at_Some.
    assert (j = 0 ∨ j = 1) as [-> | ->] by lia; vm_compute; eauto. }
  assert (H5 : chunk_missing (disk two_chunks_staged) "a.bin" 2).
  { apply chunk_at_None. vm_compute. reflexivity. }
  split; [exact H1|]. split; [exact H2|]. split; [exact H3|].
  split; [exact H4|]. split; [exact H5|].
  exact (merge_aborts_at_first_missing_chunk (disk two_chunks_staged)
           "a.bin" "a.bin" 3 2 H1 H2 H3 H4 H5).
Defined.

Section ChunkUploadFacts.
Context `{Digest}.

Lemma SaveFileChunk_staged_error st chunkInfo file :
  ∀ err, staged (disk st) chunkInfo file = inr err →
         (SaveFileChunk st chunkInfo file).2 = Some err.
Proof.
  intros err. unfold staged, SaveFileChunk.
  destruct (OS.MkdirAll _ _) as [fs1|e]; [|by intros [= ->]].
  destruct (OS.CreateChunk _ _ _ _) as [fs2|e]; [done|by intros [= ->]].
Qed.

(** [SaveFileChunk] in terms of the disk after the chunk is persisted. *)
Lemma SaveFileChunk_staged st chunkInfo file fs2 :
  staged (disk st) chunkInfo file = inl fs2 →
  SaveFileChunk st chunkInfo file
  = let fileName := FileChunkInfo.FileName chunkInfo in
    if FileChunkInfo.ChunkIndex chunkInfo
       =? Int64.sub (FileChunkInfo.TotalChunk chunkInfo) 1
    then
      match mergeFileChunks fs2 fileName fileName
              (FileChunkInfo.TotalChunk chunkInfo) with
      | (fs3, Some err) => (with_disk st fs3, Some err)
      | (fs3, None) =>
          match calculateFileMD5 fs3 fileName with
          | inr err => (with_disk st fs3, Some err)
          | inl md5sum =>
              if negb (String.eqb md5sum (FileChunkInfo.MD5 chunkInfo))
              then (with_disk st (OS.Remove fs3 fileName),
                    Some (integrity_error (FileChunkInfo.MD5 chunkInfo) md5sum))
              else (with_disk st fs3, None)
          end
      end
    else (with_disk st fs2, None).
Proof.
  unfold staged, SaveFileChunk.
  destruct (OS.MkdirAll _ _) as [fs1|e]; [|done].
  by intros ->.
Qed.

Lemma staged_disk fs chunkInfo file fs2 :
  staged fs chunkInfo file = inl fs2 →
  let fileName := FileChunkInfo.FileName chunkInfo in
  root fs2 = <["chunks" := default (Dir 4096) (root fs !! "chunks")]> (root fs)
  ∧ (∀ data, root fs !! "chunks" ≠ Some (File data))
  ∧ staging fs2
    = <[fileName := <[chunkFileName chunkInfo := FileHeader.content file]>
                      (default ∅ (staging fs !! fileName))]> (staging fs).
Proof.
  intros Hst fileName. unfold staged, OS.MkdirAll, OS.CreateChunk in Hst.
  destruct (root fs !! "chunks") as [[data|sz]|] eqn:Hc; [done| |];
    simpl in Hst; fold fileName in Hst;
    destruct (staging fs !! fileName) as [d|] eqn:Hd; simpl in Hst;
    rewrite ?Hd, ?lookup_insert_eq in Hst; injection Hst as <-; simpl;
    rewrite ?insert_insert_eq; done.
Qed.

End ChunkUploadFacts.

(** Claim C10. A successful [SaveFileChunk] whose file name is one path
    component and whose index is not [totalChunk - 1] (as [int]
    arithmetic computes it) changes the staging area only by the one chunk file
    [chunks/<fileName>/<fileName>_<chunkIndex>], which then holds the
    uploaded bytes: the other chunk files of the directory and the other
    staging directories are as before. Under the root nothing changes but
    the directory [chunks], which exists afterwards: every regular file
    there, the final destination among them, is as before. The MD5 cache
    is as before. *)
Theorem non_final_chunk_writes_only_its_chunk_file :
  ∀ `{Digest} (st st' : State) (chunkInfo : FileChunkInfo.t) (file : FileHeader.t),
    path_component (FileChunkInfo.FileName chunkInfo) = true →
    FileChunkInfo.ChunkIndex chunkInfo
      ≠ Int64.sub (FileChunkInfo.TotalChunk chunkInfo) 1 →
    SaveFileChunk st chunkInfo file = (st', None) →
    let fileName := FileChunkInfo.FileName chunkInfo in
    staging (disk st')
    = <[fileName := <[chunkFileName chunkInfo := FileHeader.content file]>
                      (default ∅ (staging (disk st) !! fileName))]>
        (staging (disk st))
    ∧ (∀ dir, dir ≠ fileName →
              staging (disk st') !! dir = staging (disk st) !! dir)
    ∧ (∀ name, name ≠ chunkFileName chunkInfo →
               default ∅ (staging (disk st') !! fileName) !! name
               = default ∅ (staging (disk st) !! fileName) !! name)
    ∧ (∀ name, name ≠ "chunks" →
               root (disk st') !! name = root (disk st) !! name)
    ∧ (∀ name data, root (disk st') !! name = Some (File data)
                    ↔ root (disk st) !! name = Some (File data))
    ∧ md5Cache st' = md5Cache st.
Proof.
  intros Hd st st' chunkInfo file _ Hidx Hsave fileName.
  destruct (staged (disk st) chunkInfo file) as [fs2|err] eqn:Hst.
  - rewrite (SaveFileChunk_staged _ _ _ _ Hst) in Hsave. cbv zeta in Hsave.
    apply Z.eqb_neq in Hidx. rewrite Hidx in Hsave. injection Hsave as <-.
    destruct (staged_disk _ _ _ _ Hst) as (Hroot & Hnofile & Hstaging).
    fold fileName in Hstaging. simpl. rewrite Hroot, Hstaging.
    split; [done|]. split; [|split; [|split; [|split]]].
    + intros dir Hne. by rewrite lookup_insert_ne.
    + intros name Hne. rewrite lookup_insert_eq. simpl.
      by rewrite lookup_insert_ne.
    + intros name Hne. by rewrite lookup_insert_ne.
    + intros name data. destruct (decide (name = "chunks")) as [->|Hne].
      * rewrite lookup_insert_eq.
        destruct (root (disk st) !! "chunks") as [[d|sz]|] eqn:Hc; simpl;
          [by destruct (Hnofile d)| |]; split; intros [=].
      * by rewrite lookup_insert_ne.
    + done.
  - pose proof (SaveFileChunk_staged_error st chunkInfo file err Hst) as He.
    rewrite Hsave in He. discriminate.
Qed.

Lemma non_final_chunk_writes_only_its_chunk_file_witness :
  path_component "a.bin" = true
  ∧ 1 ≠ Int64.sub 3 1
  ∧ SaveFileChunk (H := length_digest) one_chunk_staged (a_bin_chunk 1 "5")
      (part [Byte.x03; Byte.x04])
    = (two_chunks_staged, None)
  ∧ md5Cache two_chunks_staged = md5Cache one_chunk_staged
  ∧ ∀ name data,
      root (disk two_chunks_staged) !! name = Some (File data)
      ↔ root (disk one_chunk_staged) !! name = Some (File data).
Proof.
  assert (Hname : path_component "a.bin" = true) by reflexivity.
  assert (Hidx : 1 ≠ Int64.sub 3 1) by (vm_compute; discriminate).
  assert (Hsave : SaveFileChunk (H := length_digest) one_chunk_staged
                    (a_bin_chunk 1 "5") (part [Byte.x03; Byte.x04])
                  = (two_chunks_staged, None)) by (vm_compute; reflexivity).
  destruct (non_final_chunk_writes_only_its_chunk_file one_chunk_staged
              two_chunks_staged (a_bin_chunk 1 "5") (part [Byte.x03; Byte.x04])
              Hname Hidx Hsave) as (_ & _ & _ & _ & Hfiles & Hcache).
  split; [exact Hname|]. split; [exact Hidx|]. split; [exact Hsave|].
  split; [exact Hcache | exact Hfiles].
Defined.

Section IntegrityFacts.
Context `{Digest}.

Lemma mergeFileChunks_success fs dir targetFile totalChunk fs3 :
  mergeFileChunks fs dir targetFile totalChunk = (fs3, None) →
  root fs3 !! targetFile
  = Some (File (chunks_concat fs dir (Z.to_nat totalChunk)))
  ∧ (∀ j, 0 ≤ j < totalChunk → chunk_present fs dir j)
  ∧ fs3 = {| root := <[targetFile :=
                         File (chunks_concat fs dir (Z.to_nat totalChunk))]> (root fs);
             staging := delete dir (staging fs) |}.
Proof.
  intros Hm. destruct (is_dir fs targetFile) eqn:Hdir.
  - unfold mergeFileChunks, OS.Create, is_dir in *.
    by destruct (root fs !! targetFile) as [[old|sz]|].
  - rewrite (mergeFileChunks_spec fs dir targetFile totalChunk Hdir) in Hm.
    cbv zeta in Hm.
    destruct (first_missing fs dir 0 (Z.to_nat totalChunk)) as [k|] eqn:Hk;
      [done|].
    injection Hm as <-.
    assert (Hall : ∀ j, 0 ≤ j < totalChunk → chunk_present fs dir j).
    { intros j Hj. apply (first_missing_None _ _ _ _ Hk). lia. }
    rewrite (chunks_concat_merged fs dir (Z.to_nat totalChunk) (Z.to_nat totalChunk))
      by (first [lia | intros j Hj; apply Hall; lia]).
    simpl. by rewrite lookup_insert_eq.
Qed.

Lemma integrity_error_distinct expected got i :
  integrity_error expected got ≠ chunk_not_found i.
Proof. discriminate. Qed.

End IntegrityFacts.

(** Claim C1. When [SaveFileChunk] receives, for a file name that is one
    literal path component, the chunk of index [totalChunk - 1] (as [int]
    arithmetic computes it) and the merge succeeds, the destination holds the
    chunks of indices [0] to [totalChunk - 1] in order and its MD5 is
    compared with the declared one. If they differ, the destination is
    removed, so that it does not exist afterwards, and the error returned
    is the integrity error, which no missing-chunk error equals. If they
    agree, [SaveFileChunk] succeeds, the merged file stays, and its
    checksum is the declared checksum. *)
Theorem final_chunk_merge_is_verified :
  ∀ `{Digest} (st : State) (chunkInfo : FileChunkInfo.t) (file : FileHeader.t)
    (fs2 fs3 : FS),
    let fileName := FileChunkInfo.FileName chunkInfo in
    let declared := FileChunkInfo.MD5 chunkInfo in
    let content := chunks_concat fs2 fileName
                     (Z.to_nat (FileChunkInfo.TotalChunk chunkInfo)) in
    plain_name fileName = true →
    FileChunkInfo.ChunkIndex chunkInfo
      = Int64.sub (FileChunkInfo.TotalChunk chunkInfo) 1 →
    staged (disk st) chunkInfo file = inl fs2 →
    mergeFileChunks fs2 fileName fileName (FileChunkInfo.TotalChunk chunkInfo)
      = (fs3, None) →
    root fs3 !! fileName = Some (File content)
    ∧ (md5_hex content ≠ declared →
       ∃ st',
         SaveFileChunk st chunkInfo file
         = (st', Some (integrity_error declared (md5_hex content)))
         ∧ root (disk st') !! fileName = None
         ∧ ∀ i, integrity_error declared (md5_hex content) ≠ chunk_not_found i)
    ∧ (md5_hex content = declared →
       SaveFileChunk st chunkInfo file = (with_disk st fs3, None)
       ∧ calculateFileMD5 fs3 fileName = inl declared).
Proof.
  intros Hd st chunkInfo file fs2 fs3 fileName declared content _ Hidx Hst Hm.
  destruct (mergeFileChunks_success _ _ _ _ _ Hm) as (Hroot & _ & _).
  fold content in Hroot.
  rewrite (SaveFileChunk_staged _ _ _ _ Hst). cbv zeta.
  fold fileName declared. rewrite Hm.
  apply Z.eqb_eq in Hidx. rewrite Hidx.
  unfold calculateFileMD5. rewrite Hroot.
  split; [done|]. split.
  - intros Hne. apply String.eqb_neq in Hne. rewrite Hne. simpl.
    eexists. split; [reflexivity|]. split.
    + simpl. unfold OS.Remove. rewrite Hroot. simpl. by rewrite lookup_delete_eq.
    + intros i. discriminate.
  - intros Heq. apply String.eqb_eq in Heq. rewrite Heq. simpl.
    apply String.eqb_eq in Heq. by rewrite Heq.
Qed.

Lemma final_chunk_merge_is_verified_witness :
  plain_name "a.bin" = true
  ∧ 2 = Int64.sub 3 1
  ∧ staged (disk two_chunks_staged) (a_bin_chunk 2 "6") (part [Byte.x05])
    = inl three_chunks_staged
  ∧ mergeFileChunks three_chunks_staged "a.bin" "a.bin" 3 = (a_bin_merged, None)
  ∧ ∃ st',
      SaveFileChunk (H := length_digest) two_chunks_staged (a_bin_chunk 2 "6")
        (part [Byte.x05])
      = (st', Some (ErrorString "file integrity check failed: expected 6, got 5"))
      ∧ root (disk st') !! "a.bin" = None.
Proof.
  assert (H1 : plain_name "a.bin" = true) by reflexivity.
  assert (H2 : 2 = Int64.sub 3 1) by (vm_compute; reflexivity).
  assert (H3 : staged (disk two_chunks_staged) (a_bin_chunk 2 "6")
                 (part [Byte.x05]) = inl three_chunks_staged)
    by (vm_compute; reflexivity).
  assert (H4 : mergeFileChunks three_chunks_staged "a.bin" "a.bin" 3
               = (a_bin_merged, None)) by (vm_compute; reflexivity).
  destruct (final_chunk_merge_is_verified (H := length_digest)
              two_chunks_staged (a_bin_chunk 2 "6") (part [Byte.x05])
              three_chunks_staged a_bin_merged H1 H2 H3 H4)
    as (_ & Hbad & _).
  destruct Hbad as (st' & Hsave & Hgone & _); [vm_compute; discriminate|].
  split; [exact H1|]. split; [exact H2|]. split; [exact H3|].
  split; [exact H4|]. exists st'. split; [|exact Hgone].
  rewrite Hsave. vm_compute. reflexivity.
Defined.

(** ** Downloads *)

Lemma takeZ_take {A} (n : Z) (l : list A) : takeZ n l = take (Z.to_nat n) l.
Proof.
  revert n. induction l as [|x l IH]; intros n; simpl.
  - by rewrite take_nil.
  - destruct (Z.leb_spec n 0) as [Hn|Hn].
    + by replace (Z.to_nat n) with 0%nat by lia.
    + replace (Z.to_nat n) with (S (Z.to_nat (n - 1))) by lia. simpl.
      by rewrite IH.
Qed.

Lemma dropZ_drop {A} (n : Z) (l : list A) : dropZ n l = drop (Z.to_nat n) l.
Proof.
  revert n. induction l as [|x l IH]; intros n; simpl.
  - by rewrite drop_nil.
  - destruct (Z.leb_spec n 0) as [Hn|Hn].
    + by replace (Z.to_nat n) with 0%nat by lia.
    + replace (Z.to_nat n) with (S (Z.to_nat (n - 1))) by lia. simpl.
      by rewrite IH.
Qed.

Lemma take_drop_length {A} (n : nat) (l : list A) :
  take n l ++ drop (length (take n l)) l = l.
Proof.
  rewrite length_take. destruct (Nat.le_gt_cases n (length l)) as [Hn|Hn].
  - rewrite Nat.min_l by done. apply take_drop.
  - rewrite Nat.min_r by lia. rewrite take_ge by lia.
    by rewrite drop_all, app_nil_r.
Qed.

(** One [Read] of a regular file: at the end [io.EOF], before it a
    non-empty block that, with what remains, makes up what remained. *)
Lemma Read_file data offset buflen :
  0 ≤ offset → 0 < buflen →
  match remaining (FileReader data offset) with
  | [] => Read (FileReader data offset) buflen
          = (FileReader data offset, [], Some EOF)
  | _ :: _ =>
      ∃ src' p,
        Read (FileReader data offset) buflen = (src', p, None)
        ∧ p ≠ []
        ∧ p ++ remaining src' = remaining (FileReader data offset)
        ∧ ∃ offset', src' = FileReader data offset' ∧ 0 ≤ offset'
  end.
Proof.
  intros Hoff Hbuf. unfold Read. cbn [remaining].
  destruct (dropZ offset data) as [|b rest] eqn:Hrest; [done|].
  set (p := takeZ buflen (b :: rest)).
  eexists _, _. split; [reflexivity|]. split; [|split].
  - subst p. simpl. destruct (Z.leb_spec buflen 0); [lia|done].
  - cbn [remaining]. rewrite dropZ_drop, Z2Nat.inj_add, Nat2Z.id by lia.
    rewrite <- drop_drop, <- dropZ_drop, Hrest. subst p.
    rewrite takeZ_take. apply take_drop_length.
  - eexists. split; [reflexivity|]. lia.
Qed.

Lemma DefaultBufferSize_pos : 0 < DefaultBufferSize.
Proof. done. Qed.

(** The copy loop into a recorder: with enough fuel for the bytes that
    remain, all of them are appended and the call returns [nil]. *)
Lemma copy_loop_Recorder fuel :
  ∀ (dst : Recorder) data offset written,
    0 ≤ offset →
    (length (remaining (FileReader data offset)) < fuel)%nat →
    copy_loop fuel false dst (FileReader data offset) written
    = Some ({| rec_header := rec_header dst; rec_code := rec_code dst;
               rec_body := rec_body dst ++ remaining (FileReader data offset) |},
            None).
Proof.
  induction fuel as [|fuel IH]; intros dst data offset written Hoff Hfuel;
    [lia|].
  pose proof (Read_file data offset DefaultBufferSize Hoff DefaultBufferSize_pos)
    as Hread.
  cbn [copy_loop]. destruct (remaining (FileReader data offset)) as [|b rest] eqn:Hrem.
  - rewrite Hread. simpl. rewrite app_nil_r. by destruct dst.
  - destruct Hread as (src' & p & -> & Hp & Hsplit & offset' & -> & Hoff').
    assert (Hnr : (0 <? Z.of_nat (length p)) = true).
    { apply Z.ltb_lt. destruct p; [done|simpl; lia]. }
    rewrite Hnr.
    cbn [Write Recorder_writer]. rewrite Z.eqb_refl. cbn [negb].
    rewrite IH; [|done|].
    + simpl. rewrite <- Hsplit, app_assoc. done.
    + apply (f_equal length) in Hsplit. rewrite length_app in Hsplit.
      destruct p; [done|]. cbn [length] in *. lia.
Qed.

Lemma copyWithCancel_Recorder (dst : Recorder) data offset size :
  0 ≤ offset →
  copyWithCancel false dst (FileReader data offset) size
  = Some ({| rec_header := rec_header dst; rec_code := rec_code dst;
             rec_body := rec_body dst ++ dropZ offset data |},
          None).
Proof. intros Hoff. unfold copyWithCancel. by rewrite copy_loop_Recorder by first [done | lia]. Qed.

(** The copy loop into the server's writer, header already written: when
    no length was declared, or the bytes that remain fit under the
    declared length, all of them are written. *)
Lemma copy_loop_Response fuel :
  ∀ (dst : Response) data offset written,
    0 ≤ offset →
    (length (remaining (FileReader data offset)) < fuel)%nat →
    resp_wroteHeader dst = true →
    resp_contentLength dst = -1
    ∨ resp_written dst + Z.of_nat (length (remaining (FileReader data offset)))
      ≤ resp_contentLength dst →
    copy_loop fuel false dst (FileReader data offset) written
    = Some ({| resp_header := resp_header dst; resp_status := resp_status dst;
               resp_wroteHeader := true;
               resp_contentLength := resp_contentLength dst;
               resp_written := resp_written dst
                 + Z.of_nat (length (remaining (FileReader data offset)));
               resp_body := resp_body dst ++ remaining (FileReader data offset) |},
            None).
Proof.
  induction fuel as [|fuel IH];
    intros dst data offset written Hoff Hfuel Hwrote Hfits; [lia|].
  pose proof (Read_file data offset DefaultBufferSize Hoff DefaultBufferSize_pos)
    as Hread.
  cbn [copy_loop].
  destruct (remaining (FileReader data offset)) as [|b rest] eqn:Hrem.
  - rewrite Hread. simpl. rewrite app_nil_r, Z.add_0_r.
    destruct dst; simpl in *. by subst.
  - destruct Hread as (src' & p & -> & Hp & Hsplit & offset' & -> & Hoff').
    assert (Hnr : (0 <? Z.of_nat (length p)) = true).
    { apply Z.ltb_lt. destruct p; [done|simpl; lia]. }
    rewrite Hnr.
    assert (Hlen : (length p + length (remaining (FileReader data offset'))
                    = length (b :: rest))%nat).
    { by rewrite <- Hsplit, length_app. }
    cbn [Write Response_writer]. unfold Response_Write, Response_WriteHeader.
    rewrite Hwrote.
    assert (Hok : negb (resp_contentLength dst =? -1)
                  && (resp_contentLength dst
                      <? resp_written dst + Z.of_nat (length p)) = false).
    { destruct Hfits as [->|Hfits]; [done|]. apply andb_false_iff. right.
      apply Z.ltb_ge. lia. }
    rewrite Hok, Z.eqb_refl. cbn [negb].
    rewrite IH; [|done|lia|done|].
    + cbn [resp_header resp_status resp_wroteHeader resp_contentLength
             resp_written resp_body].
      by rewrite <- Hsplit, length_app, Nat2Z.inj_add, app_assoc, Z.add_assoc.
    + cbn [resp_written resp_contentLength].
      destruct Hfits as [Hcl|Hfits]; [by left | right; lia].
Qed.

(** A single block that exceeds the declared length is refused whole. *)
Lemma copy_loop_Response_overflow fuel (dst : Response) data offset written :
  0 ≤ offset →
  remaining (FileReader data offset) ≠ [] →
  Z.of_nat (length (remaining (FileReader data offset))) ≤ DefaultBufferSize →
  resp_wroteHeader dst = true →
  resp_contentLength dst ≠ -1 →
  resp_contentLength dst
    < resp_written dst + Z.of_nat (length (remaining (FileReader data offset))) →
  copy_loop (S fuel) false dst (FileReader data offset) written
  = Some ({| resp_header := resp_header dst; resp_status := resp_status dst;
             resp_wroteHeader := true;
             resp_contentLength := resp_contentLength dst;
             resp_written := resp_written dst
               + Z.of_nat (length (remaining (FileReader data offset)));
             resp_body := resp_body dst |},
          Some ErrContentLength).
Proof.
  intros Hoff Hne Hsmall Hwrote Hdecl Hover. cbn [copy_loop Read remaining] in *.
  destruct (dropZ offset data) as [|b rest] eqn:Hrem; [done|].
  rewrite takeZ_take, take_ge by lia.
  assert (Hnr : (0 <? Z.of_nat (length (b :: rest))) = true)
    by (apply Z.ltb_lt; simpl; lia).
  rewrite Hnr. cbn [Write Response_writer].
  unfold Response_Write, Response_WriteHeader. rewrite Hwrote.
  apply Z.eqb_neq in Hdecl. apply Z.ltb_lt in Hover. by rewrite Hdecl, Hover.
Qed.

Lemma declaredLength_window h start end_ fileSize :
  0 ≤ Int64.add (Int64.sub end_ start) 1 →
  declaredLength (windowHeaders h start end_ fileSize)
  = Int64.add (Int64.sub end_ start) 1.
Proof.
  intros Hn. unfold declaredLength, windowHeaders. rewrite lookup_insert_eq.
  rewrite ParseInt_FormatInt.
  - destruct (Z.leb_spec 0 (Int64.add (Int64.sub end_ start) 1)); [done|lia].
  - split; [done|]. apply wrap64_in_range.
Qed.

(** The window served into a recorder: the headers and the status are
    those of the window, the body is the file from [start] to its end. *)
Lemma serveWindow_Recorder (c : Context Recorder) data start end_ fileSize :
  ctx_done c = false →
  0 ≤ start →
  start ≤ OS.MaxOffset ∨ start ≤ Z.of_nat (length data) →
  serveWindow c (FileReader data 0) start end_ fileSize
  = Some ({| rec_header := windowHeaders (rec_header (Writer c)) start end_ fileSize;
             rec_code := StatusPartialContent;
             rec_body := rec_body (Writer c) ++ dropZ start data |},
          None).
Proof.
  intros Hdone Hstart Hbound. unfold serveWindow. rewrite Hdone.
  unfold ReaderSeek. rewrite seek_ok_intro by done.
  by rewrite copyWithCancel_Recorder.
Qed.

(** The same window served into a fresh server writer, when the bytes
    from [start] to the end of the file are as many as declared. *)
Lemma serveWindow_Response_fits data start end_ fileSize :
  0 ≤ start →
  start ≤ OS.MaxOffset ∨ start ≤ Z.of_nat (length data) →
  Z.of_nat (length (dropZ start data)) ≤ Int64.add (Int64.sub end_ start) 1 →
  serveWindow serverContext (FileReader data 0) start end_ fileSize
  = Some ({| resp_header := windowHeaders ∅ start end_ fileSize;
             resp_status := StatusPartialContent;
             resp_wroteHeader := true;
             resp_contentLength := Int64.add (Int64.sub end_ start) 1;
             resp_written := Z.of_nat (length (dropZ start data));
             resp_body := dropZ start data |},
          None).
Proof.
  intros Hstart Hbound Hfits. unfold serveWindow, serverContext.
  cbn [ctx_done Writer]. unfold ReaderSeek.
  rewrite seek_ok_intro by done.
  unfold copyWithCancel. cbn [WriteHeader HeaderSet Response_writer].
  unfold Response_WriteHeader. cbn [resp_wroteHeader newResponse resp_header].
  fold (windowHeaders ∅ start end_ fileSize).
  rewrite copy_loop_Response; cbn [resp_header resp_status resp_wroteHeader
    resp_contentLength resp_written resp_body remaining]; try done; try lia.
  - by rewrite declaredLength_window by lia.
  - right. rewrite declaredLength_window by lia.
    change (resp_written newResponse) with 0. lia.
Qed.

(** And when they are more than declared: nothing reaches the body. *)
Lemma serveWindow_Response_overflow data start end_ fileSize :
  0 ≤ start →
  start ≤ OS.MaxOffset ∨ start ≤ Z.of_nat (length data) →
  0 ≤ Int64.add (Int64.sub end_ start) 1 →
  Int64.add (Int64.sub end_ start) 1 < Z.of_nat (length (dropZ start data)) →
  Z.of_nat (length (dropZ start data)) ≤ DefaultBufferSize →
  serveWindow serverContext (FileReader data 0) start end_ fileSize
  = Some ({| resp_header := windowHeaders ∅ start end_ fileSize;
             resp_status := StatusPartialContent;
             resp_wroteHeader := true;
             resp_contentLength := Int64.add (Int64.sub end_ start) 1;
             resp_written := Z.of_nat (length (dropZ start data));
             resp_body := [] |},
          Some ErrContentLength).
Proof.
  intros Hstart Hbound Hdecl Hover Hsmall. unfold serveWindow, serverContext.
  cbn [ctx_done Writer]. unfold ReaderSeek.
  rewrite seek_ok_intro by done.
  unfold copyWithCancel. cbn [WriteHeader HeaderSet Response_writer].
  unfold Response_WriteHeader. cbn [resp_wroteHeader newResponse resp_header].
  fold (windowHeaders ∅ start end_ fileSize).
  rewrite copy_loop_Response_overflow; cbn [resp_header resp_status
    resp_wroteHeader resp_contentLength resp_written resp_body remaining];
    try done;
    try (rewrite declaredLength_window by lia;
         change (resp_written newResponse) with 0; lia).
  - by rewrite declaredLength_window by lia.
  - intros Hnil. rewrite Hnil in Hover. simpl in Hover. lia.
Qed.

(** A start that the file system refuses: the seek fails once the headers
    and the status are set, and nothing is copied. *)
Lemma serveWindow_seek_fails {W : Type} `{ResponseWriter W} (c : Context W)
    data start end_ fileSize :
  ctx_done c = false →
  OS.MaxOffset < start →
  Z.of_nat (length data) < start →
  serveWindow c (FileReader data 0) start end_ fileSize
  = Some (WriteHeader
            (HeaderSet
               (HeaderSet
                  (HeaderSet (Writer c) "Content-Range"
                     (contentRange start end_ fileSize))
                  "Accept-Ranges" "bytes")
               "Content-Length" (FormatInt (Int64.add (Int64.sub end_ start) 1)))
            StatusPartialContent,
          Some (PathError "seek" [] EINVAL)).
Proof.
  intros Hdone Hmax Hsize. unfold serveWindow. rewrite Hdone.
  unfold ReaderSeek. by rewrite seek_ok_beyond.
Qed.

Lemma Split_absent sep s :
  string_forall (λ c, negb (Ascii.eqb c sep)) s = true →
  Split s sep = [s].
Proof.
  induction s as [|c s IH]; simpl; [done|].
  intros [Hc Hs]%andb_true_iff. apply negb_true_iff in Hc.
  by rewrite Hc, (IH Hs).
Qed.

Lemma is_digit_not_equals c :
  is_digit c = true → Ascii.eqb c "=" = false.
Proof. destruct c as [[] [] [] [] [] [] [] []]; done. Qed.

Lemma parseRangeHeader_open_ended start :
  0 ≤ start ≤ Int64.max_int →
  parseRangeHeader ("bytes=" +:+ FormatInt start +:+ "-")
  = Return (0, 0, Some (ErrorString "range end position required")).
Proof.
  intros Hstart. destruct (digits_of_nonneg start) as [Hd _]; [lia|].
  unfold parseRangeHeader.
  change ("bytes=" +:+ FormatInt start +:+ "-")
    with ("bytes" +:+ String "=" (FormatInt start +:+ "-")).
  rewrite Split_until by done.
  rewrite (Split_absent "=" (FormatInt start +:+ "-")).
  - rewrite (Split_until "-" (FormatInt start) EmptyString).
    + unfold Atoi. by rewrite ParseInt_FormatInt.
    + eapply string_forall_impl; [|exact Hd].
      intros c Hc. by destruct (is_digit_not_sign c Hc) as [_ ->].
  - rewrite string_forall_app. apply andb_true_iff. split; [|done].
    eapply string_forall_impl; [|exact Hd].
    intros c Hc. by rewrite (is_digit_not_equals c Hc).
Qed.

(** Claim C4, as the code has it. A range header [bytes=<start>-] with no
    end position is not served to the end of the file: for every stored
    entry and every start an [int] can hold, [DownloadFile] returns the
    error [range end position required] and leaves the response writer
    untouched, with no header, status or body byte written. *)
Theorem open_ended_range_is_rejected :
  ∀ {W : Type} `{ResponseWriter W} (fs : FS) (c : Context W)
    (filename : string) (entry : Entry) (start : Z),
    root fs !! filename = Some entry →
    0 ≤ start ≤ Int64.max_int →
    DownloadFile fs c filename ("bytes=" +:+ FormatInt start +:+ "-")
    = Return (Some (Writer c,
                    Some (ErrorString "range end position required"))).
Proof.
  intros W HW fs c filename entry start Hentry Hstart.
  unfold DownloadFile. rewrite Hentry.
  rewrite (parseRangeHeader_open_ended start Hstart).
  reflexivity.
Qed.

Lemma open_ended_range_is_rejected_witness :
  root (holding (counting 1000)) !! "data.bin" = Some (File (counting 1000))
  ∧ 0 ≤ 100 ≤ Int64.max_int
  ∧ DownloadFile (holding (counting 1000)) recorderContext "data.bin" "bytes=100-"
    = Return (Some (newRecorder,
                    Some (ErrorString "range end position required"))).
Proof.
  assert (H1 : root (holding (counting 1000)) !! "data.bin"
               = Some (File (counting 1000))) by apply lookup_singleton_eq.
  assert (H2 : 0 ≤ 100 ≤ Int64.max_int) by (split; vm_compute; discriminate).
  split; [exact H1|]. split; [exact H2|].
  exact (open_ended_range_is_rejected (holding (counting 1000)) recorderContext
           "data.bin" (File (counting 1000)) 100 H1 H2).
Defined.

(** Claim C3, as the code has it. For a stored file of exactly 1000 bytes
    and the header [bytes=100-199], the response has status 206,
    [Content-Range: bytes 100-199/1000] and [Content-Length: 100], but
    the body is not the 100 bytes of the window: [copyWithCancel] copies
    from offset 100 to the end of the file. A writer that keeps what it
    is given receives the 900 bytes from offset 100 on; the server's
    writer, holding the handler to the declared length, refuses the
    block, so the body stays empty and the call returns
    [http.ErrContentLength]. *)
Theorem range_download_copies_to_end_of_file :
  ∀ (fs : FS) (filename : string) (content : bytes),
    root fs !! filename = Some (File content) →
    length content = 1000%nat →
    (∃ w, DownloadFile fs recorderContext filename "bytes=100-199"
          = Return (Some (w, None))
          ∧ rec_code w = 206
          ∧ rec_header w !! "Content-Range" = Some "bytes 100-199/1000"
          ∧ rec_header w !! "Content-Length" = Some "100"
          ∧ rec_body w = drop 100 content
          ∧ length (rec_body w) = 900%nat)
    ∧ (∃ w, DownloadFile fs serverContext filename "bytes=100-199"
            = Return (Some (w, Some ErrContentLength))
            ∧ resp_status w = 206
            ∧ resp_header w !! "Content-Range" = Some "bytes 100-199/1000"
            ∧ resp_header w !! "Content-Length" = Some "100"
            ∧ resp_body w = []).
Proof.
  intros fs filename content Hfile Hlen.
  assert (Hparse : parseRangeHeader "bytes=100-199" = Return (100, 199, None))
    by reflexivity.
  assert (Hrest : length (dropZ 100 content) = 900%nat).
  { rewrite dropZ_drop, length_drop, Hlen. reflexivity. }
  split.
  - unfold DownloadFile. rewrite Hfile, Hparse. cbn [String.eqb negb Open Entry_Size].
    rewrite serveWindow_Recorder by first [done | right; lia].
    eexists. split; [reflexivity|]. cbn [rec_code rec_header rec_body].
    rewrite Hlen. repeat split; try reflexivity.
    + change (rec_body (Writer recorderContext)) with (@nil Byte.byte).
      by rewrite dropZ_drop.
    + change (rec_body (Writer recorderContext)) with (@nil Byte.byte).
      exact Hrest.
  - unfold DownloadFile. rewrite Hfile, Hparse. cbn [String.eqb negb Open Entry_Size].
    rewrite serveWindow_Response_overflow.
    + eexists. split; [reflexivity|]. cbn [resp_status resp_header resp_body].
      rewrite Hlen. repeat split; reflexivity.
    + done.
    + right. lia.
    + done.
    + rewrite Hrest. done.
    + rewrite Hrest. done.
Qed.

Lemma range_download_copies_to_end_of_file_witness :
  root (holding (counting 1000)) !! "data.bin" = Some (File (counting 1000))
  ∧ length (counting 1000) = 1000%nat
  ∧ ∃ w, DownloadFile (holding (counting 1000)) recorderContext "data.bin"
           "bytes=100-199"
         = Return (Some (w, None))
         ∧ rec_header w !! "Content-Length" = Some "100"
         ∧ length (rec_body w) = 900%nat.
Proof.
  assert (H1 : root (holding (counting 1000)) !! "data.bin"
               = Some (File (counting 1000))) by apply lookup_singleton_eq.
  assert (H2 : length (counting 1000) = 1000%nat) by (vm_compute; reflexivity).
  destruct (range_download_copies_to_end_of_file (holding (counting 1000))
              "data.bin" (counting 1000) H1 H2)
    as [(w & Hw & _ & _ & Hcl & _ & Hbody) _].
  split; [exact H1|]. split; [exact H2|]. exists w.
  split; [exact Hw|]. split; [exact Hcl | exact Hbody].
Defined.

Lemma chunkWindow_clamped chunkIndex chunkSize fileSize :
  0 ≤ fileSize ≤ Int64.max_int →
  fileSize ≤ Int64.sub (Int64.add (Int64.mul chunkIndex chunkSize) chunkSize) 1 →
  chunkWindow chunkIndex chunkSize fileSize
  = (Int64.mul chunkIndex chunkSize, fileSize - 1).
Proof.
  intros Hsize Hover. unfold chunkWindow.
  apply Z.leb_le in Hover. rewrite Hover. f_equal.
  unfold Int64.sub. apply wrap64_id.
  unfold Int64.in_range, Int64.min_int, Int64.max_int in *. lia.
Qed.

(** Claim C8. For a stored file of 2500 bytes, [DownloadFileChunk] with
    [chunkIndex = 2] and [chunkSize = 1024] computes the window
    [2048, 2499], answers with status 206, [Content-Range: bytes
    2048-2499/2500] and [Content-Length: 452], and writes exactly the 452
    bytes from offset 2048 to the end of the file, into a recording
    writer and into the server's writer alike. For any stored file and
    any index and size, whenever [chunkIndex*chunkSize + chunkSize - 1],
    as [int64] arithmetic computes it, is at least the file size, the end
    of the window is [fileSize - 1]; with a start that the file system
    accepts (not negative, and not above its largest offset unless it
    lies inside the file) the response announces that window and carries
    the file from the start to its end; with a start above the largest
    offset and past the end of the file the seek fails, and the call
    returns its error after the status line, with no body. Where the
    arithmetic does not overflow the condition is the one on the
    mathematical value. *)
Theorem chunk_download_clamps_window_end :
  ∀ (fs : FS) (filename : string) (content : bytes),
    root fs !! filename = Some (File content) →
    Z.of_nat (length content) ≤ Int64.max_int →
    let fileSize := Z.of_nat (length content) in
    (length content = 2500%nat →
     chunkWindow 2 1024 fileSize = (2048, 2499)
     ∧ (∃ w, DownloadFileChunk fs recorderContext filename 2 1024
             = Some (w, None)
             ∧ rec_code w = 206
             ∧ rec_header w !! "Content-Range" = Some "bytes 2048-2499/2500"
             ∧ rec_header w !! "Content-Length" = Some "452"
             ∧ rec_body w = drop 2048 content
             ∧ length (rec_body w) = 452%nat)
     ∧ (∃ w, DownloadFileChunk fs serverContext filename 2 1024
             = Some (w, None)
             ∧ resp_status w = 206
             ∧ resp_header w !! "Content-Range" = Some "bytes 2048-2499/2500"
             ∧ resp_header w !! "Content-Length" = Some "452"
             ∧ resp_body w = drop 2048 content))
    ∧ (∀ chunkIndex chunkSize,
         let start := Int64.mul chunkIndex chunkSize in
         fileSize ≤ Int64.sub (Int64.add start chunkSize) 1 →
         chunkWindow chunkIndex chunkSize fileSize = (start, fileSize - 1)
         ∧ (0 ≤ start →
            start ≤ OS.MaxOffset ∨ start ≤ fileSize →
            ∃ w, DownloadFileChunk fs recorderContext filename chunkIndex chunkSize
                 = Some (w, None)
                 ∧ rec_code w = 206
                 ∧ rec_header w !! "Content-Range"
                   = Some (contentRange start (fileSize - 1) fileSize)
                 ∧ rec_body w = dropZ start content)
         ∧ (OS.MaxOffset < start →
            fileSize < start →
            ∃ w, DownloadFileChunk fs recorderContext filename chunkIndex chunkSize
                 = Some (w, Some (PathError "seek" [] EINVAL))
                 ∧ rec_code w = 206
                 ∧ rec_header w !! "Content-Range"
                   = Some (contentRange start (fileSize - 1) fileSize)
                 ∧ rec_body w = []))
    ∧ (∀ chunkIndex chunkSize,
         Int64.in_range (chunkIndex * chunkSize) →
         Int64.in_range (chunkIndex * chunkSize + chunkSize) →
         Int64.in_range (chunkIndex * chunkSize + chunkSize - 1) →
         fileSize ≤ chunkIndex * chunkSize + chunkSize - 1 →
         (chunkWindow chunkIndex chunkSize fileSize).2 = fileSize - 1).
Proof.
  intros fs filename content Hfile Hmax fileSize.
  assert (Hsize : 0 ≤ fileSize ≤ Int64.max_int) by (subst fileSize; lia).
  split; [|split].
  - intros Hlen.
    assert (Hwin : chunkWindow 2 1024 fileSize = (2048, 2499))
      by (subst fileSize; rewrite Hlen; reflexivity).
    assert (Hrest : length (dropZ 2048 content) = 452%nat)
      by (rewrite dropZ_drop, length_drop, Hlen; reflexivity).
    split; [exact Hwin|]. split.
    + unfold DownloadFileChunk. rewrite Hfile. cbn [Entry_Size Open].
      fold fileSize. rewrite Hwin.
      rewrite serveWindow_Recorder by first [done | right; lia].
      eexists. split; [reflexivity|]. cbn [rec_code rec_header rec_body].
      change (rec_body (Writer recorderContext)) with (@nil Byte.byte).
      subst fileSize. rewrite Hlen.
      split; [reflexivity|]. split; [reflexivity|]. split; [reflexivity|].
      split; [by rewrite dropZ_drop | exact Hrest].
    + unfold DownloadFileChunk. rewrite Hfile. cbn [Entry_Size Open].
      fold fileSize. rewrite Hwin.
      rewrite serveWindow_Response_fits;
        [|done|right; lia|by rewrite Hrest].
      eexists. split; [reflexivity|]. cbn [resp_status resp_header resp_body].
      subst fileSize. rewrite Hlen.
      split; [reflexivity|]. split; [reflexivity|]. split; [reflexivity|].
      by rewrite dropZ_drop.
  - intros chunkIndex chunkSize start Hover.
    pose proof (chunkWindow_clamped chunkIndex chunkSize fileSize Hsize Hover)
      as Hwin.
    split; [exact Hwin|]. split.
    + intros Hstart Hbound.
      unfold DownloadFileChunk. rewrite Hfile. cbn [Entry_Size Open].
      fold fileSize. rewrite Hwin.
      rewrite serveWindow_Recorder by done.
      eexists. split; [reflexivity|]. cbn [rec_code rec_header rec_body].
      split; [reflexivity|]. split; [|reflexivity].
      unfold windowHeaders. rewrite lookup_insert_ne by done.
      rewrite lookup_insert_ne by done. by rewrite lookup_insert_eq.
    + intros Hlimit Hpast.
      unfold DownloadFileChunk. rewrite Hfile. cbn [Entry_Size Open].
      fold fileSize. rewrite Hwin.
      rewrite serveWindow_seek_fails by done.
      eexists. split; [reflexivity|].
      cbn [WriteHeader HeaderSet Recorder_writer rec_code rec_header rec_body
           Writer recorderContext newRecorder].
      split; [reflexivity|]. split; [|reflexivity].
      rewrite lookup_insert_ne by done.
      rewrite lookup_insert_ne by done. by rewrite lookup_insert_eq.
  - intros chunkIndex chunkSize H1 H2 H3 Hover.
    rewrite chunkWindow_clamped; [done|done|].
    unfold Int64.sub, Int64.add, Int64.mul.
    by rewrite (wrap64_id _ H1), (wrap64_id _ H2), (wrap64_id _ H3).
Qed.

Lemma chunk_download_clamps_window_end_witness :
  root (holding (counting 2500)) !! "data.bin" = Some (File (counting 2500))
  ∧ Z.of_nat (length (counting 2500)) ≤ Int64.max_int
  ∧ length (counting 2500) = 2500%nat
  ∧ ∃ w, DownloadFileChunk (holding (counting 2500)) serverContext "data.bin"
           2 1024
         = Some (w, None)
         ∧ resp_header w !! "Content-Length" = Some "452"
         ∧ resp_body w = drop 2048 (counting 2500).
Proof.
  assert (H1 : root (holding (counting 2500)) !! "data.bin"
               = Some (File (counting 2500))) by apply lookup_singleton_eq.
  assert (H2 : Z.of_nat (length (counting 2500)) ≤ Int64.max_int)
    by (vm_compute; discriminate).
  assert (H3 : length (counting 2500) = 2500%nat) by (vm_compute; reflexivity).
  destruct (chunk_download_clamps_window_end (holding (counting 2500))
              "data.bin" (counting 2500) H1 H2) as [Hex _].
  destruct (Hex H3) as (_ & _ & w & Hw & _ & _ & Hcl & Hbody).
  split; [exact H1|]. split; [exact H2|]. split; [exact H3|]. exists w.
  split; [exact Hw|]. split; [exact Hcl | exact Hbody].
Defined.

(** ** Directory listing *)

Section ListingFacts.
Import MD5CacheEntry MD5Cache.

Lemma calculating_SetCalculating mc p modTime size q :
  calculating (SetCalculating mc p modTime size) q
  = if decide (p = q) then true else calculating mc q.
Proof.
  unfold calculating, GetProgress, SetCalculating.
  destruct (decide (p = q)) as [->|Hne].
  - by rewrite lookup_insert_eq.
  - by rewrite lookup_insert_ne.
Qed.

Lemma cached_SetCalculating mc p modTime size q modTime' size' :
  cached (SetCalculating mc p modTime size) q modTime' size'
  = if decide (p = q) then false else cached mc q modTime' size'.
Proof.
  unfold cached, GetMD5FromCache, SetCalculating.
  destruct (decide (p = q)) as [->|Hne].
  - rewrite lookup_insert_eq. simpl. by destruct (_ || _).
  - by rewrite lookup_insert_ne.
Qed.

Lemma calculating_lookup mc mc' p :
  mc' !! p = mc !! p → calculating mc' p = calculating mc p.
Proof. unfold calculating, GetProgress. by intros ->. Qed.

Lemma cached_lookup mc mc' p modTime size :
  mc' !! p = mc !! p → cached mc' p modTime size = cached mc p modTime size.
Proof. unfold cached, GetMD5FromCache. by intros ->. Qed.

Lemma listing_inv_refl mc : listing_inv mc mc [].
Proof.
  split; [constructor|]. split; [|done].
  intros j Hj. by apply elem_of_nil in Hj.
Qed.

Lemma elem_of_job_paths j jobs : j ∈ jobs → job_filePath j ∈ job_paths jobs.
Proof. intros Hj. unfold job_paths. apply list_elem_of_fmap. eauto. Qed.

(** A path that is not in flight under the current cache has no job yet,
    and its entry is the one the listing began with. *)
Lemma listing_inv_idle mc mc' jobs p :
  listing_inv mc mc' jobs → calculating mc' p = false →
  (p ∉ job_paths jobs) ∧ mc' !! p = mc !! p.
Proof.
  intros (Hnd & Hjobs & Hframe) Hidle.
  assert (Hnot : p ∉ job_paths jobs).
  { intros Hin. apply list_elem_of_fmap in Hin as (j & -> & Hj).
    destruct (Hjobs j Hj) as (_ & _ & Hc & _). congruence. }
  split; [done|]. by apply Hframe.
Qed.

(** Starting a job for a path without one keeps the relation. *)
Lemma listing_inv_start mc mc' jobs p modTime size :
  listing_inv mc mc' jobs →
  cached mc' p modTime size = false →
  calculating mc' p = false →
  listing_inv mc (SetCalculating mc' p modTime size)
    (jobs ++ [mkJob p modTime size]).
Proof.
  intros Hinv Hmiss Hidle.
  destruct (listing_inv_idle _ _ _ _ Hinv Hidle) as [Hnot Hsame].
  destruct Hinv as (Hnd & Hjobs & Hframe).
  split; [|split].
  - unfold job_paths. rewrite map_app. apply NoDup_app. split; [done|].
    split; [|apply NoDup_singleton].
    intros q Hq Hq'. apply list_elem_of_singleton in Hq'. simpl in Hq'.
    by subst q.
  - intros j [Hj|Hj]%elem_of_app.
    + destruct (Hjobs j Hj) as (H1 & H2 & H3 & H4).
      split; [done|]. split; [done|]. split.
      * rewrite calculating_SetCalculating. case_decide; [done|exact H3].
      * intros modTime' size'. rewrite cached_SetCalculating.
        case_decide; [done|apply H4].
    + apply list_elem_of_singleton in Hj. subst j. simpl.
      rewrite <- (calculating_lookup mc mc' p Hsame).
      rewrite <- (cached_lookup mc mc' p modTime size Hsame).
      split; [done|]. split; [done|]. split.
      * rewrite calculating_SetCalculating. by case_decide.
      * intros modTime' size'. rewrite cached_SetCalculating. by case_decide.
  - intros q Hq. unfold job_paths in Hq. rewrite map_app in Hq.
    apply not_elem_of_app in Hq as [Hq Hqp]. simpl in Hqp.
    apply not_elem_of_cons in Hqp as [Hqp _].
    unfold SetCalculating. rewrite lookup_insert_ne by done. by apply Hframe.
Qed.

(** Under the relation, an entry that is settled stays settled as more
    jobs are started. *)
Lemma settled_mono storagePath mc mc1 jobs1 mc2 jobs2 entry :
  listing_inv mc mc1 jobs1 → listing_inv mc mc2 jobs2 →
  (∀ p, p ∈ job_paths jobs1 → p ∈ job_paths jobs2) →
  settled storagePath mc1 entry → settled storagePath mc2 entry.
Proof.
  intros Hinv1 Hinv2 Hsub [Hdir|(info & Hinfo & Hst)]; [by left|].
  right. exists info. split; [done|].
  set (p := Join storagePath (fi_Name info)) in *.
  destruct (decide (p ∈ job_paths jobs2)) as [Hin|Hnot].
  - right. apply list_elem_of_fmap in Hin as (j & Hp & Hj).
    destruct Hinv2 as (_ & Hjobs & _). rewrite Hp.
    by destruct (Hjobs j Hj) as (_ & _ & Hc & _).
  - assert (Hnot1 : p ∉ job_paths jobs1) by (intros Hin; by apply Hnot, Hsub).
    destruct Hinv1 as (_ & _ & Hframe1). destruct Hinv2 as (_ & _ & Hframe2).
    assert (Hsame : mc2 !! p = mc1 !! p)
      by (by rewrite (Hframe1 p Hnot1), (Hframe2 p Hnot)).
    destruct Hst as [Hc|Hc]; [left|right].
    + by rewrite (cached_lookup mc1 mc2 p _ _ Hsame).
    + by rewrite (calculating_lookup mc1 mc2 p Hsame).
Qed.

(** A valid checksum under the current cache is one the listing began
    with. *)
Lemma listing_inv_cached mc mc' jobs p modTime size :
  listing_inv mc mc' jobs → cached mc' p modTime size = true →
  (p ∉ job_paths jobs) ∧ cached mc p modTime size = true.
Proof.
  intros (Hnd & Hjobs & Hframe) Hhit.
  assert (Hnot : p ∉ job_paths jobs).
  { intros Hin. apply list_elem_of_fmap in Hin as (j & -> & Hj).
    destruct (Hjobs j Hj) as (_ & _ & _ & Hc). rewrite Hc in Hhit. done. }
  split; [done|]. by rewrite <- (cached_lookup mc mc' p _ _ (Hframe p Hnot)).
Qed.

Lemma listed_names_cons entry entries :
  listed_names (entry :: entries)
  = match (if IsDir entry then None
           else match Info entry with
                | inl info => Some (fi_Name info)
                | inr _ => None
                end) with
    | Some name => name :: listed_names entries
    | None => listed_names entries
    end.
Proof. reflexivity. Qed.

(** What one run of the loop establishes, from any point of the listing
    on. *)
Lemma ListFiles_loop_inv storagePath mc entries :
  ∀ mc1 files1 jobs1 files mc' jobs,
    listing_inv mc mc1 jobs1 →
    ListFiles_loop storagePath entries mc1 files1 jobs1 = (inl files, mc', jobs) →
    listing_inv mc mc' jobs
    ∧ (∀ p, p ∈ job_paths jobs1 → p ∈ job_paths jobs)
    ∧ Forall (settled storagePath mc') entries
    ∧ ∃ new,
        files = files1 ++ new
        ∧ map FileMetadata.Name new = listed_names entries
        ∧ ∀ f, f ∈ new →
            cached mc (listed_path storagePath f) (FileMetadata.ModTime f)
              (FileMetadata.Size f) = false →
            FileMetadata.MD5 f = EmptyString
            ∧ (calculating mc (listed_path storagePath f) = false →
               listed_path storagePath f ∈ job_paths jobs).
Proof.
  induction entries as [|entry entries IH];
    intros mc1 files1 jobs1 files mc' jobs Hinv Hrun.
  - simpl in Hrun. injection Hrun as <- <- <-.
    split; [done|]. split; [done|]. split; [constructor|].
    exists []. rewrite app_nil_r. split; [done|]. split; [done|].
    intros f Hf. by apply elem_of_nil in Hf.
  - cbn [ListFiles_loop] in Hrun. rewrite listed_names_cons.
    destruct (IsDir entry) eqn:Hdir.
    { destruct (IH _ _ _ _ _ _ Hinv Hrun) as (Hinv' & Hsub & Hset & Hnew).
      split; [done|]. split; [done|]. split; [|done].
      constructor; [by left|done]. }
    destruct (Info entry) as [info|err] eqn:Hinfo; [|done].
    set (p := Join storagePath (fi_Name info)) in *.
    fold (cached mc1 p (fi_ModTime info) (fi_Size info)) in Hrun.
    fold (calculating mc1 p) in Hrun.
    assert (Hstep : ∃ mc2 jobs2 sum,
      listing_inv mc mc2 jobs2
      ∧ (∀ q, q ∈ job_paths jobs1 → q ∈ job_paths jobs2)
      ∧ settled storagePath mc2 entry
      ∧ ListFiles_loop storagePath entries mc2
          (files1 ++ [FileMetadata.mk (fi_Name info) (fi_Size info)
                        (fi_ModTime info) sum]) jobs2
        = (inl files, mc', jobs)
      ∧ (cached mc p (fi_ModTime info) (fi_Size info) = false →
         sum = EmptyString
         ∧ (calculating mc p = false → p ∈ job_paths jobs2))).
    { unfold cached in Hrun.
      destruct (GetMD5FromCache mc1 p (fi_ModTime info) (fi_Size info))
        as [sum calc] eqn:Hget.
      assert (Hcached : cached mc1 p (fi_ModTime info) (fi_Size info) = calc)
        by (unfold cached; by rewrite Hget).
      cbn [snd negb] in Hrun. destruct calc; cbn [negb] in Hrun.
      - exists mc1, jobs1, sum. split; [done|]. split; [done|]. split.
        + right. exists info. split; [done|]. by left.
        + split; [done|]. intros Hmiss.
          destruct (listing_inv_cached _ _ _ _ _ _ Hinv Hcached) as [_ Hc].
          fold p in Hmiss. congruence.
      - destruct (calculating mc1 p) eqn:Hcalc; cbn [negb] in Hrun.
        + exists mc1, jobs1, EmptyString. split; [done|]. split; [done|]. split.
          * right. exists info. split; [done|]. by right.
          * split; [done|]. intros _. split; [done|]. intros Hidle.
            destruct (decide (p ∈ job_paths jobs1)) as [Hin|Hnot]; [done|].
            destruct Hinv as (_ & _ & Hframe).
            rewrite (calculating_lookup mc mc1 p (Hframe p Hnot)) in Hcalc.
            congruence.
        + exists (SetCalculating mc1 p (fi_ModTime info) (fi_Size info)),
            (jobs1 ++ [mkJob p (fi_ModTime info) (fi_Size info)]), EmptyString.
          split; [by apply listing_inv_start|]. split.
          * intros q Hq. unfold job_paths. rewrite map_app.
            apply elem_of_app. by left.
          * split.
            -- right. exists info. split; [done|]. right. fold p.
               rewrite calculating_SetCalculating. by case_decide.
            -- split; [done|]. intros _. split; [done|]. intros _.
               unfold job_paths. rewrite map_app. apply elem_of_app. right.
               apply list_elem_of_singleton. done. }
    destruct Hstep as (mc2 & jobs2 & sum & Hinv2 & Hsub2 & Hset2 & Hrun2 & Hfile).
    destruct (IH _ _ _ _ _ _ Hinv2 Hrun2)
      as (Hinv' & Hsub & Hset & new & -> & Hnames & Hnew).
    split; [done|]. split; [by auto|]. split.
    + constructor; [|done]. by apply (settled_mono _ mc mc2 jobs2 mc' jobs).
    + eexists (_ :: new). rewrite <- app_assoc. split; [reflexivity|].
      split; [simpl; by rewrite Hnames|].
      intros f [->|Hf]%elem_of_cons; [|by apply Hnew].
      unfold listed_path. simpl. fold p. intros Hmiss.
      destruct (Hfile Hmiss) as [-> Hjob]. split; [done|].
      intros Hidle. apply Hsub. by apply Hjob.
Qed.

(** A listing in which every entry is settled starts no job and leaves
    the cache as it is. *)
Lemma ListFiles_loop_settled storagePath mc entries :
  ∀ files1 jobs1,
    Forall (settled storagePath mc) entries →
    ∃ new, ListFiles_loop storagePath entries mc files1 jobs1
           = (inl (files1 ++ new), mc, jobs1).
Proof.
  induction entries as [|entry entries IH]; intros files1 jobs1 Hall.
  - exists []. by rewrite app_nil_r.
  - apply Forall_cons in Hall as [Hhead Hall]. cbn [ListFiles_loop].
    destruct Hhead as [Hdir|(info & Hinfo & Hst)].
    + rewrite Hdir. by apply IH.
    + destruct (IsDir entry); [by apply IH|]. rewrite Hinfo.
      set (p := Join storagePath (fi_Name info)) in *.
      fold (calculating mc p).
      unfold cached in Hst.
      destruct (GetMD5FromCache mc p (fi_ModTime info) (fi_Size info))
        as [sum calc] eqn:Hget.
      cbn [snd] in Hst.
      assert (Hsame : ∃ sum', (let '(md5sum, mc', jobs') :=
                 if negb calc
                 then if negb (calculating mc p)
                      then (EmptyString,
                            SetCalculating mc p (fi_ModTime info) (fi_Size info),
                            jobs1 ++ [mkJob p (fi_ModTime info) (fi_Size info)])
                      else (EmptyString, mc, jobs1)
                 else (sum, mc, jobs1) in
               ListFiles_loop storagePath entries mc'
                 (files1 ++ [FileMetadata.mk (fi_Name info) (fi_Size info)
                               (fi_ModTime info) md5sum]) jobs')
               = ListFiles_loop storagePath entries mc
                   (files1 ++ [FileMetadata.mk (fi_Name info) (fi_Size info)
                               (fi_ModTime info) sum']) jobs1).
      { destruct calc; cbn [negb]; [by eexists|].
        destruct Hst as [Hst|Hst]; [done|]. rewrite Hst. by eexists. }
      destruct Hsame as [sum' ->].
      destruct (IH (files1 ++ [FileMetadata.mk (fi_Name info) (fi_Size info)
                                 (fi_ModTime info) sum']) jobs1 Hall)
        as [new ->].
      eexists (_ :: new). by rewrite <- app_assoc.
Qed.

End ListingFacts.

(** One listing, with no other call touching the cache meanwhile.
    [ListFiles] lists every entry that is not a directory and
    returns without running any checksum computation: the computations it
    wants are goroutines it only starts. A file without a checksum that
    is valid for its modification time and size is listed with an empty
    MD5 field. A job is started only for a path that had no valid
    checksum and no computation in flight when the listing began, and for
    every such file one is started; no path gets two jobs; each path with
    a job is marked in flight afterwards and every other cache entry is
    as before. A second listing of the same entries, made before any job
    finishes, starts no job at all. *)
Theorem listing_starts_one_job_per_uncached_file :
  ∀ (storagePath : string) (entries : list DirEntry) (mc mc' : MD5Cache.t)
    (files : list FileMetadata.t) (jobs : list Job),
    ListFiles storagePath entries mc = (inl files, mc', jobs) →
    map FileMetadata.Name files = listed_names entries
    ∧ (∀ f, f ∈ files →
            cached mc (listed_path storagePath f) (FileMetadata.ModTime f)
              (FileMetadata.Size f) = false →
            FileMetadata.MD5 f = EmptyString
            ∧ (calculating mc (listed_path storagePath f) = false →
               listed_path storagePath f ∈ job_paths jobs))
    ∧ (∀ j, j ∈ jobs →
            calculating mc (job_filePath j) = false
            ∧ cached mc (job_filePath j) (job_modTime j) (job_size j) = false
            ∧ calculating mc' (job_filePath j) = true)
    ∧ NoDup (job_paths jobs)
    ∧ (∀ p, p ∉ job_paths jobs → mc' !! p = mc !! p)
    ∧ (∃ files', ListFiles storagePath entries mc' = (inl files', mc', [])).
Proof.
  intros storagePath entries mc mc' files jobs Hrun. unfold ListFiles in *.
  destruct (ListFiles_loop_inv storagePath mc entries mc [] [] files mc' jobs
              (listing_inv_refl mc) Hrun)
    as ((Hnd & Hjobs & Hframe) & _ & Hsettled & new & -> & Hnames & Hnew).
  split; [exact Hnames|]. split; [exact Hnew|]. split.
  { intros j Hj. destruct (Hjobs j Hj) as (H1 & H2 & H3 & _). auto. }
  split; [exact Hnd|]. split; [exact Hframe|].
  destruct (ListFiles_loop_settled storagePath mc' entries [] [] Hsettled)
    as [files' Hagain].
  by exists files'.
Qed.

Lemma listing_starts_one_job_per_uncached_file_witness :
  ∃ files mc',
    ListFiles "/srv" listing_entries listing_cache
    = (inl files, mc', [mkJob "/srv/huge.iso" (mkTime 3 0 0) 10737418240])
    ∧ map FileMetadata.Name files = ["small.txt"; "huge.iso"]
    ∧ map FileMetadata.MD5 files
      = ["9e107d9d372bb6826bd81d3542a419d6"; EmptyString]
    ∧ calculating mc' "/srv/huge.iso" = true
    ∧ ∃ files', ListFiles "/srv" listing_entries mc' = (inl files', mc', []).
Proof.
  eexists _, _.
  assert (Hrun : ListFiles "/srv" listing_entries listing_cache
                 = (inl [FileMetadata.mk "small.txt" 10240 (mkTime 2 0 0)
                           "9e107d9d372bb6826bd81d3542a419d6";
                         FileMetadata.mk "huge.iso" 10737418240 (mkTime 3 0 0)
                           EmptyString],
                    MD5Cache.SetCalculating listing_cache "/srv/huge.iso"
                      (mkTime 3 0 0) 10737418240,
                    [mkJob "/srv/huge.iso" (mkTime 3 0 0) 10737418240]))
    by (vm_compute; reflexivity).
  destruct (listing_starts_one_job_per_uncached_file _ _ _ _ _ _ Hrun)
    as (Hnames & _ & Hjobs & _ & _ & Hagain).
  split; [exact Hrun|]. split; [exact Hnames|]. split; [reflexivity|].
  split; [|exact Hagain].
  destruct (Hjobs (mkJob "/srv/huge.iso" (mkTime 3 0 0) 10737418240))
    as (_ & _ & Hc); [apply list_elem_of_here | exact Hc].
Defined.

(** ** Further facts about the model *)

Lemma insert_sorted_HdRel x y l :
  string_le y x → HdRel string_le y l → HdRel string_le y (OS.insert_sorted x l).
Proof.
  intros Hyx Hhd. destruct l as [|z l]; simpl; [by constructor|].
  destruct (String.leb x z); constructor; [done|]. by inversion Hhd.
Qed.

Lemma insert_sorted_Sorted x l :
  Sorted string_le l → Sorted string_le (OS.insert_sorted x l).
Proof.
  induction l as [|y l IH]; simpl; intros Hs.
  - by repeat constructor.
  - destruct (String.leb x y) eqn:Hxy.
    + constructor; [done|]. by constructor.
    + inversion Hs as [|? ? Hl Hhd]; subst. constructor; [by apply IH|].
      apply insert_sorted_HdRel; [|done].
      destruct (String.leb_total x y) as [Hle|Hle]; [congruence|done].
Qed.

(** The matches of a pattern come in the order of [sort.Strings], as
    [filepath.Glob] returns them. *)
Lemma Glob_Sorted fs dir suffix : Sorted string_le (OS.Glob fs dir suffix).
Proof.
  unfold OS.Glob. destruct (staging fs !! dir) as [d|]; [|constructor].
  induction (filter _ _) as [|x l IH]; simpl; [constructor|].
  by apply insert_sorted_Sorted.
Qed.

(** [copyWithCancel] returns, whatever the writer does: each round of the
    loop either ends the call or consumes at least one byte. *)
Lemma copy_loop_returns {W : Type} `{ResponseWriter W} fuel :
  ∀ done (dst : W) src written,
    (length (remaining src) < fuel)%nat →
    (∀ data offset, src = FileReader data offset → 0 ≤ offset) →
    is_Some (copy_loop fuel done dst src written).
Proof.
  induction fuel as [|fuel IH]; intros done dst src written Hfuel Hoff; [lia|].
  cbn [copy_loop]. destruct done; [by eexists|].
  destruct src as [data offset|name].
  - pose proof (Read_file data offset DefaultBufferSize (Hoff _ _ eq_refl)
                  DefaultBufferSize_pos) as Hread.
    destruct (remaining (FileReader data offset)) as [|b rest] eqn:Hrem.
    + rewrite Hread. simpl. by eexists.
    + destruct Hread as (src' & p & -> & Hp & Hsplit & offset' & -> & Hoff').
      assert (Hnr : (0 <? Z.of_nat (length p)) = true).
      { apply Z.ltb_lt. destruct p; [done|simpl; lia]. }
      rewrite Hnr. destruct (Write dst p) as [[dst' nw] [e|]]; [by eexists|].
      destruct (negb (Z.of_nat (length p) =? nw)); [by eexists|].
      apply IH.
      * apply (f_equal length) in Hsplit. rewrite length_app in Hsplit.
        destruct p; [done|]. cbn [length] in *. lia.
      * intros data' offset'' [= -> ->]. done.
  - simpl. by eexists.
Qed.

Lemma copyWithCancel_returns {W : Type} `{ResponseWriter W} done (dst : W)
    data offset size :
  0 ≤ offset →
  is_Some (copyWithCancel done dst (FileReader data offset) size).
Proof.
  intros Hoff. unfold copyWithCancel. apply copy_loop_returns; [lia|].
  by intros data' offset' [= -> ->].
Qed.

(** A job that ends clears the in-flight mark of its path and keeps the
    cache free of entries both finished and in flight. *)
Lemma finishJob_done mc j result :
  MD5Cache.wf mc →
  MD5Cache.wf (finishJob mc j result)
  ∧ calculating (finishJob mc j result) (job_filePath j) = false.
Proof.
  intros Hwf. destruct result as [sum|err]; simpl.
  - split; [by apply wf_SetMD5ToCache|].
    unfold calculating, MD5Cache.GetProgress, MD5Cache.SetMD5ToCache.
    by rewrite lookup_insert_eq.
  - split; [by apply wf_SetError|].
    unfold calculating, MD5Cache.GetProgress, MD5Cache.SetError.
    destruct (mc !! job_filePath j) as [e|] eqn:He.
    + by rewrite lookup_insert_eq.
    + by rewrite He.
Qed.

(** Three chunks uploaded in order: the last one triggers the merge and
    the check, and the staging directory is gone. *)
Example three_chunks_in_order :
  let upload st i data :=
    (SaveFileChunk (H := length_digest) st (a_bin_chunk i "5") (part data)).1 in
  SaveFileChunk (H := length_digest)
    (upload (upload empty_state 0 [Byte.x01; Byte.x02]) 1 [Byte.x03; Byte.x04])
    (a_bin_chunk 2 "5") (part [Byte.x05])
  = ({| disk := a_bin_merged; md5Cache := ∅ |}, None).
Proof. vm_compute. reflexivity. Qed.

(** * Further properties of the package *)

(** ** Range headers *)

Lemma is_digit_not_dash_equals s :
  string_forall is_digit s = true →
  string_forall (λ c, negb (Ascii.eqb c "-")) s = true
  ∧ string_forall (λ c, negb (Ascii.eqb c "=")) s = true.
Proof.
  intros Hd. split; (eapply string_forall_impl; [|exact Hd]); intros c Hc.
  - by destruct (is_digit_not_sign c Hc) as [_ ->].
  - by rewrite (is_digit_not_equals c Hc).
Qed.

Lemma Atoi_FormatInt z : 0 ≤ z ≤ Int64.max_int → Atoi (FormatInt z) = inl z.
Proof. intros Hz. unfold Atoi. by rewrite ParseInt_FormatInt. Qed.

Lemma parseRangeHeader_numbers unit start end_ :
  string_forall (λ c, negb (Ascii.eqb c "=")) unit = true →
  0 ≤ start ≤ Int64.max_int →
  0 ≤ end_ ≤ Int64.max_int →
  parseRangeHeader (unit +:+ String "=" (FormatInt start +:+ String "-" (FormatInt end_)))
  = Return (start, end_, None).
Proof.
  intros Hunit Hs He.
  destruct (digits_of_nonneg start) as [Hds _]; [lia|].
  destruct (digits_of_nonneg end_) as [Hde Hne]; [lia|].
  destruct (is_digit_not_dash_equals _ Hds) as [Hs1 Hs2].
  destruct (is_digit_not_dash_equals _ Hde) as [He1 He2].
  unfold parseRangeHeader.
  rewrite Split_until by done.
  rewrite (Split_absent "=").
  - rewrite (Split_until "-" (FormatInt start)) by done.
    rewrite (Split_absent "-" (FormatInt end_)) by done.
    rewrite Atoi_FormatInt by done.
    destruct (FormatInt end_) as [|c t] eqn:Hfmt; [done|].
    cbn [String.eqb]. rewrite <- Hfmt. by rewrite Atoi_FormatInt.
  - rewrite string_forall_app. apply andb_true_iff. split; [done|].
    simpl. exact He2.
Qed.

(** A header printed from a start and an end is read back as that start
    and that end; the unit before ["="] is not looked at, so any other
    word in the place of [bytes] gives the same result. *)
Theorem parseRangeHeader_round_trip :
  ∀ start end_ : Z,
    0 ≤ start ≤ Int64.max_int →
    0 ≤ end_ ≤ Int64.max_int →
    parseRangeHeader ("bytes=" +:+ FormatInt start +:+ "-" +:+ FormatInt end_)
    = Return (start, end_, None)
    ∧ ∀ unit, string_forall (λ c, negb (Ascii.eqb c "=")) unit = true →
        parseRangeHeader (unit +:+ "=" +:+ FormatInt start +:+ "-"
                          +:+ FormatInt end_)
        = Return (start, end_, None).
Proof.
  intros start end_ Hs He. split.
  - by apply (parseRangeHeader_numbers "bytes").
  - intros unit Hunit. by apply parseRangeHeader_numbers.
Qed.

Lemma parseRangeHeader_round_trip_witness :
  0 ≤ 100 ≤ Int64.max_int
  ∧ 0 ≤ 199 ≤ Int64.max_int
  ∧ parseRangeHeader "bytes=100-199" = Return (100, 199, None).
Proof.
  assert (H1 : 0 ≤ 100 ≤ Int64.max_int) by (split; vm_compute; discriminate).
  assert (H2 : 0 ≤ 199 ≤ Int64.max_int) by (split; vm_compute; discriminate).
  split; [exact H1|]. split; [exact H2|].
  exact (proj1 (parseRangeHeader_round_trip 100 199 H1 H2)).
Defined.

(** A header without ["="] makes [parseRangeHeader] panic, and so does a
    header whose part after ["="] is a number with no ["-"]: the second
    index is read without a length check. [DownloadFile] passes every
    non-empty header of an existing file to it, so it panics too. *)
Theorem malformed_range_header_panics :
  ∀ {W : Type} `{ResponseWriter W} (fs : FS) (c : Context W)
    (filename header : string) (n : Z),
    is_Some (root fs !! filename) →
    header ≠ EmptyString →
    string_forall (λ c, negb (Ascii.eqb c "=")) header = true →
    0 ≤ n ≤ Int64.max_int →
    parseRangeHeader header = Panic "index out of range [1] with length 1"
    ∧ DownloadFile fs c filename header
      = Panic "index out of range [1] with length 1"
    ∧ parseRangeHeader ("bytes=" +:+ FormatInt n)
      = Panic "index out of range [1] with length 1"
    ∧ DownloadFile fs c filename ("bytes=" +:+ FormatInt n)
      = Panic "index out of range [1] with length 1".
Proof.
  intros W HW fs c filename header n [entry Hentry] Hne Hnoeq Hn.
  assert (Hp1 : parseRangeHeader header
                = Panic "index out of range [1] with length 1").
  { unfold parseRangeHeader. by rewrite (Split_absent "=" header Hnoeq). }
  assert (Hp2 : parseRangeHeader ("bytes=" +:+ FormatInt n)
                = Panic "index out of range [1] with length 1").
  { destruct (digits_of_nonneg n) as [Hd _]; [lia|].
    destruct (is_digit_not_dash_equals _ Hd) as [Hd1 Hd2].
    unfold parseRangeHeader.
    change ("bytes=" +:+ FormatInt n) with ("bytes" +:+ String "=" (FormatInt n)).
    rewrite Split_until by done. rewrite (Split_absent "=") by done.
    rewrite (Split_absent "-") by done. by rewrite Atoi_FormatInt. }
  split; [exact Hp1|]. split; [|split; [exact Hp2|]].
  - unfold DownloadFile. rewrite Hentry, Hp1.
    by destruct header.
  - unfold DownloadFile. rewrite Hentry, Hp2. done.
Qed.

Lemma malformed_range_header_panics_witness :
  is_Some (root (holding (counting 1000)) !! "data.bin")
  ∧ "100-199" ≠ EmptyString
  ∧ string_forall (λ c, negb (Ascii.eqb c "=")) "100-199" = true
  ∧ 0 ≤ 5 ≤ Int64.max_int
  ∧ DownloadFile (holding (counting 1000)) recorderContext "data.bin" "100-199"
    = Panic "index out of range [1] with length 1"
  ∧ DownloadFile (holding (counting 1000)) recorderContext "data.bin" "bytes=5"
    = Panic "index out of range [1] with length 1".
Proof.
  assert (H1 : is_Some (root (holding (counting 1000)) !! "data.bin")).
  { exists (File (counting 1000)). apply lookup_singleton_eq. }
  assert (H2 : "100-199" ≠ EmptyString) by discriminate.
  assert (H3 : string_forall (λ c, negb (Ascii.eqb c "=")) "100-199" = true)
    by reflexivity.
  assert (H4 : 0 ≤ 5 ≤ Int64.max_int) by (split; vm_compute; discriminate).
  destruct (malformed_range_header_panics (holding (counting 1000))
              recorderContext "data.bin" "100-199" 5 H1 H2 H3 H4)
    as (_ & Ha & _ & Hb).
  split; [exact H1|]. split; [exact H2|]. split; [exact H3|].
  split; [exact H4|]. split; [exact Ha | exact Hb].
Defined.

(** ** Downloads, beyond the window of a claim *)

(** The copy loop into the server's writer when no header was written
    yet: the first block writes the header with status 200 and the
    declared length of the header map. *)
Lemma copy_loop_Response_fresh fuel (dst : Response) data offset written :
  0 ≤ offset →
  (length (remaining (FileReader data offset)) < fuel)%nat →
  resp_wroteHeader dst = false →
  remaining (FileReader data offset) ≠ [] →
  resp_written dst + Z.of_nat (length (remaining (FileReader data offset)))
    ≤ declaredLength (resp_header dst) →
  copy_loop fuel false dst (FileReader data offset) written
  = Some ({| resp_header := resp_header dst; resp_status := StatusOK;
             resp_wroteHeader := true;
             resp_contentLength := declaredLength (resp_header dst);
             resp_written := resp_written dst
               + Z.of_nat (length (remaining (FileReader data offset)));
             resp_body := resp_body dst ++ remaining (FileReader data offset) |},
          None).
Proof.
  intros Hoff Hfuel Hfresh Hne Hfits. destruct fuel as [|fuel]; [lia|].
  pose proof (Read_file data offset DefaultBufferSize Hoff DefaultBufferSize_pos)
    as Hread.
  cbn [copy_loop].
  destruct (remaining (FileReader data offset)) as [|b rest] eqn:Hrem; [done|].
  destruct Hread as (src' & p & -> & Hp & Hsplit & offset' & -> & Hoff').
  assert (Hnr : (0 <? Z.of_nat (length p)) = true).
  { apply Z.ltb_lt. destruct p; [done|simpl; lia]. }
  rewrite Hnr.
  assert (Hlen : (length p + length (remaining (FileReader data offset'))
                  = length (b :: rest))%nat).
  { by rewrite <- Hsplit, length_app. }
  cbn [Write Response_writer]. unfold Response_Write, Response_WriteHeader.
  rewrite Hfresh.
  cbn [resp_header resp_status resp_wroteHeader resp_contentLength
       resp_written resp_body].
  assert (Hok : negb (declaredLength (resp_header dst) =? -1)
                && (declaredLength (resp_header dst)
                    <? resp_written dst + Z.of_nat (length p)) = false).
  { apply andb_false_iff. right. apply Z.ltb_ge. lia. }
  rewrite Hok, Z.eqb_refl. cbn [negb].
  rewrite copy_loop_Response; cbn [resp_header resp_status resp_wroteHeader
    resp_contentLength resp_written resp_body]; [|done|lia|done|right; lia].
  by rewrite <- Hsplit, length_app, Nat2Z.inj_add, app_assoc, Z.add_assoc.
Qed.

(** A download with no range header answers with status 200, the three
    headers of an attachment, and the whole file as the body, into a
    recording writer and into the server's writer alike. *)
Theorem full_download_sends_whole_file :
  ∀ (fs : FS) (filename : string) (content : bytes),
    root fs !! filename = Some (File content) →
    Z.of_nat (length content) ≤ Int64.max_int →
    (∃ w, DownloadFile fs recorderContext filename EmptyString
          = Return (Some (w, None))
          ∧ rec_code w = 200
          ∧ rec_header w !! "Content-Length"
            = Some (FormatInt (Z.of_nat (length content)))
          ∧ rec_header w !! "Content-Type" = Some "application/octet-stream"
          ∧ rec_header w !! "Content-Disposition"
            = Some ("attachment; filename=" +:+ dquote +:+ filename +:+ dquote)
          ∧ rec_body w = content)
    ∧ (∃ w, DownloadFile fs serverContext filename EmptyString
            = Return (Some (w, None))
            ∧ resp_status w = 200
            ∧ resp_body w = content).
Proof.
  intros fs filename content Hfile Hmax. split.
  - unfold DownloadFile. rewrite Hfile. cbn [String.eqb negb Open Entry_Size].
    cbn [ctx_done recorderContext].
    rewrite copyWithCancel_Recorder by done.
    eexists. split; [reflexivity|]. cbn [rec_code rec_header rec_body].
    cbn [HeaderSet Recorder_writer rec_header rec_code rec_body Writer
         recorderContext newRecorder].
    split; [reflexivity|]. split; [apply lookup_insert_eq|].
    split.
    { etrans; [by apply lookup_insert_ne|]. apply lookup_insert_eq. }
    split; [|by rewrite dropZ_drop].
    etrans; [by apply lookup_insert_ne|].
    etrans; [by apply lookup_insert_ne|]. apply lookup_insert_eq.
  - unfold DownloadFile. rewrite Hfile. cbn [String.eqb negb Open Entry_Size].
    cbn [ctx_done serverContext]. unfold copyWithCancel.
    destruct content as [|b rest] eqn:Hcontent.
    + eexists. split; [reflexivity|]. split; reflexivity.
    + rewrite <- Hcontent in *.
      set (w3 := HeaderSet _ "Content-Length" _).
      assert (Hdecl : declaredLength (resp_header w3)
                      = Z.of_nat (length content)).
      { unfold declaredLength. subst w3.
        cbn [HeaderSet Response_writer resp_header].
        rewrite (lookup_insert_eq (M := gmap string)).
        rewrite ParseInt_FormatInt by lia.
        destruct (Z.leb_spec 0 (Z.of_nat (length content))); [done|lia]. }
      assert (Hrem : remaining (FileReader content 0) = content)
        by (cbn [remaining]; by rewrite dropZ_drop).
      rewrite (copy_loop_Response_fresh _ w3 content 0 0).
      * eexists. split; [reflexivity|]. split; [reflexivity|].
        cbn [resp_body]. by rewrite Hrem.
      * done.
      * lia.
      * reflexivity.
      * rewrite Hrem, Hcontent. discriminate.
      * rewrite Hrem, Hdecl. change (resp_written w3) with 0. lia.
Qed.

Lemma full_download_sends_whole_file_witness :
  root (holding hello) !! "data.bin" = Some (File hello)
  ∧ Z.of_nat (length hello) ≤ Int64.max_int
  ∧ ∃ w, DownloadFile (holding hello) serverContext "data.bin" EmptyString
         = Return (Some (w, None))
         ∧ resp_status w = 200
         ∧ resp_body w = hello.
Proof.
  assert (H1 : root (holding hello) !! "data.bin" = Some (File hello))
    by apply lookup_singleton_eq.
  assert (H2 : Z.of_nat (length hello) ≤ Int64.max_int)
    by (vm_compute; discriminate).
  split; [exact H1|]. split; [exact H2|].
  exact (proj2 (full_download_sends_whole_file (holding hello) "data.bin" hello
                  H1 H2)).
Defined.

(** A well-formed range header is not checked against the file: whatever
    the end position, and whether or not the start lies inside the file
    or before the end, as long as the file system accepts the start as
    an offset (it is not above the largest offset, or it lies inside the
    file), the answer is 206 with [Content-Length] computed as
    [end - start + 1] in [int] arithmetic, and the bytes handed to the
    writer are those from the start to the end of the file. A start
    above the largest offset and past the end of the file makes the seek
    fail: the call returns that error after the status line, with no
    body. *)
Theorem range_download_ignores_end_position :
  ∀ (fs : FS) (filename : string) (content : bytes) (start end_ : Z),
    root fs !! filename = Some (File content) →
    0 ≤ start ≤ Int64.max_int →
    0 ≤ end_ ≤ Int64.max_int →
    (start ≤ OS.MaxOffset ∨ start ≤ Z.of_nat (length content) →
     ∃ w, DownloadFile fs recorderContext filename
            ("bytes=" +:+ FormatInt start +:+ "-" +:+ FormatInt end_)
          = Return (Some (w, None))
          ∧ rec_code w = 206
          ∧ rec_header w !! "Content-Length"
            = Some (FormatInt (Int64.add (Int64.sub end_ start) 1))
          ∧ rec_body w = drop (Z.to_nat start) content)
    ∧ (OS.MaxOffset < start →
       Z.of_nat (length content) < start →
       ∃ w, DownloadFile fs recorderContext filename
              ("bytes=" +:+ FormatInt start +:+ "-" +:+ FormatInt end_)
            = Return (Some (w, Some (PathError "seek" [] EINVAL)))
            ∧ rec_code w = 206
            ∧ rec_header w !! "Content-Length"
              = Some (FormatInt (Int64.add (Int64.sub end_ start) 1))
            ∧ rec_body w = []).
Proof.
  intros fs filename content start end_ Hfile Hs He.
  unfold DownloadFile. rewrite Hfile.
  change ("bytes=" +:+ FormatInt start +:+ "-" +:+ FormatInt end_)
    with ("bytes" +:+ String "=" (FormatInt start +:+ String "-" (FormatInt end_))).
  rewrite parseRangeHeader_numbers by done.
  cbn [String.append String.eqb Ascii.eqb Bool.eqb negb Open Entry_Size].
  split.
  - intros Hbound.
    rewrite serveWindow_Recorder by first [done | lia].
    eexists. split; [reflexivity|]. cbn [rec_code rec_header rec_body].
    split; [reflexivity|]. split.
    + unfold windowHeaders. apply lookup_insert_eq.
    + change (rec_body (Writer recorderContext)) with (@nil Byte.byte).
      by rewrite dropZ_drop.
  - intros Hlimit Hpast.
    rewrite serveWindow_seek_fails by done.
    eexists. split; [reflexivity|].
    cbn [WriteHeader HeaderSet Recorder_writer rec_code rec_header rec_body
         Writer recorderContext newRecorder].
    split; [reflexivity|]. split; [apply lookup_insert_eq | reflexivity].
Qed.

Lemma range_download_ignores_end_position_witness :
  root (holding hello) !! "data.bin" = Some (File hello)
  ∧ 0 ≤ 3 ≤ Int64.max_int
  ∧ 0 ≤ 1 ≤ Int64.max_int
  ∧ (∃ w, DownloadFile (holding hello) recorderContext "data.bin" "bytes=3-1"
          = Return (Some (w, None))
          ∧ rec_code w = 206
          ∧ rec_header w !! "Content-Length" = Some "-1"
          ∧ rec_body w = [Byte.x6c; Byte.x6f])
  ∧ 0 ≤ 17592186040321 ≤ Int64.max_int
  ∧ ∃ w, DownloadFile (holding hello) recorderContext "data.bin"
           "bytes=17592186040321-1"
         = Return (Some (w, Some (PathError "seek" [] EINVAL)))
         ∧ rec_code w = 206
         ∧ rec_header w !! "Content-Length" = Some "-17592186040319"
         ∧ rec_body w = [].
Proof.
  assert (H1 : root (holding hello) !! "data.bin" = Some (File hello))
    by apply lookup_singleton_eq.
  assert (H2 : 0 ≤ 3 ≤ Int64.max_int) by (split; vm_compute; discriminate).
  assert (H3 : 0 ≤ 1 ≤ Int64.max_int) by (split; vm_compute; discriminate).
  assert (H4 : 0 ≤ 17592186040321 ≤ Int64.max_int)
    by (split; vm_compute; discriminate).
  split; [exact H1|]. split; [exact H2|]. split; [exact H3|].
  split.
  - apply (proj1 (range_download_ignores_end_position (holding hello)
                    "data.bin" hello 3 1 H1 H2 H3)).
    left. vm_compute. discriminate.
  - split; [exact H4|].
    apply (proj2 (range_download_ignores_end_position (holding hello)
                    "data.bin" hello 17592186040321 1 H1 H4 H3)).
    + vm_compute. reflexivity.
    + vm_compute. reflexivity.
Defined.

(** A chunk that is not the last one of its file cannot be downloaded
    through the server's writer: [DownloadFileChunk] declares
    [chunkSize] bytes but hands over everything up to the end of the
    file. A recording writer receives all of that; the server's writer,
    when the rest of the file fits one buffer, refuses it and the body
    stays empty. *)
Theorem inner_chunk_download_overruns :
  ∀ (fs : FS) (filename : string) (content : bytes) (chunkIndex chunkSize : Z),
    root fs !! filename = Some (File content) →
    Z.of_nat (length content) ≤ Int64.max_int →
    0 ≤ chunkIndex → 0 < chunkSize →
    chunkIndex * chunkSize + chunkSize < Z.of_nat (length content) →
    (∃ w, DownloadFileChunk fs recorderContext filename chunkIndex chunkSize
          = Some (w, None)
          ∧ rec_header w !! "Content-Length" = Some (FormatInt chunkSize)
          ∧ rec_body w = drop (Z.to_nat (chunkIndex * chunkSize)) content
          ∧ chunkSize < Z.of_nat (length (rec_body w)))
    ∧ (Z.of_nat (length content) - chunkIndex * chunkSize ≤ DefaultBufferSize →
       ∃ w, DownloadFileChunk fs serverContext filename chunkIndex chunkSize
            = Some (w, Some ErrContentLength)
            ∧ resp_status w = 206
            ∧ resp_body w = []).
Proof.
  intros fs filename content chunkIndex chunkSize Hfile Hmax Hci Hcs Hinner.
  set (start := chunkIndex * chunkSize) in *.
  assert (Hstart : 0 ≤ start) by (subst start; nia).
  assert (Hrange : ∀ z, 0 ≤ z ≤ Z.of_nat (length content) → Int64.wrap64 z = z).
  { intros z Hz. apply wrap64_id.
    unfold Int64.in_range, Int64.min_int, Int64.max_int in *. lia. }
  assert (Hwin : chunkWindow chunkIndex chunkSize (Z.of_nat (length content))
                 = (start, start + chunkSize - 1)).
  { unfold chunkWindow, Int64.mul, Int64.add, Int64.sub. fold start.
    rewrite (Hrange start) by lia.
    rewrite (Hrange (start + chunkSize)) by lia.
    rewrite (Hrange (start + chunkSize - 1)) by lia.
    destruct (Z.leb_spec (Z.of_nat (length content)) (start + chunkSize - 1));
      [lia|done]. }
  assert (Hdecl : Int64.add (Int64.sub (start + chunkSize - 1) start) 1 = chunkSize).
  { unfold Int64.add, Int64.sub.
    replace (start + chunkSize - 1 - start) with (chunkSize - 1) by lia.
    rewrite (Hrange (chunkSize - 1)) by lia.
    replace (chunkSize - 1 + 1) with chunkSize by lia. apply Hrange. lia. }
  assert (Hrest : Z.of_nat (length (dropZ start content))
                  = Z.of_nat (length content) - start).
  { rewrite dropZ_drop, length_drop. lia. }
  split.
  - unfold DownloadFileChunk. rewrite Hfile. cbn [Entry_Size Open].
    rewrite Hwin. rewrite serveWindow_Recorder by first [done | right; lia].
    eexists. split; [reflexivity|]. cbn [rec_header rec_body].
    change (rec_body (Writer recorderContext)) with (@nil Byte.byte).
    cbn [app]. split; [|split].
    + unfold windowHeaders. etrans; [apply lookup_insert_eq|]. by rewrite Hdecl.
    + by rewrite dropZ_drop.
    + rewrite Hrest. lia.
  - intros Hsmall. unfold DownloadFileChunk. rewrite Hfile.
    cbn [Entry_Size Open]. rewrite Hwin.
    rewrite serveWindow_Response_overflow;
      [|done|right; lia|rewrite Hdecl; lia| |].
    + eexists. split; [reflexivity|]. split; reflexivity.
    + rewrite Hdecl, Hrest. lia.
    + rewrite Hrest. lia.
Qed.

Lemma inner_chunk_download_overruns_witness :
  root (holding (counting 2500)) !! "data.bin" = Some (File (counting 2500))
  ∧ Z.of_nat (length (counting 2500)) ≤ Int64.max_int
  ∧ 0 ≤ 0 ∧ 0 < 1024
  ∧ 0 * 1024 + 1024 < Z.of_nat (length (counting 2500))
  ∧ Z.of_nat (length (counting 2500)) - 0 * 1024 ≤ DefaultBufferSize
  ∧ ∃ w, DownloadFileChunk (holding (counting 2500)) serverContext "data.bin"
           0 1024
         = Some (w, Some ErrContentLength)
         ∧ resp_status w = 206
         ∧ resp_body w = [].
Proof.
  assert (H1 : root (holding (counting 2500)) !! "data.bin"
               = Some (File (counting 2500))) by apply lookup_singleton_eq.
  assert (H2 : Z.of_nat (length (counting 2500)) ≤ Int64.max_int)
    by (vm_compute; discriminate).
  assert (H3 : 0 ≤ 0) by lia.
  assert (H4 : 0 < 1024) by lia.
  assert (H5 : 0 * 1024 + 1024 < Z.of_nat (length (counting 2500)))
    by (vm_compute; reflexivity).
  assert (H6 : Z.of_nat (length (counting 2500)) - 0 * 1024 ≤ DefaultBufferSize)
    by (vm_compute; discriminate).
  split; [exact H1|]. split; [exact H2|]. split; [exact H3|].
  split; [exact H4|]. split; [exact H5|]. split; [exact H6|].
  exact (proj2 (inner_chunk_download_overruns (holding (counting 2500))
                  "data.bin" (counting 2500) 0 1024 H1 H2 H3 H4 H5) H6).
Defined.

(** Once the request context is done, no download writes a status line
    or a body byte: the full download returns at once with the writer as
    it was, the range paths return after setting their three headers. *)
Theorem cancelled_download_writes_nothing :
  ∀ {W : Type} `{ResponseWriter W} (fs : FS) (w : W) (filename : string)
    (entry : Entry) (start end_ chunkIndex chunkSize : Z),
    root fs !! filename = Some entry →
    0 ≤ start ≤ Int64.max_int →
    0 ≤ end_ ≤ Int64.max_int →
    DownloadFile fs (mkContext w true) filename EmptyString
    = Return (Some (w, Some ContextCanceled))
    ∧ (∃ h1 h2 h3,
         DownloadFile fs (mkContext w true) filename
           ("bytes=" +:+ FormatInt start +:+ "-" +:+ FormatInt end_)
         = Return (Some (HeaderSet (HeaderSet (HeaderSet w "Content-Range" h1)
                                      "Accept-Ranges" h2) "Content-Length" h3,
                         Some ContextCanceled)))
    ∧ (∃ h1 h2 h3,
         DownloadFileChunk fs (mkContext w true) filename chunkIndex chunkSize
         = Some (HeaderSet (HeaderSet (HeaderSet w "Content-Range" h1)
                              "Accept-Ranges" h2) "Content-Length" h3,
                 Some ContextCanceled)).
Proof.
  intros W HW fs w filename entry start end_ chunkIndex chunkSize Hentry Hs He.
  split; [|split].
  - unfold DownloadFile. by rewrite Hentry.
  - unfold DownloadFile. rewrite Hentry.
    change ("bytes=" +:+ FormatInt start +:+ "-" +:+ FormatInt end_)
      with ("bytes" +:+ String "=" (FormatInt start +:+ String "-" (FormatInt end_))).
    rewrite parseRangeHeader_numbers by done.
    cbn [String.append String.eqb Ascii.eqb Bool.eqb negb].
    unfold serveWindow. cbn [ctx_done Writer]. by eexists _, _, _.
  - unfold DownloadFileChunk. rewrite Hentry.
    destruct (chunkWindow _ _ _) as [s e]. unfold serveWindow.
    cbn [ctx_done Writer]. by eexists _, _, _.
Qed.

Lemma cancelled_download_writes_nothing_witness :
  root (holding hello) !! "data.bin" = Some (File hello)
  ∧ 0 ≤ 1 ≤ Int64.max_int
  ∧ 0 ≤ 3 ≤ Int64.max_int
  ∧ DownloadFile (holding hello) (mkContext newRecorder true) "data.bin"
      EmptyString
    = Return (Some (newRecorder, Some ContextCanceled)).
Proof.
  assert (H1 : root (holding hello) !! "data.bin" = Some (File hello))
    by apply lookup_singleton_eq.
  assert (H2 : 0 ≤ 1 ≤ Int64.max_int) by (split; vm_compute; discriminate).
  assert (H3 : 0 ≤ 3 ≤ Int64.max_int) by (split; vm_compute; discriminate).
  split; [exact H1|]. split; [exact H2|]. split; [exact H3|].
  exact (proj1 (cancelled_download_writes_nothing (holding hello) newRecorder
                  "data.bin" (File hello) 1 3 0 1 H1 H2 H3)).
Defined.

(** ** Uploads, beyond the claims *)



(** A resume header in the suffix form [bytes=-<n>], or one whose start
    is not a decimal number that an [int64] holds, is refused before the
    destination is opened: [SaveFile] returns the error of
    [strconv.ParseInt] and the state is as before, with no file
    created. *)
Theorem upload_rejects_unparsable_offset :
  ∀ (st : State) (file : FileHeader.t) (n : Z),
    0 ≤ n →
    SaveFile st file ("bytes=-" +:+ FormatInt n)
    = (st, Some (NumError "ParseInt" EmptyString))
    ∧ SaveFile st file "bytes=abc-"
      = (st, Some (NumError "ParseInt" "abc"))
    ∧ SaveFile st file "bytes=9223372036854775808-"
      = (st, Some (NumError "ParseInt" "9223372036854775808")).
Proof.
  intros st file n Hn. split; [|split; reflexivity].
  unfold SaveFile, resume_offset.
  change ("bytes=-" +:+ FormatInt n) with ("bytes=" +:+ String "-" (FormatInt n)).
  rewrite TrimPrefix_app.
  change (String "-" (FormatInt n)) with (EmptyString +:+ String "-" (FormatInt n)).
  by rewrite Split_until.
Qed.

Lemma upload_rejects_unparsable_offset_witness :
  0 ≤ 500
  ∧ SaveFile empty_state (FileHeader.mk "hello.txt" hello) "bytes=-500"
    = (empty_state, Some (NumError "ParseInt" EmptyString)).
Proof.
  assert (H1 : 0 ≤ 500) by lia.
  split; [exact H1|].
  exact (proj1 (upload_rejects_unparsable_offset empty_state
                  (FileHeader.mk "hello.txt" hello) 500 H1)).
Defined.

(** ** Chunk file names and the pattern of the merge *)















Section ChunkFacts.
Context `{Digest}.


End ChunkFacts.



Section LastChunkFacts.
Context `{Digest}.


End LastChunkFacts.





(** ** Checksums of stored files *)

Lemma MD5ChunkSize_pos : 0 < MD5ChunkSize.
Proof. done. Qed.

Lemma md5_blocks_0 : md5_blocks 0 = 0.
Proof. reflexivity. Qed.

Lemma md5_blocks_step n k :
  0 < n → k = Z.min MD5ChunkSize n → md5_blocks n = 1 + md5_blocks (n - k).
Proof.
  intros Hn ->. unfold md5_blocks. pose proof MD5ChunkSize_pos as HB.
  destruct (Z.le_gt_cases MD5ChunkSize n) as [Hle|Hgt].
  - rewrite Z.min_l by done.
    replace (n + MD5ChunkSize - 1) with (n - MD5ChunkSize + MD5ChunkSize - 1
                                         + 1 * MD5ChunkSize) by lia.
    rewrite Z.div_add by lia. lia.
  - rewrite Z.min_r by lia. rewrite Z.sub_diag.
    replace (0 + MD5ChunkSize - 1) with (MD5ChunkSize - 1) by lia.
    rewrite (Z.div_small (MD5ChunkSize - 1)) by lia.
    replace (n + MD5ChunkSize - 1) with (n - 1 + 1 * MD5ChunkSize) by lia.
    rewrite Z.div_add by lia. rewrite Z.div_small by lia. lia.
Qed.

Lemma Read_block data offset buflen src' p :
  Read (FileReader data offset) buflen = (src', p, None) →
  p = takeZ buflen (remaining (FileReader data offset)).
Proof.
  unfold Read. cbn [remaining].
  destruct (dropZ offset data) as [|b rest]; [done|]. congruence.
Qed.

Section ChecksumFacts.
Context `{Digest}.

(** The block loop feeds the hash every remaining byte once, in order,
    and reports progress once per block. *)
Lemma md5_chunked_loop_spec fuel :
  ∀ data offset hashed totalRead fileSize reports,
    0 ≤ offset →
    (length (remaining (FileReader data offset)) < fuel)%nat →
    ∃ more,
      md5_chunked_loop fuel (FileReader data offset) hashed totalRead fileSize
        reports
      = Some (inl (md5_hex (hashed ++ remaining (FileReader data offset))),
              reports ++ more)
      ∧ Z.of_nat (length more)
        = md5_blocks (Z.of_nat (length (remaining (FileReader data offset)))).
Proof.
  induction fuel as [|fuel IH];
    intros data offset hashed totalRead fileSize reports Hoff Hfuel; [lia|].
  pose proof (Read_file data offset MD5ChunkSize Hoff MD5ChunkSize_pos) as Hread.
  cbn [md5_chunked_loop].
  destruct (remaining (FileReader data offset)) as [|b rest] eqn:Hrem.
  - rewrite Hread. simpl. exists []. by rewrite !app_nil_r.
  - destruct Hread as (src' & p & Hr & Hp & Hsplit & offset' & -> & Hoff').
    rewrite Hr.
    assert (Hnr : (0 <? Z.of_nat (length p)) = true).
    { apply Z.ltb_lt. destruct p; [done|simpl; lia]. }
    rewrite Hnr.
    assert (Hlen : (length p + length (remaining (FileReader data offset'))
                    = length (b :: rest))%nat).
    { by rewrite <- Hsplit, length_app. }
    destruct (IH data offset' (hashed ++ p)
                (totalRead + Z.of_nat (length p)) fileSize
                (reports ++ [PrimFloat.div
                               (float_of_int64 (totalRead + Z.of_nat (length p)))
                               (float_of_int64 fileSize)]))
      as (more & -> & Hmore); [done|lia|].
    eexists (_ :: more). rewrite <- !app_assoc, Hsplit.
    split; [reflexivity|].
    assert (Hp_len : Z.of_nat (length p)
                     = Z.min MD5ChunkSize (Z.of_nat (length (b :: rest)))).
    { rewrite (Read_block _ _ _ _ _ Hr), Hrem, takeZ_take, length_take.
      pose proof MD5ChunkSize_pos. lia. }
    rewrite (md5_blocks_step (Z.of_nat (length (b :: rest)))
               (Z.of_nat (length p))); [|simpl; lia|done].
    replace (Z.of_nat (length (b :: rest)) - Z.of_nat (length p))
      with (Z.of_nat (length (remaining (FileReader data offset')))) by lia.
    rewrite <- Hmore. simpl length. lia.
Qed.

Lemma calculateFileMD5Chunked_file fs name data :
  root fs !! name = Some (File data) →
  ∃ reports,
    calculateFileMD5Chunked fs name = Some (inl (md5_hex data), reports)
    ∧ Z.of_nat (length reports) = md5_blocks (Z.of_nat (length data)).
Proof.
  intros Hfile. unfold calculateFileMD5Chunked. rewrite Hfile. cbn [Open].
  destruct (md5_chunked_loop_spec
              (S (length (remaining (FileReader data 0)))) data 0 [] 0
              (Entry_Size (File data)) []) as (more & -> & Hmore); [done|lia|].
  exists more. cbn [remaining] in *. rewrite dropZ_drop in *. by split.
Qed.

Lemma calculateFileMD5WithProgress_entry fs name entry :
  root fs !! name = Some entry →
  ∃ reports,
    calculateFileMD5WithProgress fs name
    = Some (calculateFileMD5 fs name, reports).
Proof.
  intros Hentry. unfold calculateFileMD5WithProgress. rewrite Hentry.
  destruct (_ <? _); [|by eexists].
  destruct entry as [data|sz].
  - destruct (calculateFileMD5Chunked_file fs name data Hentry)
      as (reports & -> & _).
    exists reports. unfold calculateFileMD5. by rewrite Hentry.
  - exists []. unfold calculateFileMD5Chunked, calculateFileMD5.
    rewrite Hentry. reflexivity.
Qed.

End ChecksumFacts.

(** The block-wise checksum of large files is the checksum of the file:
    for every stored file [calculateFileMD5Chunked] returns the digest of
    its bytes, having called the progress callback once per block of 64
    MB (never for an empty file), and [calculateFileMD5WithProgress]
    returns what [calculateFileMD5] returns on either side of its 100 MB
    threshold, for files and directories alike. *)
Theorem chunked_checksum_is_the_checksum :
  ∀ `{Digest} (fs : FS) (name : string) (entry : Entry),
    root fs !! name = Some entry →
    (∃ reports, calculateFileMD5WithProgress fs name
                = Some (calculateFileMD5 fs name, reports))
    ∧ (∀ data, entry = File data →
         ∃ reports,
           calculateFileMD5Chunked fs name = Some (inl (md5_hex data), reports)
           ∧ Z.of_nat (length reports) = md5_blocks (Z.of_nat (length data))
           ∧ (data = [] → reports = [])).
Proof.
  intros Hd fs name entry Hentry. split.
  - by apply calculateFileMD5WithProgress_entry with entry.
  - intros data ->.
    destruct (calculateFileMD5Chunked_file fs name data Hentry)
      as (reports & Hc & Hn).
    exists reports. split; [done|]. split; [done|].
    intros ->. change (md5_blocks (Z.of_nat (length []))) with 0 in Hn.
    by destruct reports.
Qed.

Lemma chunked_checksum_is_the_checksum_witness :
  root (holding hello) !! "data.bin" = Some (File hello)
  ∧ ∃ reports,
      calculateFileMD5Chunked (H := length_digest) (holding hello) "data.bin"
      = Some (inl "5", reports)
      ∧ Z.of_nat (length reports) = 1.
Proof.
  assert (H1 : root (holding hello) !! "data.bin" = Some (File hello))
    by apply lookup_singleton_eq.
  destruct (chunked_checksum_is_the_checksum (H := length_digest)
              (holding hello) "data.bin" (File hello) H1) as [_ Hc].
  destruct (Hc hello eq_refl) as (reports & Hr & Hn & _).
  split; [exact H1|]. exists reports. split; [exact Hr | exact Hn].
Defined.

(** ** Checksums on request *)

Lemma GetMD5FromCache_SetMD5ToCache mc p sum modTime size :
  MD5Cache.GetMD5FromCache (MD5Cache.SetMD5ToCache mc p sum modTime size) p
    modTime size = (sum, true).
Proof.
  unfold MD5Cache.GetMD5FromCache, MD5Cache.SetMD5ToCache.
  rewrite lookup_insert_eq. cbn.
  rewrite bool_decide_eq_true_2 by done. by rewrite Z.eqb_refl.
Qed.

Lemma GetMD5FromCache_SetMD5ToCache_stale mc p sum modTime size modTime' size' :
  modTime' ≠ modTime ∨ size' ≠ size →
  MD5Cache.GetMD5FromCache (MD5Cache.SetMD5ToCache mc p sum modTime size) p
    modTime' size' = (EmptyString, false).
Proof.
  intros Hne. unfold MD5Cache.GetMD5FromCache, MD5Cache.SetMD5ToCache.
  rewrite lookup_insert_eq. cbn. destruct Hne as [Ht|Hs].
  - by rewrite bool_decide_eq_false_2.
  - assert ((size =? size') = false) as -> by (apply Z.eqb_neq; congruence).
    cbn. by rewrite orb_true_r.
Qed.

Lemma GetProgress_SetMD5ToCache mc p sum modTime size :
  MD5Cache.GetProgress (MD5Cache.SetMD5ToCache mc p sum modTime size) p
  = (0%float, false, EmptyString).
Proof.
  unfold MD5Cache.GetProgress, MD5Cache.SetMD5ToCache.
  by rewrite lookup_insert_eq.
Qed.

Section MetadataFacts.
Context `{Digest} `{FloatFormat}.

(** What [GetFileMD5] does at a path with no valid checksum, no
    computation in flight and no stored error. *)
Lemma GetFileMD5_computes st storagePath filename modTime data :
  root (disk st) !! filename = Some (File data) →
  MD5Cache.GetMD5FromCache (md5Cache st) (Join storagePath filename) modTime
    (Z.of_nat (length data)) = (EmptyString, false)
  ∨ cached (md5Cache st) (Join storagePath filename) modTime
      (Z.of_nat (length data)) = false →
  MD5Cache.GetProgress (md5Cache st) (Join storagePath filename)
  = ((MD5Cache.GetProgress (md5Cache st) (Join storagePath filename)).1.1,
     false, EmptyString) →
  GetFileMD5 st storagePath filename modTime
  = Some ({| disk := disk st;
             md5Cache := MD5Cache.SetMD5ToCache (md5Cache st)
                           (Join storagePath filename) (md5_hex data) modTime
                           (Z.of_nat (length data)) |},
          (md5_hex data, None)).
Proof.
  intros Hfile Hmiss Hidle. unfold GetFileMD5, Stat. rewrite Hfile.
  cbn [fi_ModTime fi_Size Entry_Size].
  assert (Hc : (MD5Cache.GetMD5FromCache (md5Cache st)
                  (Join storagePath filename) modTime
                  (Z.of_nat (length data))).2 = false).
  { destruct Hmiss as [->|Hm]; [done | exact Hm]. }
  destruct (MD5Cache.GetMD5FromCache _ _ _ _) as [sum hit]. cbn in Hc.
  subst hit. rewrite Hidle. cbn [negb String.eqb].
  destruct (calculateFileMD5WithProgress_entry (disk st) filename (File data)
              Hfile) as (reports & ->).
  unfold calculateFileMD5. by rewrite Hfile.
Qed.

End MetadataFacts.

(** [GetFileMD5] computes a checksum once per fingerprint: at a path
    with no valid checksum, no computation in flight and no stored error
    it returns the digest of the file and caches it under the fingerprint
    [os.Stat] reports; the next call with that fingerprint returns the
    same checksum and leaves the state as it is; a call after the
    modification time changed computes again and replaces the entry. *)
Theorem checksum_is_computed_once_per_fingerprint :
  ∀ `{Digest} `{FloatFormat} (st : State) (storagePath filename : string)
    (modTime : Time) (data : bytes),
    root (disk st) !! filename = Some (File data) →
    cached (md5Cache st) (Join storagePath filename) modTime
      (Z.of_nat (length data)) = false →
    calculating (md5Cache st) (Join storagePath filename) = false →
    (MD5Cache.GetProgress (md5Cache st) (Join storagePath filename)).2
    = EmptyString →
    ∃ st',
      GetFileMD5 st storagePath filename modTime
      = Some (st', (md5_hex data, None))
      ∧ disk st' = disk st
      ∧ GetFileMD5 st' storagePath filename modTime
        = Some (st', (md5_hex data, None))
      ∧ ∀ modTime', modTime' ≠ modTime →
          ∃ st'',
            GetFileMD5 st' storagePath filename modTime'
            = Some (st'', (md5_hex data, None))
            ∧ MD5Cache.GetMD5FromCache (md5Cache st'')
                (Join storagePath filename) modTime' (Z.of_nat (length data))
              = (md5_hex data, true)
            ∧ cached (md5Cache st'') (Join storagePath filename) modTime
                (Z.of_nat (length data)) = false.
Proof.
  intros Hd Hf st storagePath filename modTime data Hfile Hmiss Hidle Herr.
  eexists. split; [|split; [|split]].
  - apply GetFileMD5_computes; [done | by right |].
    unfold calculating in Hidle.
    destruct (MD5Cache.GetProgress _ _) as [[pr c] e]. cbn in *. congruence.
  - reflexivity.
  - unfold GetFileMD5, Stat. cbn [disk md5Cache]. rewrite Hfile.
    cbn [fi_ModTime fi_Size Entry_Size].
    by rewrite GetMD5FromCache_SetMD5ToCache.
  - intros modTime' Hne. eexists. split; [|split].
    + apply GetFileMD5_computes; cbn [disk md5Cache]; [done | left |].
      * apply GetMD5FromCache_SetMD5ToCache_stale. by left.
      * by rewrite GetProgress_SetMD5ToCache.
    + cbn [md5Cache]. apply GetMD5FromCache_SetMD5ToCache.
    + cbn [md5Cache]. unfold cached.
      rewrite GetMD5FromCache_SetMD5ToCache_stale; [done | left; congruence].
Qed.

Lemma checksum_is_computed_once_per_fingerprint_witness :
  ∃ st',
    GetFileMD5 (H := length_digest) (H0 := zero_format)
      {| disk := holding hello; md5Cache := ∅ |} "/srv" "data.bin"
      (mkTime 7 0 0)
    = Some (st', ("5", None))
    ∧ GetFileMD5 (H := length_digest) (H0 := zero_format) st' "/srv"
        "data.bin" (mkTime 7 0 0)
      = Some (st', ("5", None)).
Proof.
  destruct (checksum_is_computed_once_per_fingerprint (H := length_digest)
              (H0 := zero_format)
              {| disk := holding hello; md5Cache := ∅ |} "/srv" "data.bin"
              (mkTime 7 0 0) hello)
    as (st' & H1 & _ & H2 & _).
  - apply lookup_singleton_eq.
  - reflexivity.
  - reflexivity.
  - reflexivity.
  - exists st'. split; [exact H1 | exact H2].
Defined.

(** While a background job is in flight for a path, and after one has
    failed, [GetFileMD5] computes nothing for an existing entry: it
    returns the in-progress error, respectively the stored failure, and
    leaves the state as it is, whatever the fingerprint of the file now
    is. The failure is therefore returned by every later call until the
    entry is overwritten. *)
Theorem checksum_request_defers_to_background_job :
  ∀ `{Digest} `{FloatFormat} (fs : FS) (mc : MD5Cache.t)
    (storagePath filename : string) (entry : Entry)
    (modTime jobTime : Time) (jobSize : Z) (msg : string),
    root fs !! filename = Some entry →
    msg ≠ EmptyString →
    let inFlight :=
      {| disk := fs;
         md5Cache := MD5Cache.SetCalculating mc (Join storagePath filename)
                       jobTime jobSize |} in
    let failed :=
      {| disk := fs;
         md5Cache := MD5Cache.SetError (md5Cache inFlight)
                       (Join storagePath filename) msg |} in
    GetFileMD5 inFlight storagePath filename modTime
    = Some (inFlight,
            (EmptyString,
             Some (ErrorString
                     (ErrMD5InProgress +:+ ": progress "
                      +:+ format_1f (PrimFloat.mul 0%float 100%float)
                      +:+ "%"))))
    ∧ GetFileMD5 failed storagePath filename modTime
      = Some (failed,
              (EmptyString,
               Some (ErrorString ("MD5 calculation failed: " +:+ msg)))).
Proof.
  intros Hd Hf fs mc storagePath filename entry modTime jobTime jobSize msg
    Hentry Hmsg inFlight failed.
  split.
  - unfold GetFileMD5, Stat. subst inFlight. cbn [disk md5Cache].
    rewrite Hentry. cbn [fi_ModTime fi_Size].
    unfold MD5Cache.GetMD5FromCache, MD5Cache.GetProgress,
      MD5Cache.SetCalculating.
    rewrite lookup_insert_eq. cbn. by destruct (_ || _).
  - unfold GetFileMD5, Stat. subst failed inFlight. cbn [disk md5Cache].
    rewrite Hentry. cbn [fi_ModTime fi_Size].
    unfold MD5Cache.GetMD5FromCache, MD5Cache.GetProgress, MD5Cache.SetError,
      MD5Cache.SetCalculating.
    rewrite lookup_insert_eq. cbn. rewrite lookup_insert_eq. cbn.
    assert ((msg =? "")%string = false) as Hm by by apply String.eqb_neq.
    destruct (_ || _); cbn; by rewrite Hm.
Qed.

Lemma checksum_request_defers_to_background_job_witness :
  GetFileMD5 (H := length_digest) (H0 := zero_format)
    {| disk := holding hello;
       md5Cache := MD5Cache.SetError
                     (MD5Cache.SetCalculating ∅ "/srv/data.bin"
                        (mkTime 7 0 0) 5)
                     "/srv/data.bin" "read error" |}
    "/srv" "data.bin" (mkTime 9 0 0)
  = Some ({| disk := holding hello;
             md5Cache := MD5Cache.SetError
                           (MD5Cache.SetCalculating ∅ "/srv/data.bin"
                              (mkTime 7 0 0) 5)
                           "/srv/data.bin" "read error" |},
          (EmptyString,
           Some (ErrorString "MD5 calculation failed: read error"))).
Proof.
  refine (proj2 (checksum_request_defers_to_background_job
                   (H := length_digest) (H0 := zero_format) (holding hello) ∅
                   "/srv" "data.bin" (File hello) (mkTime 9 0 0)
                   (mkTime 7 0 0) 5 "read error" _ _)).
  - apply lookup_singleton_eq.
  - discriminate.
Defined.

(** For an entry that exists [GetFileMetadataWithMD5] never returns an
    error: it returns the name, size and modification time of the entry,
    and as checksum either one that the cache now holds as valid for that
    fingerprint, or the empty string when [GetFileMD5] failed (a
    directory, a job in flight, a stored failure). The disk is not
    touched. *)
Theorem metadata_request_hides_checksum_errors :
  ∀ `{Digest} `{FloatFormat} (st : State) (storagePath filename : string)
    (modTime : Time) (entry : Entry),
    root (disk st) !! filename = Some entry →
    ∃ st' md5sum,
      GetFileMetadataWithMD5 st storagePath filename modTime
      = Some (st', inl {| FileMetadata.Name := filename;
                          FileMetadata.Size := Entry_Size entry;
                          FileMetadata.ModTime := modTime;
                          FileMetadata.MD5 := md5sum |})
      ∧ disk st' = disk st
      ∧ (md5sum = EmptyString
         ∨ MD5Cache.GetMD5FromCache (md5Cache st') (Join storagePath filename)
             modTime (Entry_Size entry) = (md5sum, true)).
Proof.
  intros Hd Hf st storagePath filename modTime entry Hentry.
  unfold GetFileMetadataWithMD5, GetFileMD5, Stat. rewrite Hentry.
  cbn [fi_Name fi_ModTime fi_Size].
  destruct (MD5Cache.GetMD5FromCache (md5Cache st) _ _ _) as [sum hit] eqn:Hget.
  destruct hit.
  { exists st, sum. split; [done|]. split; [done|]. by right. }
  destruct (MD5Cache.GetProgress _ _) as [[pr c] e].
  destruct c; [by exists st, EmptyString; auto|].
  destruct (negb _); [by exists st, EmptyString; auto|].
  destruct (calculateFileMD5WithProgress_entry (disk st) filename entry Hentry)
    as (reports & ->).
  destruct (calculateFileMD5 (disk st) filename) as [sum'|err].
  - eexists _, sum'. split; [reflexivity|]. split; [done|]. right.
    cbn [md5Cache]. apply GetMD5FromCache_SetMD5ToCache.
  - by exists st, EmptyString; auto.
Qed.

Lemma metadata_request_hides_checksum_errors_witness :
  ∃ st' md5sum,
    GetFileMetadataWithMD5 (H := length_digest) (H0 := zero_format)
      {| disk := holding hello; md5Cache := ∅ |} "/srv" "data.bin"
      (mkTime 7 0 0)
    = Some (st', inl {| FileMetadata.Name := "data.bin";
                        FileMetadata.Size := 5;
                        FileMetadata.ModTime := mkTime 7 0 0;
                        FileMetadata.MD5 := md5sum |}).
Proof.
  destruct (metadata_request_hides_checksum_errors (H := length_digest)
              (H0 := zero_format) {| disk := holding hello; md5Cache := ∅ |}
              "/srv" "data.bin" (mkTime 7 0 0) (File hello))
    as (st' & md5sum & Hm & _).
  - apply lookup_singleton_eq.
  - exists st', md5sum. exact Hm.
Defined.

(** ** Listings and the life of a job *)

Lemma Join_inj storagePath a b : Join storagePath a = Join storagePath b → a = b.
Proof.
  unfold Join. intros Heq.
  induction storagePath as [|c s IH]; cbn in Heq.
  - by injection Heq.
  - injection Heq as Heq. by apply IH.
Qed.

(** [ListFiles] is its loop run on a prefix of the entries, then on the
    rest, unless the prefix fails. *)
Lemma ListFiles_loop_app storagePath pre post :
  ∀ mc files jobs,
    ListFiles_loop storagePath (pre ++ post) mc files jobs
    = match ListFiles_loop storagePath pre mc files jobs with
      | (inl files', mc', jobs') =>
          ListFiles_loop storagePath post mc' files' jobs'
      | failed => failed
      end.
Proof.
  induction pre as [|entry pre IH]; intros mc files jobs; [done|].
  cbn [app ListFiles_loop].
  destruct (IsDir entry); [apply IH|].
  destruct (Info entry) as [info|err]; [|done].
  destruct (MD5Cache.GetMD5FromCache _ _ _ _) as [sum hit].
  destruct (negb hit); [|apply IH].
  destruct (negb _); apply IH.
Qed.

Lemma listing_of_dir storagePath mc entry entries :
  IsDir entry = true →
  listing_of storagePath mc (entry :: entries) = listing_of storagePath mc entries
  ∧ jobs_of storagePath mc (entry :: entries) = jobs_of storagePath mc entries
  ∧ listed_names (entry :: entries) = listed_names entries.
Proof.
  intros Hdir. unfold listing_of, jobs_of, listed_names.
  cbn [omap list_omap]. by rewrite Hdir.
Qed.

Lemma listing_of_file storagePath mc entry entries info :
  IsDir entry = false → Info entry = inl info →
  listing_of storagePath mc (entry :: entries)
  = {| FileMetadata.Name := fi_Name info;
       FileMetadata.Size := fi_Size info;
       FileMetadata.ModTime := fi_ModTime info;
       FileMetadata.MD5 :=
         if cached mc (Join storagePath (fi_Name info)) (fi_ModTime info)
              (fi_Size info)
         then (MD5Cache.GetMD5FromCache mc (Join storagePath (fi_Name info))
                 (fi_ModTime info) (fi_Size info)).1
         else EmptyString |} :: listing_of storagePath mc entries
  ∧ jobs_of storagePath mc (entry :: entries)
    = (if negb (cached mc (Join storagePath (fi_Name info)) (fi_ModTime info)
                  (fi_Size info))
          && negb (calculating mc (Join storagePath (fi_Name info)))
       then [mkJob (Join storagePath (fi_Name info)) (fi_ModTime info)
               (fi_Size info)]
       else []) ++ jobs_of storagePath mc entries
  ∧ listed_names (entry :: entries) = fi_Name info :: listed_names entries.
Proof.
  intros Hdir Hinfo. unfold listing_of, jobs_of, listed_names.
  cbn [omap list_omap]. rewrite Hdir, Hinfo. cbn.
  split; [done|]. split; [|done]. by destruct (_ && _).
Qed.

Lemma listing_of_lookup storagePath mc mc' entries :
  Forall readable entries →
  (∀ name, name ∈ listed_names entries →
           mc' !! Join storagePath name = mc !! Join storagePath name) →
  listing_of storagePath mc' entries = listing_of storagePath mc entries
  ∧ jobs_of storagePath mc' entries = jobs_of storagePath mc entries.
Proof.
  induction entries as [|entry entries IH]; intros Hread Hsame; [done|].
  apply Forall_cons in Hread as [Hentry Hread].
  destruct (IsDir entry) eqn:Hdir.
  { destruct (listing_of_dir storagePath mc entry entries Hdir)
      as (-> & -> & _).
    destruct (listing_of_dir storagePath mc' entry entries Hdir)
      as (-> & -> & Hn).
    rewrite Hn in Hsame. by apply IH. }
  destruct Hentry as [?|[info Hinfo]]; [congruence|].
  destruct (listing_of_file storagePath mc entry entries info Hdir Hinfo)
    as (-> & -> & _).
  destruct (listing_of_file storagePath mc' entry entries info Hdir Hinfo)
    as (-> & -> & Hn).
  rewrite Hn in Hsame.
  assert (Hhead : mc' !! Join storagePath (fi_Name info)
                  = mc !! Join storagePath (fi_Name info)).
  { apply Hsame. left. }
  destruct IH as [-> ->]; [done| |].
  { intros name Hname. apply Hsame. by right. }
  rewrite (cached_lookup mc mc'), (calculating_lookup mc mc') by done.
  unfold MD5Cache.GetMD5FromCache. by rewrite Hhead.
Qed.

(** With distinct names, the decisions of the loop are those the cache
    at the beginning dictates. *)
Lemma ListFiles_loop_distinct storagePath entries :
  ∀ mc files jobs,
    Forall readable entries →
    NoDup (listed_names entries) →
    ListFiles_loop storagePath entries mc files jobs
    = (inl (files ++ listing_of storagePath mc entries),
       started mc (jobs_of storagePath mc entries),
       jobs ++ jobs_of storagePath mc entries).
Proof.
  induction entries as [|entry entries IH]; intros mc files jobs Hread Hnodup.
  { cbn. by rewrite !app_nil_r. }
  apply Forall_cons in Hread as [Hentry Hread].
  cbn [ListFiles_loop].
  destruct (IsDir entry) eqn:Hdir.
  { destruct (listing_of_dir storagePath mc entry entries Hdir)
      as (-> & -> & Hn).
    rewrite Hn in Hnodup. by apply IH. }
  destruct Hentry as [?|[info Hinfo]]; [congruence|]. rewrite Hinfo.
  destruct (listing_of_file storagePath mc entry entries info Hdir Hinfo)
    as (-> & -> & Hn).
  rewrite Hn in Hnodup. apply NoDup_cons in Hnodup as [Hfresh Hnodup].
  set (filePath := Join storagePath (fi_Name info)).
  unfold cached, calculating.
  destruct (MD5Cache.GetMD5FromCache mc filePath _ _) as [sum hit] eqn:Hget.
  cbn [negb fst snd].
  destruct hit; cbn [negb andb].
  { rewrite IH by done. cbn [app]. by rewrite <- !app_assoc. }
  destruct ((MD5Cache.GetProgress mc filePath).1.2) eqn:Hcalc; cbn [negb].
  { rewrite IH by done. cbn [app]. by rewrite <- !app_assoc. }
  rewrite IH by done.
  destruct (listing_of_lookup storagePath mc
              (MD5Cache.SetCalculating mc filePath (fi_ModTime info)
                 (fi_Size info)) entries) as [-> ->]; [done| |].
  { intros name Hname. unfold MD5Cache.SetCalculating.
    apply lookup_insert_ne. intros Heq. apply Join_inj in Heq.
    by subst name. }
  cbn [app]. by rewrite <- !app_assoc.
Qed.

Lemma listing_of_elem storagePath mc entries entry info :
  entry ∈ entries → IsDir entry = false → Info entry = inl info →
  {| FileMetadata.Name := fi_Name info;
     FileMetadata.Size := fi_Size info;
     FileMetadata.ModTime := fi_ModTime info;
     FileMetadata.MD5 :=
       if cached mc (Join storagePath (fi_Name info)) (fi_ModTime info)
            (fi_Size info)
       then (MD5Cache.GetMD5FromCache mc (Join storagePath (fi_Name info))
               (fi_ModTime info) (fi_Size info)).1
       else EmptyString |} ∈ listing_of storagePath mc entries.
Proof.
  intros Hin Hdir Hinfo. unfold listing_of. apply list_elem_of_omap.
  exists entry. split; [done|]. by rewrite Hdir, Hinfo.
Qed.

Lemma jobs_of_elem storagePath mc entries j :
  j ∈ jobs_of storagePath mc entries ↔
  ∃ entry info,
    entry ∈ entries ∧ IsDir entry = false ∧ Info entry = inl info
    ∧ cached mc (Join storagePath (fi_Name info)) (fi_ModTime info)
        (fi_Size info) = false
    ∧ calculating mc (Join storagePath (fi_Name info)) = false
    ∧ j = mkJob (Join storagePath (fi_Name info)) (fi_ModTime info)
            (fi_Size info).
Proof.
  unfold jobs_of. rewrite list_elem_of_omap. split.
  - intros (entry & Hin & Hsome). destruct (IsDir entry) eqn:Hdir; [done|].
    destruct (Info entry) as [info|err] eqn:Hinfo; [|done].
    cbn zeta in Hsome.
    destruct (cached mc _ _ _) eqn:Hc; [done|].
    destruct (calculating mc _) eqn:Hg; [done|].
    cbn in Hsome. exists entry, info. repeat split; congruence.
  - intros (entry & info & Hin & Hdir & Hinfo & Hc & Hg & ->).
    exists entry. split; [done|]. rewrite Hdir, Hinfo. cbn zeta.
    by rewrite Hc, Hg.
Qed.

(** Distinct names: a name stands for one entry. *)
Lemma listed_names_unique entries entry entry' info info' :
  NoDup (listed_names entries) →
  entry ∈ entries → IsDir entry = false → Info entry = inl info →
  entry' ∈ entries → IsDir entry' = false → Info entry' = inl info' →
  fi_Name info = fi_Name info' → info = info'.
Proof.
  induction entries as [|e entries IH]; intros Hnodup Hin Hdir Hinfo
    Hin' Hdir' Hinfo' Hname.
  { by apply elem_of_nil in Hin. }
  assert (Hnamed : ∀ x i, x ∈ entries → IsDir x = false → Info x = inl i →
                          fi_Name i ∈ listed_names entries).
  { intros x i Hx Hd Hi. unfold listed_names. apply list_elem_of_omap.
    exists x. split; [done|]. by rewrite Hd, Hi. }
  apply elem_of_cons in Hin as [->|Hin]; apply elem_of_cons in Hin' as [->|Hin'].
  - congruence.
  - destruct (listing_of_file "" ∅ e entries info Hdir Hinfo) as (_ & _ & Hn).
    rewrite Hn in Hnodup. apply NoDup_cons in Hnodup as [Hfresh _].
    destruct Hfresh. rewrite Hname. by apply Hnamed with entry'.
  - destruct (listing_of_file "" ∅ e entries info' Hdir' Hinfo') as (_ & _ & Hn).
    rewrite Hn in Hnodup. apply NoDup_cons in Hnodup as [Hfresh _].
    destruct Hfresh. rewrite <- Hname. by apply Hnamed with entry.
  - apply IH; try done.
    destruct (IsDir e) eqn:He.
    + destruct (listing_of_dir "" ∅ e entries He) as (_ & _ & Hn).
      by rewrite Hn in Hnodup.
    + unfold listed_names in *. cbn [omap list_omap] in Hnodup.
      rewrite He in Hnodup. destruct (Info e); [|done].
      by apply NoDup_cons in Hnodup as [_ ?].
Qed.

Lemma started_snoc mc jobs j :
  started mc (jobs ++ [j])
  = MD5Cache.SetCalculating (started mc jobs) (job_filePath j) (job_modTime j)
      (job_size j).
Proof. unfold started. by rewrite foldl_app. Qed.

(** The cache entry of a path whose jobs all carry one fingerprint. *)
Lemma started_lookup mc jobs j :
  j ∈ jobs →
  (∀ j', j' ∈ jobs → job_filePath j' = job_filePath j → j' = j) →
  started mc jobs !! job_filePath j
  = Some {| MD5CacheEntry.MD5 := EmptyString;
            MD5CacheEntry.ModTime := job_modTime j;
            MD5CacheEntry.Size := job_size j;
            MD5CacheEntry.Calculated := false;
            MD5CacheEntry.Calculating := true;
            MD5CacheEntry.Progress := 0%float;
            MD5CacheEntry.Error := EmptyString |}.
Proof.
  induction jobs as [|j' jobs IH] using rev_ind; intros Hin Hsame.
  { by apply elem_of_nil in Hin. }
  rewrite started_snoc. unfold MD5Cache.SetCalculating.
  destruct (decide (job_filePath j' = job_filePath j)) as [Heq|Hne].
  - rewrite (Hsame j') by (done || apply elem_of_app; right; left).
    by rewrite lookup_insert_eq.
  - rewrite lookup_insert_ne by done.
    apply elem_of_app in Hin as [Hin|Hin].
    + apply IH; [done|]. intros j'' Hj''. apply Hsame.
      apply elem_of_app. by left.
    + apply list_elem_of_singleton in Hin. by subst j'.
Qed.

(** Over entries with distinct names, as a directory has them,
    [ListFiles] decides every entry by the cache as it was at the call:
    it lists each file with the checksum the cache held as valid for the
    file's fingerprint, or none, starts one job for each file with no
    valid checksum and no computation in flight, in listing order, and
    marks exactly those paths as in flight. *)
Theorem listing_follows_cache_at_call_time :
  ∀ (storagePath : string) (entries : list DirEntry) (mc : MD5Cache.t),
    Forall readable entries →
    NoDup (listed_names entries) →
    ListFiles storagePath entries mc
    = (inl (listing_of storagePath mc entries),
       started mc (jobs_of storagePath mc entries),
       jobs_of storagePath mc entries).
Proof.
  intros storagePath entries mc Hread Hnodup. unfold ListFiles.
  by rewrite ListFiles_loop_distinct.
Qed.

Lemma listing_follows_cache_at_call_time_witness :
  ListFiles "/srv" listing_entries listing_cache
  = (inl [ {| FileMetadata.Name := "small.txt"; FileMetadata.Size := 10240;
              FileMetadata.ModTime := mkTime 2 0 0;
              FileMetadata.MD5 := "9e107d9d372bb6826bd81d3542a419d6" |};
           {| FileMetadata.Name := "huge.iso";
              FileMetadata.Size := 10737418240;
              FileMetadata.ModTime := mkTime 3 0 0;
              FileMetadata.MD5 := EmptyString |} ],
     MD5Cache.SetCalculating listing_cache "/srv/huge.iso" (mkTime 3 0 0)
       10737418240,
     [ mkJob "/srv/huge.iso" (mkTime 3 0 0) 10737418240 ]).
Proof.
  refine (listing_follows_cache_at_call_time "/srv" listing_entries
            listing_cache _ _).
  - unfold listing_entries.
    repeat apply Forall_cons_2; try apply Forall_nil_2;
      first [by left | right; by eexists].
  - unfold listing_entries, listed_names. cbn.
    apply NoDup_cons. split.
    + intros Hin. apply list_elem_of_singleton in Hin. discriminate.
    + apply NoDup_singleton.
Defined.

(** The life of a background job, seen through two listings of a
    directory. A file with no valid checksum and no computation in
    flight is listed without checksum and gets a job. If the job ends
    with a checksum, the next listing shows it and starts no job for the
    path; if the job ends with an error, the next listing shows no
    checksum and starts the job again. *)
Theorem finished_job_shows_in_next_listing :
  ∀ (storagePath : string) (entries : list DirEntry) (mc : MD5Cache.t)
    (entry : DirEntry) (info : FileInfo),
    Forall readable entries →
    NoDup (listed_names entries) →
    entry ∈ entries → IsDir entry = false → Info entry = inl info →
    cached mc (Join storagePath (fi_Name info)) (fi_ModTime info)
      (fi_Size info) = false →
    calculating mc (Join storagePath (fi_Name info)) = false →
    ∃ files mc' jobs,
      ListFiles storagePath entries mc = (inl files, mc', jobs)
      ∧ mkJob (Join storagePath (fi_Name info)) (fi_ModTime info)
          (fi_Size info) ∈ jobs
      ∧ {| FileMetadata.Name := fi_Name info;
           FileMetadata.Size := fi_Size info;
           FileMetadata.ModTime := fi_ModTime info;
           FileMetadata.MD5 := EmptyString |} ∈ files
      ∧ (∀ sum, ∃ files2 mc2 jobs2,
           ListFiles storagePath entries
             (finishJob mc'
                (mkJob (Join storagePath (fi_Name info)) (fi_ModTime info)
                   (fi_Size info)) (inl sum))
           = (inl files2, mc2, jobs2)
           ∧ {| FileMetadata.Name := fi_Name info;
                FileMetadata.Size := fi_Size info;
                FileMetadata.ModTime := fi_ModTime info;
                FileMetadata.MD5 := sum |} ∈ files2
           ∧ Join storagePath (fi_Name info) ∉ job_paths jobs2)
      ∧ (∀ msg, ∃ files2 mc2 jobs2,
           ListFiles storagePath entries
             (finishJob mc'
                (mkJob (Join storagePath (fi_Name info)) (fi_ModTime info)
                   (fi_Size info)) (inr msg))
           = (inl files2, mc2, jobs2)
           ∧ {| FileMetadata.Name := fi_Name info;
                FileMetadata.Size := fi_Size info;
                FileMetadata.ModTime := fi_ModTime info;
                FileMetadata.MD5 := EmptyString |} ∈ files2
           ∧ mkJob (Join storagePath (fi_Name info)) (fi_ModTime info)
               (fi_Size info) ∈ jobs2).
Proof.
  intros storagePath entries mc entry info Hread Hnodup Hin Hdir Hinfo
    Hmiss Hidle.
  set (p := Join storagePath (fi_Name info)) in *.
  set (j := mkJob p (fi_ModTime info) (fi_Size info)).
  assert (Hj : j ∈ jobs_of storagePath mc entries).
  { apply jobs_of_elem. by exists entry, info. }
  eexists _, _, _. split.
  { unfold ListFiles. by apply ListFiles_loop_distinct. }
  split; [by rewrite app_nil_l|]. split.
  { rewrite app_nil_l.
    pose proof (listing_of_elem storagePath mc entries entry info Hin Hdir
                  Hinfo) as Hf.
    fold p in Hf. by rewrite Hmiss in Hf. }
  split.
  - intros sum. eexists _, _, _. split.
    { unfold ListFiles. by apply ListFiles_loop_distinct. }
    rewrite !app_nil_l. cbn [finishJob job_filePath job_modTime job_size].
    split.
    + pose proof (listing_of_elem storagePath
                    (MD5Cache.SetMD5ToCache
                       (started mc (jobs_of storagePath mc entries)) p sum
                       (fi_ModTime info) (fi_Size info))
                    entries entry info Hin Hdir Hinfo) as Hf.
      fold p in Hf. unfold cached in Hf.
      by rewrite GetMD5FromCache_SetMD5ToCache in Hf.
    + unfold job_paths. intros Hp. apply list_elem_of_fmap in Hp
        as (j' & Hpath & Hj').
      apply jobs_of_elem in Hj'
        as (entry' & info' & Hin' & Hdir' & Hinfo' & Hc' & _ & ->).
      cbn in Hpath. apply Join_inj in Hpath.
      assert (info = info') as <-
        by by apply (listed_names_unique entries entry entry').
      fold p in Hc'. unfold cached in Hc'.
      by rewrite GetMD5FromCache_SetMD5ToCache in Hc'.
  - intros msg. eexists _, _, _. split.
    { unfold ListFiles. by apply ListFiles_loop_distinct. }
    rewrite !app_nil_l. cbn [finishJob job_filePath].
    assert (Hlook : started mc (jobs_of storagePath mc entries) !! p
                    = Some {| MD5CacheEntry.MD5 := EmptyString;
                              MD5CacheEntry.ModTime := fi_ModTime info;
                              MD5CacheEntry.Size := fi_Size info;
                              MD5CacheEntry.Calculated := false;
                              MD5CacheEntry.Calculating := true;
                              MD5CacheEntry.Progress := 0%float;
                              MD5CacheEntry.Error := EmptyString |}).
    { apply (started_lookup mc _ j Hj). intros j' Hj' Hpath.
      apply jobs_of_elem in Hj'
        as (entry' & info' & Hin' & Hdir' & Hinfo' & _ & _ & ->).
      cbn in Hpath. apply Join_inj in Hpath.
      assert (info = info') as <-
        by by apply (listed_names_unique entries entry entry').
      done. }
    assert (Hc : cached (MD5Cache.SetError
                           (started mc (jobs_of storagePath mc entries)) p msg)
                   p (fi_ModTime info) (fi_Size info) = false).
    { unfold cached. apply GetMD5FromCache_miss_pending with
        {| MD5CacheEntry.MD5 := EmptyString;
           MD5CacheEntry.ModTime := fi_ModTime info;
           MD5CacheEntry.Size := fi_Size info;
           MD5CacheEntry.Calculated := false;
           MD5CacheEntry.Calculating := false;
           MD5CacheEntry.Progress := 0%float;
           MD5CacheEntry.Error := msg |}; [|done].
      unfold MD5Cache.SetError. rewrite Hlook. by rewrite lookup_insert_eq. }
    assert (Hg : calculating (MD5Cache.SetError
                                (started mc (jobs_of storagePath mc entries))
                                p msg) p = false).
    { unfold calculating, MD5Cache.GetProgress, MD5Cache.SetError.
      rewrite Hlook. by rewrite lookup_insert_eq. }
    split.
    + pose proof (listing_of_elem storagePath
                    (MD5Cache.SetError
                       (started mc (jobs_of storagePath mc entries)) p msg)
                    entries entry info Hin Hdir Hinfo) as Hf.
      fold p in Hf. by rewrite Hc in Hf.
    + apply jobs_of_elem. by exists entry, info.
Qed.

Lemma finished_job_shows_in_next_listing_witness :
  ∃ files mc' jobs,
    ListFiles "/srv" listing_entries listing_cache = (inl files, mc', jobs)
    ∧ ∃ files2 mc2 jobs2,
        ListFiles "/srv" listing_entries
          (finishJob mc' (mkJob "/srv/huge.iso" (mkTime 3 0 0) 10737418240)
             (inl "0cc175b9c0f1b6a831c399e269772661"))
        = (inl files2, mc2, jobs2)
        ∧ {| FileMetadata.Name := "huge.iso";
             FileMetadata.Size := 10737418240;
             FileMetadata.ModTime := mkTime 3 0 0;
             FileMetadata.MD5 := "0cc175b9c0f1b6a831c399e269772661" |}
          ∈ files2.
Proof.
  destruct (finished_job_shows_in_next_listing "/srv" listing_entries
              listing_cache
              (mkDirEntry false
                 (inl (mkFileInfo "huge.iso" 10737418240 (mkTime 3 0 0))))
              (mkFileInfo "huge.iso" 10737418240 (mkTime 3 0 0)))
    as (files & mc' & jobs & Hl & _ & _ & Hok & _).
  - unfold listing_entries.
    repeat apply Forall_cons_2; try apply Forall_nil_2;
      first [by left | right; by eexists].
  - unfold listing_entries, listed_names. cbn.
    apply NoDup_cons. split.
    + intros Hin. apply list_elem_of_singleton in Hin. discriminate.
    + apply NoDup_singleton.
  - unfold listing_entries. do 2 apply list_elem_of_further.
    apply list_elem_of_here.
  - reflexivity.
  - reflexivity.
  - reflexivity.
  - reflexivity.
  - exists files, mc', jobs. split; [exact Hl|].
    destruct (Hok "0cc175b9c0f1b6a831c399e269772661")
      as (files2 & mc2 & jobs2 & Hl2 & Hf2 & _).
    exists files2, mc2, jobs2. split; [exact Hl2 | exact Hf2].
Defined.

Lemma ListFiles_loop_readable storagePath entries :
  ∀ mc files jobs,
    Forall readable entries →
    ∃ files' mc' jobs',
      ListFiles_loop storagePath entries mc files jobs
      = (inl files', mc', jobs').
Proof.
  induction entries as [|entry entries IH]; intros mc files jobs Hread.
  { by eexists _, _, _. }
  apply Forall_cons in Hread as [Hentry Hread]. cbn [ListFiles_loop].
  destruct (IsDir entry) eqn:Hdir; [by apply IH|].
  destruct Hentry as [?|[info Hinfo]]; [congruence|]. rewrite Hinfo.
  destruct (MD5Cache.GetMD5FromCache _ _ _ _) as [sum hit].
  destruct (negb hit); [|by apply IH].
  destruct (negb _); by apply IH.
Qed.

(** A listing fails as a whole at the first file whose [Info] fails: the
    caller gets that error and no file, but the jobs of the entries
    before it have been started and their paths stay marked as in
    flight, exactly as a listing of those entries alone would have left
    them; nothing after the failing entry is looked at. *)
Theorem failed_listing_keeps_started_jobs :
  ∀ (storagePath : string) (pre post : list DirEntry) (bad : DirEntry)
    (err : error) (mc : MD5Cache.t),
    Forall readable pre →
    IsDir bad = false → Info bad = inr err →
    ∃ files mc' jobs,
      ListFiles storagePath pre mc = (inl files, mc', jobs)
      ∧ ListFiles storagePath (pre ++ bad :: post) mc = (inr err, mc', jobs).
Proof.
  intros storagePath pre post bad err mc Hread Hdir Hinfo.
  destruct (ListFiles_loop_readable storagePath pre mc [] [] Hread)
    as (files & mc' & jobs & Hpre).
  exists files, mc', jobs. split; [exact Hpre|].
  unfold ListFiles. rewrite ListFiles_loop_app, Hpre.
  cbn [ListFiles_loop]. by rewrite Hdir, Hinfo.
Qed.

Lemma failed_listing_keeps_started_jobs_witness :
  ∃ files mc' jobs,
    ListFiles "/srv" listing_entries listing_cache = (inl files, mc', jobs)
    ∧ ListFiles "/srv"
        (listing_entries
         ++ mkDirEntry false (inr (PathError "lstat" ["/srv/gone.tmp"] ENOENT))
            :: listing_entries)
        listing_cache
      = (inr (PathError "lstat" ["/srv/gone.tmp"] ENOENT), mc', jobs).
Proof.
  refine (failed_listing_keeps_started_jobs "/srv" listing_entries
            listing_entries
            (mkDirEntry false
               (inr (PathError "lstat" ["/srv/gone.tmp"] ENOENT)))
            (PathError "lstat" ["/srv/gone.tmp"] ENOENT) listing_cache _ _ _).
  - unfold listing_entries.
    repeat apply Forall_cons_2; try apply Forall_nil_2;
      first [by left | right; by eexists].
  - reflexivity.
  - reflexivity.
Defined.

(** ** The pooled copy *)

Lemma BufferSize_pos : 0 < BufferSize.
Proof. done. Qed.

Lemma pooled_window_small size :
  size ≤ BufferSize → pooled_window size = BufferSize.
Proof.
  intros Hs. unfold pooled_window. pose proof BufferSize_pos as HB.
  assert ((size + BufferSize - 1) / BufferSize < 2)
    by (apply Z.div_lt_upper_bound; lia).
  rewrite Z.max_l by lia. lia.
Qed.

Lemma pooled_window_step size :
  BufferSize < size →
  pooled_window size = BufferSize + pooled_window (size - BufferSize).
Proof.
  intros Hs. unfold pooled_window. pose proof BufferSize_pos as HB.
  replace (size + BufferSize - 1)
    with (size - BufferSize + BufferSize - 1 + 1 * BufferSize) by lia.
  rewrite Z.div_add by lia.
  assert (1 ≤ (size - BufferSize + BufferSize - 1) / BufferSize)
    by (apply Z.div_le_lower_bound; lia).
  rewrite !Z.max_r by lia. lia.
Qed.

Lemma pooled_window_ge size : BufferSize ≤ pooled_window size.
Proof.
  unfold pooled_window. pose proof BufferSize_pos as HB.
  assert (1 ≤ Z.max 1 ((size + BufferSize - 1) / BufferSize)) by lia. nia.
Qed.

(** With a writer that accepts everything, the loop of [OptimizedCopy]
    copies whole buffers until [size] is covered or the source ends. *)
Lemma optimized_loop_Recorder fuel :
  ∀ (dst : Recorder) data offset written size,
    0 ≤ offset →
    (length (remaining (FileReader data offset)) < fuel)%nat →
    optimized_loop fuel false dst (FileReader data offset) written size
    = Some ({| rec_header := rec_header dst; rec_code := rec_code dst;
               rec_body := rec_body dst
                           ++ takeZ (pooled_window (size - written))
                                (remaining (FileReader data offset)) |},
            None).
Proof.
  induction fuel as [|fuel IH]; intros dst data offset written size Hoff Hfuel;
    [lia|].
  pose proof (Read_file data offset BufferSize Hoff BufferSize_pos) as Hread.
  pose proof BufferSize_pos as HB.
  pose proof (pooled_window_ge (size - written)) as Hge.
  cbn [optimized_loop].
  destruct (remaining (FileReader data offset)) as [|b rest] eqn:Hrem.
  - rewrite Hread. cbn [length Nat2Z.inj Z.of_nat Z.ltb Z.compare].
    rewrite takeZ_take, take_nil, app_nil_r. by destruct dst.
  - destruct Hread as (src' & p & Hr & Hp & Hsplit & offset' & -> & Hoff').
    rewrite Hr.
    assert (Hnr : (0 <? Z.of_nat (length p)) = true).
    { apply Z.ltb_lt. destruct p; [done|simpl; lia]. }
    rewrite Hnr. cbn [Write Recorder_writer].
    assert (Hp_eq : p = take (Z.to_nat BufferSize) (b :: rest)).
    { by rewrite (Read_block _ _ _ _ _ Hr), Hrem, takeZ_take. }
    assert (Hlen : (length p + length (remaining (FileReader data offset'))
                    = length (b :: rest))%nat).
    { by rewrite <- Hsplit, length_app. }
    assert (Hp_len : Z.of_nat (length p)
                     = Z.min BufferSize (Z.of_nat (length (b :: rest)))).
    { rewrite Hp_eq, length_take. lia. }
    rewrite takeZ_take.
    destruct (Z.leb_spec size (written + Z.of_nat (length p))) as [Hdone|Hmore].
    + f_equal. f_equal. f_equal. f_equal.
      rewrite pooled_window_small by lia. done.
    + rewrite IH; [|done|destruct p; [done|cbn [length] in *; lia]].
      cbn [rec_header rec_code rec_body]. f_equal. f_equal. f_equal.
      rewrite <- app_assoc. f_equal. rewrite takeZ_take, <- Hsplit.
      destruct (Z.le_gt_cases BufferSize (Z.of_nat (length (b :: rest))))
        as [Hfull|Hlast].
      * rewrite (pooled_window_step (size - written)) by lia.
        replace (size - (written + Z.of_nat (length p)))
          with (size - written - BufferSize) by lia.
        pose proof (pooled_window_ge (size - written - BufferSize)).
        rewrite Z2Nat.inj_add by lia.
        rewrite (take_app_add' p); [done|]. lia.
      * assert (remaining (FileReader data offset') = []) as ->.
        { apply length_zero_iff_nil. lia. }
        rewrite take_nil, !app_nil_r. rewrite take_ge; [done|]. lia.
Qed.

(** [OptimizedCopy] stops at the end of the first buffer that reaches
    the declared [size], not at [size]: with a writer that accepts
    everything it copies the first [pooled_window size] remaining bytes,
    that is whole buffers of 4 MB (the last one cut by the end of the
    source), at least one even when [size] is zero or negative. It
    copies the whole source exactly when that window covers it, in
    particular whenever [size] is not less than what remains. *)
Theorem pooled_copy_stops_at_buffer_boundary :
  ∀ (dst : Recorder) (data : bytes) (offset size : Z),
    0 ≤ offset →
    OptimizedCopy false dst (FileReader data offset) size
    = Some ({| rec_header := rec_header dst; rec_code := rec_code dst;
               rec_body := rec_body dst
                           ++ takeZ (pooled_window size)
                                (remaining (FileReader data offset)) |},
            None)
    ∧ (Z.of_nat (length (remaining (FileReader data offset))) ≤ size →
       takeZ (pooled_window size) (remaining (FileReader data offset))
       = remaining (FileReader data offset))
    ∧ Z.min BufferSize (Z.of_nat (length (remaining (FileReader data offset))))
      ≤ Z.of_nat (length (takeZ (pooled_window size)
                            (remaining (FileReader data offset)))).
Proof.
  intros dst data offset size Hoff.
  pose proof (pooled_window_ge size) as Hge. pose proof BufferSize_pos as HB.
  split; [|split].
  - unfold OptimizedCopy. rewrite optimized_loop_Recorder by (done || lia).
    by rewrite Z.sub_0_r.
  - intros Hall. rewrite takeZ_take. apply take_ge.
    unfold pooled_window in *.
    assert (size ≤ BufferSize * ((size + BufferSize - 1) / BufferSize)).
    { pose proof (Z.mul_succ_div_gt (size + BufferSize - 1) BufferSize HB).
      lia. }
    nia.
  - rewrite takeZ_take, length_take. lia.
Qed.

Lemma pooled_copy_stops_at_buffer_boundary_witness :
  OptimizedCopy false newRecorder (FileReader (counting 10) 2) 3
  = Some ({| rec_header := ∅; rec_code := StatusOK;
             rec_body := drop 2 (counting 10) |}, None).
Proof.
  refine (proj1 (pooled_copy_stops_at_buffer_boundary newRecorder
                   (counting 10) 2 3 _)).
  lia.
Defined.

(** ** Degenerate chunk descriptors *)




(** ** Progress and errors in the cache *)

(** Progress updates and stored errors never touch a checksum: after
    [UpdateProgress] or [SetError] on any path, [GetMD5FromCache] answers
    every query as before, and the cache has the entries it had; on a
    path without an entry both do nothing at all. A checksum the cache
    holds can therefore only be replaced by [SetMD5ToCache] or
    [SetCalculating]. *)
Theorem progress_and_errors_leave_checksums_alone :
  ∀ (mc : MD5Cache.t) (filePath : string) (progress : float) (msg : string),
    (∀ q modTime size,
       MD5Cache.GetMD5FromCache (MD5Cache.UpdateProgress mc filePath progress)
         q modTime size
       = MD5Cache.GetMD5FromCache mc q modTime size
       ∧ MD5Cache.GetMD5FromCache (MD5Cache.SetError mc filePath msg)
           q modTime size
         = MD5Cache.GetMD5FromCache mc q modTime size)
    ∧ dom (MD5Cache.UpdateProgress mc filePath progress) = dom mc
    ∧ dom (MD5Cache.SetError mc filePath msg) = dom mc
    ∧ (mc !! filePath = None →
       MD5Cache.UpdateProgress mc filePath progress = mc
       ∧ MD5Cache.SetError mc filePath msg = mc).
Proof.
  intros mc filePath progress msg.
  unfold MD5Cache.UpdateProgress, MD5Cache.SetError, MD5Cache.GetMD5FromCache.
  destruct (mc !! filePath) as [entry|] eqn:Hentry; [|done].
  split; [|split; [|split; [|done]]].
  - intros q modTime size.
    destruct (decide (filePath = q)) as [<-|Hne].
    + by rewrite !lookup_insert_eq, Hentry.
    + by rewrite !lookup_insert_ne.
  - apply dom_insert_lookup_L. by rewrite Hentry.
  - apply dom_insert_lookup_L. by rewrite Hentry.
Qed.

Lemma progress_and_errors_leave_checksums_alone_witness :
  MD5Cache.GetMD5FromCache
    (MD5Cache.SetError listing_cache "/srv/small.txt" "read error")
    "/srv/small.txt" (mkTime 2 0 0) 10240
  = ("9e107d9d372bb6826bd81d3542a419d6", true)
  ∧ MD5Cache.UpdateProgress listing_cache "/srv/huge.iso" 0.5%float
    = listing_cache.
Proof.
  destruct (progress_and_errors_leave_checksums_alone listing_cache
              "/srv/small.txt" 0.5%float "read error") as (Hget & _).
  destruct (progress_and_errors_leave_checksums_alone listing_cache
              "/srv/huge.iso" 0.5%float "read error") as (_ & _ & _ & Hnone).
  split.
  - rewrite (proj2 (Hget "/srv/small.txt" (mkTime 2 0 0) 10240)).
    reflexivity.
  - apply Hnone. reflexivity.
Defined.

(** ** Listings that overlap *)

Lemma ListFiles_run_Returned storagePath fuel mc result jobs :
  ListFiles_run storagePath fuel mc (Returned result jobs)
  = (Returned result jobs, mc).
Proof. induction fuel as [|fuel IH]; [done|]. cbn. apply IH. Qed.

(** The steps are those of [ListFiles]: a listing that runs alone, three
    steps an entry at most, returns what [ListFiles] returns and leaves
    the cache [ListFiles] leaves. *)
Lemma ListFiles_run_alone storagePath entries :
  ∀ fuel mc files jobs,
    (3 * length entries < fuel)%nat →
    ListFiles_run storagePath fuel mc (Running entries AtEntry files jobs)
    = let '(result, mc', jobs') :=
        ListFiles_loop storagePath entries mc files jobs in
      (Returned result jobs', mc').
Proof.
  induction entries as [|entry entries IH]; intros fuel mc files jobs Hfuel.
  { destruct fuel as [|fuel]; [cbn in Hfuel; lia|].
    cbn. apply ListFiles_run_Returned. }
  cbn [length] in Hfuel.
  destruct fuel as [|fuel]; [lia|].
  cbn [ListFiles_run ListFiles_step ListFiles_loop].
  destruct (IsDir entry); [apply IH; lia|].
  destruct (Info entry) as [info|err]; [|apply ListFiles_run_Returned].
  destruct (MD5Cache.GetMD5FromCache _ _ _ _) as [sum hit].
  destruct hit; cbn [negb]; [apply IH; lia|].
  destruct fuel as [|fuel]; [lia|].
  cbn [ListFiles_run ListFiles_step].
  destruct ((MD5Cache.GetProgress mc _).1.2); cbn [negb]; [apply IH; lia|].
  destruct fuel as [|fuel]; [lia|].
  cbn [ListFiles_run ListFiles_step]. apply IH. lia.
Qed.

(** Claim C6, as the code has it. The check that no computation is in
    flight ([GetProgress]) and the mark that one is ([SetCalculating])
    are two separate atomic steps, so the check does not hold between
    calls that overlap: when two listings of a directory with one file,
    which has no valid checksum and no computation in flight, take their
    steps in lockstep, both find no computation in flight, both mark the
    path and both start a job for it, with the same fingerprint. Each
    returns the file with an empty MD5 field. When the second listing
    starts after the first has returned, it starts no job. *)
Theorem overlapping_listings_start_duplicate_jobs :
  ∀ (storagePath : string) (entry : DirEntry) (info : FileInfo)
    (mc : MD5Cache.t),
    IsDir entry = false →
    Info entry = inl info →
    cached mc (Join storagePath (fi_Name info)) (fi_ModTime info)
      (fi_Size info) = false →
    calculating mc (Join storagePath (fi_Name info)) = false →
    let filePath := Join storagePath (fi_Name info) in
    let job := mkJob filePath (fi_ModTime info) (fi_Size info) in
    let marked :=
      MD5Cache.SetCalculating mc filePath (fi_ModTime info) (fi_Size info) in
    let start := Running [entry] AtEntry [] [] in
    interleave storagePath in_lockstep mc start start
    = (Returned (inl [listed info EmptyString]) [job],
       Returned (inl [listed info EmptyString]) [job],
       MD5Cache.SetCalculating marked filePath (fi_ModTime info) (fi_Size info))
    ∧ interleave storagePath in_turn mc start start
      = (Returned (inl [listed info EmptyString]) [job],
         Returned (inl [listed info EmptyString]) [],
         marked)
    ∧ ListFiles storagePath [entry] mc
      = (inl [listed info EmptyString], marked, [job]).
Proof.
  intros storagePath entry info mc Hdir Hinfo Hmiss Hidle filePath job marked
    start.
  unfold cached in Hmiss. unfold calculating in Hidle. fold filePath in Hmiss, Hidle.
  assert (Hmarked : MD5Cache.GetMD5FromCache marked filePath (fi_ModTime info)
                      (fi_Size info) = (EmptyString, false)
                    ∧ (MD5Cache.GetProgress marked filePath).1.2 = true).
  { subst marked. unfold MD5Cache.GetMD5FromCache, MD5Cache.GetProgress,
      MD5Cache.SetCalculating.
    rewrite lookup_insert_eq. cbn. split; [|done]. by destruct (_ || _). }
  destruct Hmarked as [Hmiss' Hbusy].
  destruct (MD5Cache.GetMD5FromCache mc filePath (fi_ModTime info)
              (fi_Size info)) as [sum hit] eqn:Hget.
  cbn in Hmiss. subst hit.
  split; [|split].
  - unfold in_lockstep, start.
    repeat first [ rewrite Hdir | rewrite Hinfo | rewrite Hget | rewrite Hidle
                 | progress fold filePath
                 | progress cbn [negb interleave ListFiles_step app] ].
    reflexivity.
  - unfold in_turn, start.
    repeat first [ rewrite Hdir | rewrite Hinfo | rewrite Hget | rewrite Hidle
                 | rewrite Hmiss' | rewrite Hbusy
                 | progress fold filePath | progress fold marked
                 | progress cbn [negb interleave ListFiles_step app] ].
    reflexivity.
  - unfold ListFiles. cbn [ListFiles_loop]. rewrite Hdir, Hinfo.
    fold filePath. rewrite Hget. cbn [negb]. rewrite Hidle. cbn [negb app].
    reflexivity.
Qed.

Lemma overlapping_listings_start_duplicate_jobs_witness :
  interleave "/srv" in_lockstep ∅
    (Running [mkDirEntry false
                (inl (mkFileInfo "huge.iso" 10737418240 (mkTime 3 0 0)))]
       AtEntry [] [])
    (Running [mkDirEntry false
                (inl (mkFileInfo "huge.iso" 10737418240 (mkTime 3 0 0)))]
       AtEntry [] [])
  = (Returned (inl [listed (mkFileInfo "huge.iso" 10737418240 (mkTime 3 0 0))
                      EmptyString])
       [mkJob "/srv/huge.iso" (mkTime 3 0 0) 10737418240],
     Returned (inl [listed (mkFileInfo "huge.iso" 10737418240 (mkTime 3 0 0))
                      EmptyString])
       [mkJob "/srv/huge.iso" (mkTime 3 0 0) 10737418240],
     MD5Cache.SetCalculating
       (MD5Cache.SetCalculating ∅ "/srv/huge.iso" (mkTime 3 0 0) 10737418240)
       "/srv/huge.iso" (mkTime 3 0 0) 10737418240).
Proof.
  refine (proj1 (overlapping_listings_start_duplicate_jobs "/srv"
                   (mkDirEntry false
                      (inl (mkFileInfo "huge.iso" 10737418240 (mkTime 3 0 0))))
                   (mkFileInfo "huge.iso" 10737418240 (mkTime 3 0 0)) ∅
                   _ _ _ _)); reflexivity.
Defined.
